(** * MCC Market Context API: structure detector, heatmap fetcher, session
      classifier

    Shallow embedding of [main.py].

    - Prices are Python floats, that is IEEE-754 binary64 numbers.  They are
      modelled with [SpecFloat], the reference implementation of the
      Standard Library, at precision 53 and maximal exponent 1024, so that
      rounding, overflow, infinities and NaN are those of the running
      program.
    - Python exceptions are modelled with an error monad, [result].
    - The exchange, the heatmap service and the clock are outside the
      program: the handler and the fetcher take what they answer as
      parameters.

    The file has the model first, then the notions in which the properties
    are stated, then the lemmas on the floats, and last the properties of
    the specification. *)

From Stdlib Require Import ZArith List String Ascii Bool Lia.
From Stdlib Require Import Sorted Permutation.
From Stdlib Require Import SpecFloat.
Import ListNotations.

Local Open Scope string_scope.
Local Open Scope Z_scope.

(** ** Python floats *)

Module F64.

Definition prec : Z := 53.
Definition emax : Z := 1024.

Definition float : Type := spec_float.

Definition add : float -> float -> float := SFadd prec emax.
Definition mul : float -> float -> float := SFmul prec emax.
Definition div : float -> float -> float := SFdiv prec emax.
Definition ltb : float -> float -> bool := SFltb.
Definition leb : float -> float -> bool := SFleb.
Definition eqb : float -> float -> bool := SFeqb.
(** Python's [a > b]. *)
Definition gtb (a b : float) : bool := SFltb b a.

(** Representation invariant of a binary64 number. *)
Definition valid (x : float) : bool := valid_binary prec emax x.

Definition is_finite (x : float) : bool :=
  match x with
  | S754_zero _ | S754_finite _ _ _ => true
  | _ => false
  end.

Definition is_nan (x : float) : bool :=
  match x with S754_nan => true | _ => false end.

(** [float(n)] for a Python integer [n] in range: correctly rounded. *)
Definition of_Z (n : Z) : float := binary_normalize prec emax n 0 false.

(** The literals of the source, as the binary64 numbers nearest to them. *)
Definition lit_0_98  : float := S754_finite false 8827055269646172 (-53).
Definition lit_1_02  : float := S754_finite false 4593671619917906 (-52).
Definition lit_1_01  : float := S754_finite false 4548635623644201 (-52).
Definition lit_0_995 : float := S754_finite false 8962163258467287 (-53).
Definition lit_1_005 : float := S754_finite false 4526117625507348 (-52).
Definition lit_1_002 : float := S754_finite false 4512606826625237 (-52).
Definition lit_1_004 : float := S754_finite false 4521614025879978 (-52).

(** The largest finite binary64 number, about 1.7976931348623157e308. *)
Definition max_float : float := S754_finite false 9007199254740991 971.

End F64.

(** ** Python exceptions *)

Inductive exn : Type :=
| IndexError
| ValueError
| TypeError
| AttributeError
| OverflowError
| StatisticsError
| JSONDecodeError
| HTTPError.

Inductive result (A : Type) : Type :=
| Ok (a : A)
| Raise (e : exn).

Arguments Ok {A} a.
Arguments Raise {A} e.

Definition bind {A B : Type} (r : result A) (k : A -> result B) : result B :=
  match r with
  | Ok a => k a
  | Raise e => Raise e
  end.

Notation "x <- r ;; k" := (bind r (fun x => k))
  (at level 61, r at next level, right associativity).

(** [try: r except: h], with a bare [except] that catches everything. *)
Definition try_except {A : Type} (r : result A) (h : A) : A :=
  match r with
  | Ok a => a
  | Raise _ => h
  end.

(** ** Python sequences *)

Section PySeq.
Context {A : Type}.

(** [l[i]], negative indices counting from the end. *)
Definition py_index (l : list A) (i : Z) : result A :=
  let n := Z.of_nat (List.length l) in
  let j := if i <? 0 then i + n else i in
  if (j <? 0) || (n <=? j) then Raise IndexError
  else match nth_error l (Z.to_nat j) with
       | Some a => Ok a
       | None => Raise IndexError
       end.

(** [[f(x) for x in l]]: evaluation stops at the first exception. *)
Fixpoint py_listcomp {B : Type} (f : A -> result B) (l : list A)
  : result (list B) :=
  match l with
  | [] => Ok []
  | x :: l' => y <- f x ;; ys <- py_listcomp f l' ;; Ok (y :: ys)
  end.

(** The loop of [max] and [min] over a generator [(f(x) for x in l)]:
    the running extremum is replaced when the new item compares
    strictly beyond it. *)
Fixpoint extremum_loop (beyond : F64.float -> F64.float -> bool)
         (f : A -> result F64.float) (acc : F64.float) (l : list A)
  : result F64.float :=
  match l with
  | [] => Ok acc
  | x :: l' =>
      item <- f x ;;
      extremum_loop beyond f (if beyond item acc then item else acc) l'
  end.

Definition py_extremum (beyond : F64.float -> F64.float -> bool)
           (f : A -> result F64.float) (l : list A) : result F64.float :=
  match l with
  | [] => Raise ValueError
  | x :: l' => first <- f x ;; extremum_loop beyond f first l'
  end.

Definition py_max := py_extremum F64.gtb.
Definition py_min := py_extremum F64.ltb.

End PySeq.

(** [sorted(data)] on floats.  The sort of Python is stable and compares
    with [<] only; where [<] orders the data, that is on data without NaN,
    its result is the one of this insertion sort.  With a NaN among the
    data, the result of Python's sort depends on the steps of its algorithm
    and is not the one of this function: the statements about the median
    keep to data without NaN. *)
Fixpoint insert_sorted (x : F64.float) (l : list F64.float)
  : list F64.float :=
  match l with
  | [] => [x]
  | y :: l' => if F64.ltb y x then y :: insert_sorted x l' else x :: y :: l'
  end.

Definition sorted (data : list F64.float) : list F64.float :=
  fold_right insert_sorted [] data.

(** [statistics.median]. *)
Definition median (data : list F64.float) : result F64.float :=
  let data := sorted data in
  let n := Z.of_nat (List.length data) in
  if n =? 0 then Raise StatisticsError
  else if n mod 2 =? 1 then py_index data (n / 2)
  else
    let i := n / 2 in
    a <- py_index data (i - 1) ;;
    b <- py_index data i ;;
    Ok (F64.div (F64.add a b) (F64.of_Z 2)).

(** ["sub" in s]. *)
Definition py_in (sub s : string) : bool :=
  match String.index 0 sub s with
  | Some _ => true
  | None => false
  end.

(** ** Data model *)

Record ObZone : Type := {
  ob_type : string;
  ob_from_ : F64.float;
  ob_to : F64.float;
  ob_state : string
}.

Record FvgZone : Type := {
  fvg_from_ : F64.float;
  fvg_to : F64.float;
  fvg_state : string
}.

Record LiquidityLevel : Type := {
  liq_type : string;
  liq_price : F64.float
}.

Record CoinglassCluster : Type := {
  side : string;
  price : F64.float;
  size_usd : F64.float
}.

Record TimeframeContext : Type := {
  bias : option string;
  trend : option string;
  bos : option string;
  swing_high : option F64.float;
  swing_low : option F64.float;
  midline_50 : option F64.float;
  ob_zones : list ObZone;
  fvg_zones : list FvgZone;
  micro_liquidity : list LiquidityLevel;
  current_price : option F64.float
}.

Record CoinglassLevels : Type := {
  N1 : list CoinglassCluster;
  N2 : list CoinglassCluster;
  N3 : list CoinglassCluster
}.

Record CoinglassData : Type := {
  heatmap : CoinglassLevels;
  liquidations : CoinglassLevels
}.

(** A dict with string keys, in insertion order. *)
Definition dict (V : Type) : Type := list (string * V).

Fixpoint dict_get {V : Type} (d : dict V) (k : string) : option V :=
  match d with
  | [] => None
  | (k', v) :: d' => if String.eqb k' k then Some v else dict_get d' k
  end.

(** ** Structure detector *)

(** One row of [fetch_ohlcv]:
    [[timestamp, open, high, low, close, volume]].  The detector reads the
    fields 2, 3 and 4 only; the timestamp, an integer, is held as a float
    here. *)
Definition candle : Type := list F64.float.

Definition bos_of (trend_val : string) : string :=
  if py_in "bullish" trend_val then "up" else "down".

Definition detect_structure_and_liquidity
           (ohlcv_1d ohlcv_4h ohlcv_1h ohlcv_15m : list candle)
  : result (dict TimeframeContext) :=
  last <- py_index ohlcv_15m (-1) ;;
  latest_price <- py_index last 4 ;;
  swing_high <- py_max (fun c => py_index c 2) ohlcv_1d ;;
  swing_low <- py_min (fun c => py_index c 3) ohlcv_1d ;;
  let midline := F64.div (F64.add swing_high swing_low) (F64.of_Z 2) in
  closes <- py_listcomp (fun c => py_index c 4) ohlcv_4h ;;
  median_4h <- median closes ;;
  let trend_val :=
    if F64.gtb latest_price median_4h then "bullish_HH_HL"
    else "bearish_LH_LL" in
  let bias :=
    if F64.ltb latest_price midline then "discount_LONG"
    else "premium_SHORT" in
  let tf_1d := {|
    bias := Some bias; trend := Some trend_val;
    bos := Some (bos_of trend_val);
    swing_high := Some swing_high; swing_low := Some swing_low;
    midline_50 := Some midline;
    ob_zones := []; fvg_zones := []; micro_liquidity := [];
    current_price := Some latest_price |} in
  let tf_4h := {|
    bias := None; trend := None;
    bos := Some (bos_of trend_val);
    swing_high := None; swing_low := None; midline_50 := None;
    ob_zones := [ {| ob_type := "bullish";
                     ob_from_ := F64.mul midline F64.lit_0_98;
                     ob_to := F64.mul midline F64.lit_1_02;
                     ob_state := "decisional" |} ];
    fvg_zones := [ {| fvg_from_ := F64.mul midline F64.lit_1_01;
                      fvg_to := F64.mul midline F64.lit_1_02;
                      fvg_state := "active" |} ];
    micro_liquidity := [];
    current_price := None |} in
  let tf_1h := {|
    bias := None; trend := None;
    bos := Some (bos_of trend_val);
    swing_high := None; swing_low := None; midline_50 := None;
    ob_zones := [ {| ob_type := "bullish";
                     ob_from_ := F64.mul latest_price F64.lit_0_995;
                     ob_to := F64.mul latest_price F64.lit_1_005;
                     ob_state := "fresh" |} ];
    fvg_zones := [ {| fvg_from_ := F64.mul latest_price F64.lit_1_002;
                      fvg_to := F64.mul latest_price F64.lit_1_004;
                      fvg_state := "valid" |} ];
    micro_liquidity := [];
    current_price := None |} in
  let tf_15m := {|
    bias := None; trend := None;
    bos := Some (bos_of trend_val);
    swing_high := None; swing_low := None; midline_50 := None;
    ob_zones := []; fvg_zones := [];
    micro_liquidity :=
      [ {| liq_type := "EQH";
           liq_price := F64.mul latest_price F64.lit_1_005 |};
        {| liq_type := "EQL";
           liq_price := F64.mul latest_price F64.lit_0_995 |} ];
    current_price := Some latest_price |} in
  Ok [("1D", tf_1d); ("4H", tf_4h); ("1H", tf_1h); ("15m", tf_15m)].

(** ** Session classifier *)

(** [detect_session] reads the clock; [h] is the hour it obtains from
    [datetime.datetime.utcnow().hour]. *)
Definition detect_session (h : Z) : string :=
  if (12 <=? h) && (h <? 20) then "NY"
  else if (7 <=? h) && (h <? 12) then "LDN"
  else "ASIA".

(** ** Heatmap cluster fetcher *)

(** A value returned by [r.json()].  [JObj] holds the items of a dict, each
    key once. *)
#[local] Unset Elimination Schemes.
Inductive json : Type :=
| JNull
| JBool (b : bool)
| JInt (n : Z)
| JFloat (x : F64.float)
| JStr (s : string)
| JArr (l : list json)
| JObj (d : list (string * json)).
#[local] Set Elimination Schemes.

Record http_response : Type := {
  status_code : Z;
  (** what [r.json()] does on this response *)
  json_body : result json
}.

(** [bool(v)]. *)
Definition truthy (v : json) : bool :=
  match v with
  | JNull => false
  | JBool b => b
  | JInt n => negb (n =? 0)
  | JFloat (S754_zero _) => false
  | JFloat _ => true
  | JStr s => negb (String.eqb s "")
  | JArr l => match l with [] => false | _ => true end
  | JObj d => match d with [] => false | _ => true end
  end.

(** [v.get(k, default)]: only a dict has the method. *)
Definition json_get (v : json) (k : string) (default : json) : result json :=
  match v with
  | JObj d => Ok (match dict_get d k with Some x => x | None => default end)
  | _ => Raise AttributeError
  end.

(** [v == "s"]. *)
Definition json_eq_str (v : json) (s : string) : bool :=
  match v with
  | JStr s' => String.eqb s' s
  | _ => false
  end.

(** The items of [for i in data[:3]].  A list and a string can be sliced;
    slicing anything else raises, outside of every [try]. *)
Definition json_slice3 (data : json) : result (list json) :=
  match data with
  | JArr l => Ok (firstn 3 l)
  | JStr s =>
      Ok (map (fun c => JStr (String c EmptyString))
              (list_ascii_of_string (substring 0 3 s)))
  | _ => Raise TypeError
  end.

Fixpoint replace_slash (s : string) : string :=
  match s with
  | EmptyString => EmptyString
  | String c s' =>
      if Ascii.eqb c "/"%char then replace_slash s'
      else String c (replace_slash s')
  end.

(** [str.upper], on the ASCII letters: the letters a to z are put in upper
    case and every other character is kept.  Beyond ASCII, [str.upper]
    follows Unicode, which these byte strings do not hold: the statements
    about the URL keep to symbols of ASCII characters. *)
Definition upper_char (c : ascii) : ascii :=
  let n := nat_of_ascii c in
  if (Nat.leb 97 n && Nat.leb n 122)%bool then ascii_of_nat (n - 32) else c.

Fixpoint upper (s : string) : string :=
  match s with
  | EmptyString => EmptyString
  | String c s' => String (upper_char c) (upper s')
  end.

Section Fetcher.

(** [float(s)] on a string, which parses it or raises [ValueError]. *)
Variable float_of_str : string -> result F64.float.

(** [client.get(url, headers=headers)]: the answer of the service, or
    the exception of the network call. *)
Variable http_get : string -> dict string -> result http_response.

(** [float(v)]. *)
Definition py_float (v : json) : result F64.float :=
  match v with
  | JFloat x => Ok x
  | JInt n =>
      let x := F64.of_Z n in
      if F64.is_finite x then Ok x else Raise OverflowError
  | JBool b => Ok (F64.of_Z (if b then 1 else 0))
  | JStr s => float_of_str s
  | JNull | JArr _ | JObj _ => Raise TypeError
  end.

(** The constructor call inside the loop's [try]. *)
Definition entry_cluster (i : json) : result CoinglassCluster :=
  s <- json_get i "side" JNull ;;
  p <- json_get i "price" (JInt 0) ;;
  price <- py_float p ;;
  z <- json_get i "size" (JInt 0) ;;
  size_usd <- py_float z ;;
  Ok {| side := if json_eq_str s "short" then "short" else "long";
        price := price;
        size_usd := size_usd |}.

(** The loop body appends to [clusters]; [except: pass] leaves it as it
    was. *)
Fixpoint clusters_loop (clusters : list CoinglassCluster) (items : list json)
  : list CoinglassCluster :=
  match items with
  | [] => clusters
  | i :: items' =>
      clusters_loop
        (try_except (c <- entry_cluster i ;; Ok (clusters ++ [c])%list)
                    clusters)
        items'
  end.

Definition heatmap_url (symbol : string) : string :=
  let symbol_cg := upper (replace_slash symbol) in
  let api_base := "https://open-api.coinglass.com/api/pro/v1" in
  api_base ++ "/futures/liquidation_heatmap?symbol=" ++ symbol_cg.

Definition coinglass_headers : dict string :=
  [("accept", "application/json"); ("coinglassSecret", "DEMO")].

Definition fetch_coinglass_clusters (symbol : string)
  : result CoinglassData :=
  let headers := coinglass_headers in
  let data :=
    try_except
      (r <- http_get (heatmap_url symbol) headers ;;
       if status_code r =? 200
       then (body <- json_body r ;; json_get body "data" (JArr []))
       else Ok (JArr []))
      (JArr []) in
  clusters <-
    (if truthy data
     then (items <- json_slice3 data ;; Ok (clusters_loop [] items))
     else Ok []) ;;
  Ok {| heatmap := {| N1 := []; N2 := []; N3 := clusters |};
        liquidations := {| N1 := []; N2 := []; N3 := [] |} |}.

(** ** Request handler *)

Record MccMarketContext : Type := {
  symbol : string;
  session : string;
  timeframes : dict TimeframeContext;
  coinglass : option CoinglassData
}.

(** [exchange.fetch_ohlcv(symbol, timeframe=timeframe,
    limit=lookback_bars)] *)
Variable fetch_ohlcv : string -> string -> Z -> result (list candle).

(** The hour of the clock at the time of the request. *)
Variable utc_hour : Z.

Definition get_market_context (symbol timeframe : string)
           (lookback_bars : Z) (include_coinglass : bool)
  : result MccMarketContext :=
  o1 <- fetch_ohlcv symbol "1d" lookback_bars ;;
  o4 <- fetch_ohlcv symbol "4h" lookback_bars ;;
  oh <- fetch_ohlcv symbol "1h" lookback_bars ;;
  o15 <- fetch_ohlcv symbol "15m" lookback_bars ;;
  ctx <- detect_structure_and_liquidity o1 o4 oh o15 ;;
  cg <- (if include_coinglass
         then (c <- fetch_coinglass_clusters symbol ;; Ok (Some c))
         else Ok None) ;;
  Ok {| symbol := symbol; session := detect_session utc_hour;
        timeframes := ctx; coinglass := cg |}.

End Fetcher.

(** ** Quantities of the structure detector *)

(** [ohlcv_15m[-1][4]] *)
Definition latest_price_of (ohlcv_15m : list candle) : result F64.float :=
  last <- py_index ohlcv_15m (-1) ;; py_index last 4.

(** [max(c[2] for c in ohlcv_1d)] *)
Definition swing_high_of (ohlcv_1d : list candle) : result F64.float :=
  py_max (fun c => py_index c 2) ohlcv_1d.

(** [min(c[3] for c in ohlcv_1d)] *)
Definition swing_low_of (ohlcv_1d : list candle) : result F64.float :=
  py_min (fun c => py_index c 3) ohlcv_1d.

(** [(swing_high + swing_low) / 2] *)
Definition midline_of (sh sl : F64.float) : F64.float :=
  F64.div (F64.add sh sl) (F64.of_Z 2).

(** [statistics.median([c[4] for c in ohlcv_4h])] *)
Definition median_4h_of (ohlcv_4h : list candle) : result F64.float :=
  closes <- py_listcomp (fun c => py_index c 4) ohlcv_4h ;; median closes.

(** [[c[2] for c in ohlcv_1d]], [[c[3] for c in ohlcv_1d]] and
    [[c[4] for c in ohlcv_4h]] *)
Definition highs_of (series : list candle) : result (list F64.float) :=
  py_listcomp (fun c => py_index c 2) series.

Definition lows_of (series : list candle) : result (list F64.float) :=
  py_listcomp (fun c => py_index c 3) series.

Definition closes_of (series : list candle) : result (list F64.float) :=
  py_listcomp (fun c => py_index c 4) series.

(** A series on which the detector raises nothing: it is not empty and
    its rows have five fields or more. *)
Definition well_shaped (series : list candle) : Prop :=
  series <> [] /\ Forall (fun c : candle => (5 <= List.length c)%nat) series.

(** ** Sample inputs *)

(** A row [[0, open, high, low, close, 0]] with integral prices. *)
Definition row (o h l c : Z) : candle :=
  [F64.of_Z 0; F64.of_Z o; F64.of_Z h; F64.of_Z l; F64.of_Z c; F64.of_Z 0].

Definition sample_1d : list candle :=
  [row 95 100 90 98; row 98 110 95 104; row 104 105 92 97].

Definition sample_4h : list candle :=
  [row 97 99 96 98; row 98 103 97 102; row 102 102 98 99; row 99 101 98 101].

Definition sample_1h : list candle := [row 99 101 98 100].

Definition sample_15m : list candle := [row 99 100 96 98; row 98 99 96 97].

(** The same market with a last price of 103, above the 4-hour median. *)
Definition sample_15m_high : list candle :=
  [row 99 100 96 98; row 98 104 97 103].

(** ** Heatmap answers and entries *)

(** The ways in which the heatmap call gives no data. *)
Inductive heatmap_call_fails (answer : result http_response) : Prop :=
| call_raises (e : exn) :
    answer = Raise e -> heatmap_call_fails answer
| call_not_200 (r : http_response) :
    answer = Ok r -> status_code r <> 200 -> heatmap_call_fails answer
| call_unparsable (r : http_response) (e : exn) :
    answer = Ok r -> json_body r = Raise e -> heatmap_call_fails answer.

(** A 200 answer whose body is an object with the list [entries] under
    ["data"]. *)
Definition heatmap_answer (answer : result http_response)
           (entries : list json) : Prop :=
  exists r d,
    answer = Ok r /\ status_code r = 200 /\ json_body r = Ok (JObj d) /\
    dict_get d "data" = Some (JArr entries).

(** [d.get(k, 0)] *)
Definition field_or_zero (d : list (string * json)) (k : string) : json :=
  match dict_get d k with
  | Some v => v
  | None => JInt 0
  end.

(** [d.get("side")] *)
Definition side_field (d : list (string * json)) : json :=
  match dict_get d "side" with
  | Some v => v
  | None => JNull
  end.

Definition raises {A : Type} (r : result A) : bool :=
  match r with
  | Ok _ => false
  | Raise _ => true
  end.

(** What one turn of the loop adds to [clusters]. *)
Definition kept_cluster (float_of_str : string -> result F64.float)
           (i : json) : list CoinglassCluster :=
  match entry_cluster float_of_str i with
  | Ok c => [c]
  | Raise _ => []
  end.

(** The entries on which the loop body raises: those that are no object,
    and those whose price or size [float] rejects. *)
Definition unparsable (float_of_str : string -> result F64.float)
           (i : json) : bool :=
  match i with
  | JObj d =>
      raises (py_float float_of_str (field_or_zero d "price"))
      || raises (py_float float_of_str (field_or_zero d "size"))
  | _ => true
  end.

(** The cluster of an entry on which the loop body does not raise. *)
Inductive entry_yields (float_of_str : string -> result F64.float)
  : json -> CoinglassCluster -> Prop :=
| entry_yields_intro (d : list (string * json)) (x y : F64.float) :
    py_float float_of_str (field_or_zero d "price") = Ok x ->
    py_float float_of_str (field_or_zero d "size") = Ok y ->
    entry_yields float_of_str (JObj d)
      {| side := if json_eq_str (side_field d) "short" then "short"
                 else "long";
         price := x;
         size_usd := y |}.

Definition json_number (v : json) : bool :=
  match v with
  | JInt _ | JFloat _ => true
  | _ => false
  end.

(** A malformed entry in the words of the specification: it lacks one of
    its three fields, or its price or size is not a number. *)
Definition malformed (i : json) : bool :=
  match i with
  | JObj d =>
      match dict_get d "side", dict_get d "price", dict_get d "size" with
      | Some _, Some p, Some z => negb (json_number p && json_number z)
      | _, _, _ => true
      end
  | _ => true
  end.

(** The float of a JSON number, when it has one. *)
Definition number_value (v : json) : option F64.float :=
  match v with
  | JFloat x => Some x
  | JInt n =>
      if F64.is_finite (F64.of_Z n) then Some (F64.of_Z n) else None
  | _ => None
  end.

(** A well-formed entry: a side that is "long" or "short", and a price and
    a size that are numbers in the range of the floats. *)
Inductive valid_entry : json -> CoinglassCluster -> Prop :=
| valid_entry_intro (d : list (string * json)) (s : string)
                    (p z : json) (x y : F64.float) :
    dict_get d "side" = Some (JStr s) ->
    s = "long" \/ s = "short" ->
    dict_get d "price" = Some p ->
    dict_get d "size" = Some z ->
    number_value p = Some x ->
    number_value z = Some y ->
    valid_entry (JObj d) {| side := s; price := x; size_usd := y |}.

(** ** Sample answers *)

(** A service that answers 500. *)
Definition answer_500 : string -> dict string -> result http_response :=
  fun _ _ => Ok {| status_code := 500; json_body := Raise JSONDecodeError |}.

(** A service that answers 200 with the given entries. *)
Definition answer_entries (entries : list json)
  : string -> dict string -> result http_response :=
  fun _ _ =>
    Ok {| status_code := 200;
          json_body := Ok (JObj [("code", JStr "0");
                                 ("data", JArr entries)]) |}.

Definition entry (s : string) (p z : Z) : json :=
  JObj [("side", JStr s); ("price", JInt p); ("size", JInt z)].

Definition five_entries : list json :=
  [entry "long" 64000 1200000; entry "short" 66500 3400000;
   entry "short" 67000 900000; entry "long" 63000 2500000;
   entry "short" 70000 5000000].

Definition five_clusters : list CoinglassCluster :=
  [ {| side := "long"; price := F64.of_Z 64000;
       size_usd := F64.of_Z 1200000 |};
    {| side := "short"; price := F64.of_Z 66500;
       size_usd := F64.of_Z 3400000 |};
    {| side := "short"; price := F64.of_Z 67000;
       size_usd := F64.of_Z 900000 |};
    {| side := "long"; price := F64.of_Z 63000;
       size_usd := F64.of_Z 2500000 |};
    {| side := "short"; price := F64.of_Z 70000;
       size_usd := F64.of_Z 5000000 |} ].

(** An entry without a price. *)
Definition entry_without_price : json :=
  JObj [("side", JStr "short"); ("size", JInt 5)].

Definition no_float_of_str : string -> result F64.float :=
  fun _ => Raise ValueError.

(** An exchange that serves the sample series. *)
Definition sample_exchange (symbol timeframe : string) (limit : Z)
  : result (list candle) :=
  if String.eqb timeframe "1d" then Ok sample_1d
  else if String.eqb timeframe "4h" then Ok sample_4h
  else if String.eqb timeframe "1h" then Ok sample_1h
  else Ok sample_15m.

(** ** The order and the rounding of the floats *)

(** A binary64 number other than NaN. *)
Definition number (x : F64.float) : Prop :=
  F64.valid x = true /\ F64.is_nan x = false.

(** The value of a float in units of 2^-1075, half the least positive
    float.  The infinities stand at 2^2100, beyond every finite float. *)
Definition units (x : F64.float) : Z :=
  match x with
  | S754_zero _ => 0
  | S754_finite s m e => cond_Zopp s (Z.pos m * 2 ^ (e + 1075))
  | S754_infinity s => cond_Zopp s (2 ^ 2100)
  | S754_nan => 0
  end.

(** The exponent, in these units, of the grid on which a value is
    rounded. *)
Definition cexp (N : Z) : Z := Z.max (Z.log2 (Z.abs N) + 1 - 53) 1.

(** [V] lies on the grid of [N], less than one step away from it. *)
Definition faithful (N V : Z) : Prop :=
  (2 ^ cexp N | V) /\ Z.abs (V - N) < 2 ^ cexp N.

(** The values with a mantissa of 53 bits. *)
Definition representable (b : Z) : Prop :=
  exists m j, b = m * 2 ^ j /\ Z.abs m < 2 ^ 53 /\ 1 <= j.

(** ** The median of the specification *)



(** ** Well-formed candles *)

(** A row whose low and high are binary64 numbers with low <= high. *)
Definition well_formed_candle (c : candle) : Prop :=
  exists h l,
    py_index c 2 = Ok h /\ py_index c 3 = Ok l /\
    F64.valid h = true /\ F64.valid l = true /\ F64.leb l h = true.

(** A day on which the price stayed at the largest float. *)
Definition huge_1d : list candle :=
  [[F64.of_Z 0; F64.max_float; F64.max_float; F64.max_float; F64.max_float;
    F64.of_Z 0]].

(** ** What the detector does with a malformed input *)

(** A row too short for its field [n - 1]. *)
Definition shorter (n : nat) (c : candle) : bool := Nat.ltb (List.length c) n.

(** The exception of the detector on these series, if it raises one: the
    first of its steps that fails decides. *)
Definition detect_exception (ohlcv_1d ohlcv_4h ohlcv_15m : list candle)
  : option exn :=
  match List.last (map Some ohlcv_15m) None with
  | None => Some IndexError
  | Some last =>
      if shorter 5 last then Some IndexError
      else match ohlcv_1d with
           | [] => Some ValueError
           | _ :: _ =>
               if existsb (shorter 4) ohlcv_1d then Some IndexError
               else if existsb (shorter 5) ohlcv_4h then Some IndexError
               else match ohlcv_4h with
                    | [] => Some StatisticsError
                    | _ :: _ => None
                    end
           end
  end.

(** The same market as [sample_1d], [sample_4h] and [sample_15m] with other
    opens, volumes and timestamps, a fifth field missing from no row that
    needs it, and an earlier 15-minute row more. *)
Definition other_1d : list candle :=
  [[F64.of_Z 1; F64.of_Z 96; F64.of_Z 100; F64.of_Z 90];
   [F64.of_Z 2; F64.of_Z 99; F64.of_Z 110; F64.of_Z 95; F64.of_Z 101];
   [F64.of_Z 3; F64.of_Z 100; F64.of_Z 105; F64.of_Z 92; F64.of_Z 97;
    F64.of_Z 7; F64.of_Z 8]].

Definition other_4h : list candle :=
  [row 1 2 3 98; row 4 5 6 102; row 7 8 9 99; row 10 11 12 101].

Definition other_15m : list candle :=
  [[]; row 99 100 96 98; row 1 2 3 97].

(** ** Heatmap answers without entries, and answers that cannot be read *)

(** A 200 answer with this body, whatever it holds. *)
Definition heatmap_body (answer : result http_response) (body : json) : Prop :=
  exists r, answer = Ok r /\ status_code r = 200 /\ json_body r = Ok body.

(** The bodies in which the fetcher finds no entry: a body that is no
    object, an object without ["data"], and an object whose ["data"] is
    falsy or a string. *)
Inductive no_entries : json -> Prop :=
| body_not_object (b : json) :
    (forall d, b <> JObj d) -> no_entries b
| body_without_data (d : list (string * json)) :
    dict_get d "data" = None -> no_entries (JObj d)
| body_falsy_data (d : list (string * json)) (v : json) :
    dict_get d "data" = Some v -> truthy v = false -> no_entries (JObj d)
| body_string_data (d : list (string * json)) (s : string) :
    dict_get d "data" = Some (JStr s) -> no_entries (JObj d).

(** The values that are neither a list nor a string. *)
Definition unsliceable (v : json) : bool :=
  match v with
  | JArr _ | JStr _ => false
  | _ => true
  end.

(** A service that answers 200 with this body. *)
Definition answer_body (body : json)
  : string -> dict string -> result http_response :=
  fun _ _ => Ok {| status_code := 200; json_body := Ok body |}.

(** An error envelope, as services send with a 200 status. *)
Definition error_body : json :=
  JObj [("code", JStr "30001"); ("msg", JStr "secret invalid");
        ("success", JBool false)].

(** A body whose ["data"] is an object. *)
Definition object_data_body : json :=
  JObj [("code", JStr "0");
        ("data", JObj [("BTC", JArr [entry "long" 64000 1200000])])].

(** A code of the ASCII range. *)
Definition is_ascii (c : ascii) : bool := Nat.ltb (nat_of_ascii c) 128.

Definition is_lower (c : ascii) : bool :=
  (Nat.leb 97 (nat_of_ascii c) && Nat.leb (nat_of_ascii c) 122)%bool.

Fixpoint string_forallb (f : ascii -> bool) (s : string) : bool :=
  match s with
  | EmptyString => true
  | String c s' => f c && string_forallb f s'
  end.

(** ** Exchanges *)

(** The timeframes of the four requests to the exchange, in their order. *)
Definition fetched_timeframes : list string := ["1d"; "4h"; "1h"; "15m"].

(** An exchange that fails on the hourly series only. *)
Definition exchange_without_1h (symbol timeframe : string) (limit : Z)
  : result (list candle) :=
  if String.eqb timeframe "1h" then Raise HTTPError
  else sample_exchange symbol timeframe limit.

(** An exchange that knows no candle of the symbol. *)
Definition empty_exchange (symbol timeframe : string) (limit : Z)
  : result (list candle) := Ok [].

(** The heatmap answers on which the fetcher returns. *)
Inductive heatmap_readable (answer : result http_response) : Prop :=
| readable_failure :
    heatmap_call_fails answer -> heatmap_readable answer
| readable_entries (entries : list json) :
    heatmap_answer answer entries -> heatmap_readable answer
| readable_nothing (body : json) :
    heatmap_body answer body -> no_entries body -> heatmap_readable answer.

(** ** Rounding to nearest, for products *)

(** The product of two floats is a multiple of 2^-2150; values are counted
    in this unit here, and the least positive float is 2^1076 of it. *)
Definition cexp_fine (N : Z) : Z := Z.max (Z.log2 (Z.abs N) + 1 - 53) 1076.

(** [W] lies on the grid of [N], at most half a step away from it. *)
Definition nearest (N W : Z) : Prop :=
  (2 ^ cexp_fine N | W) /\ 2 * Z.abs (W - N) <= 2 ^ cexp_fine N.

Definition representable_fine (b : Z) : Prop :=
  exists m j, b = m * 2 ^ j /\ Z.abs m < 2 ^ 53 /\ 1076 <= j.

(** What a record holds of the number [X] once [k] of its bits are shifted
    out: the quotient, whether the bits shifted out reach one half, and
    whether they are zero or one half when the sticky bit is clear. *)
Definition shr_reads (X k : Z) (mrs : shr_record) : Prop :=
  0 <= k /\
  shr_m mrs = X / 2 ^ k /\
  (shr_r mrs = true <-> 2 ^ k <= 2 * (X mod 2 ^ k)) /\
  (shr_s mrs = false -> (2 * (X mod 2 ^ k)) mod 2 ^ k = 0).

(** The float that stands for the rounded magnitude [W], in units of
    2^-2150, with the sign [s]: an infinity from 2^1024 on. *)
Definition rounded_units (s : bool) (W : Z) : Z :=
  cond_Zopp s (if W <? 2 ^ 3174 then W else 2 ^ 3175).

(** A 15-minute series whose last prices are NaN. *)
Definition nan_15m : list candle :=
  [row 99 100 96 98;
   [F64.of_Z 0; S754_nan; S754_nan; S754_nan; S754_nan; F64.of_Z 0]].

(** * Properties *)

(** ** The error monad *)

Lemma bind_Ok_inv {A B : Type} (r : result A) (k : A -> result B) (b : B) :
  bind r k = Ok b -> exists a, r = Ok a /\ k a = Ok b.
Proof.
  destruct r as [a|e]; simpl; intros H; [eauto | discriminate].
Qed.

(** Peels the first step off a computation that is known to return. *)
Ltac bind_inv H :=
  let a := fresh "v" in
  let E := fresh "E" in
  apply bind_Ok_inv in H; destruct H as (a & E & H).

Ltac ok_inv H := injection H as H; subst.

(** What the detector computes before it builds its answer. *)
Lemma detect_quantities ohlcv_1d ohlcv_4h ohlcv_1h ohlcv_15m r :
  detect_structure_and_liquidity ohlcv_1d ohlcv_4h ohlcv_1h ohlcv_15m = Ok r ->
  exists p sh sl med tf_1d tf_4h tf_1h tf_15m,
    latest_price_of ohlcv_15m = Ok p /\
    swing_high_of ohlcv_1d = Ok sh /\
    swing_low_of ohlcv_1d = Ok sl /\
    median_4h_of ohlcv_4h = Ok med /\
    r = [("1D", tf_1d); ("4H", tf_4h); ("1H", tf_1h); ("15m", tf_15m)] /\
    let trend_val :=
      if F64.gtb p med then "bullish_HH_HL"
      else "bearish_LH_LL" in
    (bias tf_1d =
       Some (if F64.ltb p (midline_of sh sl)
             then "discount_LONG" else "premium_SHORT") /\
     trend tf_1d = Some trend_val /\
     swing_high tf_1d = Some sh /\
     swing_low tf_1d = Some sl /\
     midline_50 tf_1d = Some (midline_of sh sl) /\
     current_price tf_1d = Some p) /\
    (bos tf_1d = Some (bos_of trend_val) /\
     bos tf_4h = Some (bos_of trend_val) /\
     bos tf_1h = Some (bos_of trend_val) /\
     bos tf_15m = Some (bos_of trend_val)) /\
    (exists z4 z1,
        ob_zones tf_4h = [z4] /\ ob_type z4 = "bullish" /\
        ob_zones tf_1h = [z1] /\ ob_type z1 = "bullish").
Proof.
  unfold detect_structure_and_liquidity.
  intros H.
  bind_inv H. rename v into last, E into Elast.
  bind_inv H. rename v into p, E into Ep.
  bind_inv H. rename v into sh, E into Esh.
  bind_inv H. rename v into sl, E into Esl.
  bind_inv H. rename v into closes, E into Ecl.
  bind_inv H. rename v into med, E into Emed.
  ok_inv H.
  exists p, sh, sl, med.
  do 4 eexists.
  split. { unfold latest_price_of. rewrite Elast. exact Ep. }
  split. { exact Esh. }
  split. { exact Esl. }
  split. { unfold median_4h_of. rewrite Ecl. exact Emed. }
  split. { reflexivity. }
  cbv zeta. simpl.
  repeat split.
  do 2 eexists. repeat split.
Qed.

Lemma py_index_in_range {A : Type} (l : list A) (i : nat) :
  (i < List.length l)%nat -> exists a, py_index l (Z.of_nat i) = Ok a.
Proof.
  intros Hi. unfold py_index.
  destruct (Z.ltb_spec (Z.of_nat i) 0) as [Hn|_]; [lia|].
  destruct (Z.ltb_spec (Z.of_nat i) 0) as [Hn|_]; [lia|].
  destruct (Z.leb_spec (Z.of_nat (List.length l)) (Z.of_nat i)) as [Hn|_];
    [lia|].
  simpl. rewrite Nat2Z.id.
  destruct (nth_error l i) eqn:E; [eauto|].
  apply nth_error_None in E. lia.
Qed.

Lemma py_index_last {A : Type} (l : list A) (a : A) :
  py_index (l ++ [a])%list (-1) = Ok a.
Proof.
  unfold py_index. rewrite length_app. cbn [List.length].
  change (-1 <? 0) with true. cbv iota.
  set (n := Z.of_nat (List.length l + 1)).
  assert (Hn : n = Z.of_nat (List.length l) + 1) by (unfold n; lia).
  destruct (Z.ltb_spec (-1 + n) 0) as [H|_]; [lia|].
  destruct (Z.leb_spec n (-1 + n)) as [H|_]; [lia|].
  cbn [orb].
  replace (Z.to_nat (-1 + n)) with (List.length l) by lia.
  rewrite nth_error_app2 by lia. rewrite Nat.sub_diag. reflexivity.
Qed.

Lemma py_index_last_nonempty {A : Type} (l : list A) :
  l <> [] -> exists a, In a l /\ py_index l (-1) = Ok a.
Proof.
  intros Hl. destruct (exists_last Hl) as (l' & a & ->).
  exists a. split; [apply in_or_app; right; left; reflexivity|].
  apply py_index_last.
Qed.

Lemma py_index_nat_Ok {A : Type} (l : list A) (i : Z) :
  0 <= i < Z.of_nat (List.length l) -> exists a, py_index l i = Ok a.
Proof.
  intros Hi. replace i with (Z.of_nat (Z.to_nat i)) by lia.
  apply py_index_in_range. lia.
Qed.

Lemma py_index_In {A : Type} (l : list A) (i : Z) (a : A) :
  py_index l i = Ok a -> In a l.
Proof.
  unfold py_index.
  destruct (_ || _); [discriminate|].
  destruct (nth_error l _) eqn:E; [|discriminate].
  intros H. ok_inv H. eapply nth_error_In; eassumption.
Qed.

Lemma extremum_loop_returns {A : Type} beyond (f : A -> result F64.float) l :
  Forall (fun x => exists y, f x = Ok y) l ->
  forall acc, exists y, extremum_loop beyond f acc l = Ok y.
Proof.
  induction 1 as [|x l (y & Hy) _ IH]; intros acc; simpl.
  - eauto.
  - rewrite Hy. simpl. apply IH.
Qed.

Lemma py_extremum_returns {A : Type} beyond (f : A -> result F64.float) l :
  l <> [] -> Forall (fun x => exists y, f x = Ok y) l ->
  exists y, py_extremum beyond f l = Ok y.
Proof.
  intros Hl HF. destruct l as [|x l]; [congruence|].
  inversion HF as [|? ? (y & Hy) HF']; subst.
  simpl. rewrite Hy. simpl. apply extremum_loop_returns. exact HF'.
Qed.

Lemma py_listcomp_returns {A B : Type} (f : A -> result B) l :
  Forall (fun x => exists y, f x = Ok y) l ->
  exists ys, py_listcomp f l = Ok ys /\ List.length ys = List.length l.
Proof.
  induction 1 as [|x l (y & Hy) _ (ys & IH & Hlen)]; simpl.
  - eauto.
  - rewrite Hy, IH. simpl. exists (y :: ys). simpl. auto.
Qed.

Lemma insert_sorted_length x l :
  List.length (insert_sorted x l) = S (List.length l).
Proof.
  induction l as [|y l IH]; simpl; [reflexivity|].
  destruct (F64.ltb y x); simpl; congruence.
Qed.

Lemma sorted_length data : List.length (sorted data) = List.length data.
Proof.
  induction data as [|x data IH]; simpl; [reflexivity|].
  rewrite insert_sorted_length. congruence.
Qed.

Lemma median_returns data : data <> [] -> exists m, median data = Ok m.
Proof.
  intros Hd. unfold median. rewrite sorted_length.
  set (n := Z.of_nat (List.length data)).
  assert (Hn : 0 < n).
  { unfold n. destruct data; [congruence|]. simpl List.length. lia. }
  destruct (Z.eqb_spec n 0) as [H0|_]; [lia|].
  assert (Hlen : Z.of_nat (List.length (sorted data)) = n)
    by (rewrite sorted_length; reflexivity).
  destruct (Z.eqb_spec (n mod 2) 1) as [Hodd|Heven].
  - apply py_index_nat_Ok. rewrite Hlen.
    split; [apply Z.div_pos; lia | apply Z.div_lt_upper_bound; lia].
  - assert (Hmod : n mod 2 = 0)
      by (pose proof (Z.mod_pos_bound n 2 ltac:(lia)); lia).
    pose proof (Z.div_mod n 2 ltac:(lia)) as Hdm.
    destruct (py_index_nat_Ok (sorted data) (n / 2 - 1)) as (a & Ha);
      [rewrite Hlen; lia|].
    destruct (py_index_nat_Ok (sorted data) (n / 2)) as (b & Hb);
      [rewrite Hlen; lia|].
    rewrite Ha, Hb. simpl. eauto.
Qed.

Lemma field_of_well_shaped (series : list candle) (i : nat) :
  (i < 5)%nat -> well_shaped series ->
  Forall (fun c => exists y, py_index c (Z.of_nat i) = Ok y) series.
Proof.
  intros Hi [_ HF]. eapply Forall_impl; [|exact HF].
  intros c Hc. cbv beta in Hc. apply py_index_in_range. lia.
Qed.

(** On well-shaped input the detector raises nothing. *)
Lemma detect_returns ohlcv_1d ohlcv_4h ohlcv_1h ohlcv_15m :
  well_shaped ohlcv_1d -> well_shaped ohlcv_4h -> well_shaped ohlcv_15m ->
  exists r,
    detect_structure_and_liquidity ohlcv_1d ohlcv_4h ohlcv_1h ohlcv_15m = Ok r.
Proof.
  intros H1 H4 H15. unfold detect_structure_and_liquidity.
  destruct (py_index_last_nonempty ohlcv_15m (proj1 H15)) as (last & Hin & ->).
  cbn [bind].
  destruct (py_index_in_range last 4) as (p & Hp).
  { destruct H15 as [_ HF]. rewrite Forall_forall in HF.
    specialize (HF _ Hin). simpl in HF. lia. }
  change (Z.of_nat 4) with 4 in Hp. rewrite Hp. cbn [bind].
  destruct (py_extremum_returns F64.gtb (fun c : list F64.float => py_index c 2)
              ohlcv_1d (proj1 H1)) as (sh & Hsh).
  { apply (field_of_well_shaped ohlcv_1d 2); [lia|exact H1]. }
  unfold py_max. rewrite Hsh. cbn [bind].
  destruct (py_extremum_returns F64.ltb (fun c : list F64.float => py_index c 3)
              ohlcv_1d (proj1 H1)) as (sl & Hsl).
  { apply (field_of_well_shaped ohlcv_1d 3); [lia|exact H1]. }
  unfold py_min. rewrite Hsl. cbn [bind].
  destruct (py_listcomp_returns (fun c : list F64.float => py_index c 4) ohlcv_4h)
    as (closes & Hcl & Hlen).
  { apply (field_of_well_shaped ohlcv_4h 4); [lia|exact H4]. }
  rewrite Hcl. cbn [bind].
  destruct (median_returns closes) as (med & Hmed).
  { intros ->. destruct H4 as [Hne _]. destruct ohlcv_4h; [congruence|].
    discriminate. }
  rewrite Hmed. cbn [bind]. eauto.
Qed.

Lemma extremum_loop_listcomp {A : Type} beyond (f : A -> result F64.float) l :
  forall ys acc,
    py_listcomp f l = Ok ys ->
    extremum_loop beyond f acc l = extremum_loop beyond (@Ok _) acc ys.
Proof.
  induction l as [|x l IH]; intros ys acc H; simpl in H.
  - ok_inv H. reflexivity.
  - bind_inv H. bind_inv H. ok_inv H. simpl. rewrite E. simpl.
    apply IH. exact E0.
Qed.

(** [max] and [min] over the generator are those over the list of its
    items, when no item raises. *)
Lemma py_extremum_listcomp {A : Type} beyond (f : A -> result F64.float) l ys :
  py_listcomp f l = Ok ys ->
  py_extremum beyond f l = py_extremum beyond (@Ok _) ys.
Proof.
  destruct l as [|x l]; intros H; simpl in H.
  - ok_inv H. reflexivity.
  - bind_inv H. bind_inv H. ok_inv H. simpl. rewrite E. simpl.
    apply extremum_loop_listcomp. exact E0.
Qed.

Lemma py_index_nth_error {A : Type} (l : list A) (i : Z) (a : A) :
  0 <= i -> py_index l i = Ok a -> nth_error l (Z.to_nat i) = Some a.
Proof.
  intros Hi H. unfold py_index in H.
  destruct (Z.ltb_spec i 0) as [Hn|_]; [lia|].
  destruct (_ || _); [discriminate|].
  destruct (nth_error l (Z.to_nat i)); [congruence|discriminate].
Qed.

(** ** Binary64 numbers as integers *)

Lemma digits2_pos_bounds (m : positive) :
  2 ^ (Z.pos (digits2_pos m) - 1) <= Z.pos m < 2 ^ Z.pos (digits2_pos m).
Proof.
  induction m as [p IH|p IH|]; simpl digits2_pos.
  - rewrite Pos2Z.inj_succ.
    replace (Z.succ (Z.pos (digits2_pos p)) - 1)
      with (Z.succ (Z.pos (digits2_pos p) - 1)) by lia.
    rewrite !Z.pow_succ_r by lia. lia.
  - rewrite Pos2Z.inj_succ.
    replace (Z.succ (Z.pos (digits2_pos p)) - 1)
      with (Z.succ (Z.pos (digits2_pos p) - 1)) by lia.
    rewrite !Z.pow_succ_r by lia. lia.
  - simpl. lia.
Qed.

Lemma digits2_pos_log2 (m : positive) :
  Z.pos (digits2_pos m) = Z.log2 (Z.pos m) + 1.
Proof.
  pose proof (digits2_pos_bounds m) as [Hlo Hhi].
  symmetry. apply Z.add_move_r.
  apply Z.log2_unique; [lia|].
  replace (Z.succ (Z.pos (digits2_pos m) - 1)) with (Z.pos (digits2_pos m))
    by lia.
  split; assumption.
Qed.

(** The form of a finite binary64 number: a mantissa of 53 bits, or fewer
    at the least exponent. *)
Lemma valid_finite_inv s m e :
  F64.valid (S754_finite s m e) = true ->
  -1074 <= e <= 971 /\
  Z.pos (digits2_pos m) <= 53 /\
  (e = -1074 \/ Z.pos (digits2_pos m) = 53).
Proof.
  unfold F64.valid, valid_binary, bounded, canonical_mantissa, fexp, emin,
    F64.prec, F64.emax.
  intros H. apply andb_prop in H. destruct H as [Hc Hb].
  apply Z.eqb_eq in Hc. apply Z.leb_le in Hb. lia.
Qed.

Lemma valid_finite_intro s m e :
  -1074 <= e <= 971 ->
  Z.pos (digits2_pos m) <= 53 ->
  (e = -1074 \/ Z.pos (digits2_pos m) = 53) ->
  F64.valid (S754_finite s m e) = true.
Proof.
  unfold F64.valid, valid_binary, bounded, canonical_mantissa, fexp, emin,
    F64.prec, F64.emax.
  intros He Hd Hc. apply andb_true_intro. split.
  - apply Z.eqb_eq. lia.
  - apply Z.leb_le. lia.
Qed.

Lemma pow2_pos (k : Z) : 0 <= k -> 0 < 2 ^ k.
Proof. intros. apply Z.pow_pos_nonneg; lia. Qed.

Lemma pow2_split (a b : Z) : 0 <= a -> 0 <= b -> 2 ^ (a + b) = 2 ^ a * 2 ^ b.
Proof. intros. apply Z.pow_add_r; assumption. Qed.

(** The magnitude of a finite float, between two powers of two. *)
Lemma finite_magnitude s m e :
  F64.valid (S754_finite s m e) = true ->
  let d := Z.pos (digits2_pos m) in
  2 ^ (d + e + 1074) <= Z.pos m * 2 ^ (e + 1075) < 2 ^ (d + e + 1075).
Proof.
  intros Hv d. destruct (valid_finite_inv _ _ _ Hv) as (He & Hd & Hc).
  pose proof (digits2_pos_bounds m) as [Hlo Hhi]. fold d in Hlo, Hhi.
  assert (Hd1 : 1 <= d) by (unfold d; lia).
  pose proof (pow2_pos (e + 1075) ltac:(lia)) as Hp.
  replace (d + e + 1074) with ((d - 1) + (e + 1075)) by lia.
  replace (d + e + 1075) with (d + (e + 1075)) by lia.
  rewrite (pow2_split (d - 1) (e + 1075)), (pow2_split d (e + 1075)) by lia.
  split.
  - apply Z.mul_le_mono_nonneg_r; lia.
  - apply Zmult_lt_compat_r; lia.
Qed.

Lemma finite_below_infinity s m e :
  F64.valid (S754_finite s m e) = true ->
  0 < Z.pos m * 2 ^ (e + 1075) < 2 ^ 2100.
Proof.
  intros Hv. pose proof (finite_magnitude _ _ _ Hv) as [Hlo Hhi].
  destruct (valid_finite_inv _ _ _ Hv) as (He & Hd & Hc).
  cbv zeta in Hlo, Hhi.
  split.
  - apply Z.mul_pos_pos; [lia|]. apply pow2_pos. lia.
  - eapply Z.lt_le_trans; [exact Hhi|].
    apply Z.pow_le_mono_r; lia.
Qed.

(** Among finite floats of one sign, the larger exponent wins. *)
Lemma finite_exponent_lt s1 m1 e1 s2 m2 e2 :
  F64.valid (S754_finite s1 m1 e1) = true ->
  F64.valid (S754_finite s2 m2 e2) = true ->
  e1 < e2 ->
  Z.pos m1 * 2 ^ (e1 + 1075) < Z.pos m2 * 2 ^ (e2 + 1075).
Proof.
  intros H1 H2 Hlt.
  pose proof (finite_magnitude _ _ _ H1) as [_ Hhi].
  pose proof (finite_magnitude _ _ _ H2) as [Hlo _].
  destruct (valid_finite_inv _ _ _ H1) as (He1 & Hd1 & _).
  destruct (valid_finite_inv _ _ _ H2) as (He2 & _ & Hc2).
  cbv zeta in Hhi, Hlo.
  eapply Z.lt_le_trans; [exact Hhi|].
  eapply Z.le_trans; [|exact Hlo].
  apply Z.pow_le_mono_r; lia.
Qed.

Lemma finite_compare s1 m1 e1 s2 m2 e2 :
  F64.valid (S754_finite s1 m1 e1) = true ->
  F64.valid (S754_finite s2 m2 e2) = true ->
  (Z.pos m1 * 2 ^ (e1 + 1075) ?= Z.pos m2 * 2 ^ (e2 + 1075))
  = match e1 ?= e2 with
    | Lt => Lt
    | Gt => Gt
    | Eq => Pos.compare_cont Eq m1 m2
    end.
Proof.
  intros H1 H2.
  destruct (Z.compare_spec e1 e2) as [->|Hlt|Hgt].
  - rewrite <- Zmult_compare_compat_r; [reflexivity|].
    destruct (valid_finite_inv _ _ _ H2) as (He2 & _ & _).
    pose proof (pow2_pos (e2 + 1075) ltac:(lia)). lia.
  - apply Z.compare_lt_iff. eapply finite_exponent_lt; eassumption.
  - apply Z.compare_gt_iff. eapply finite_exponent_lt; eassumption.
Qed.

(** The comparison of two numbers is that of their values. *)
Lemma compare_units (x y : F64.float) :
  number x -> number y -> SFcompare x y = Some (units x ?= units y).
Proof.
  intros [Vx Nx] [Vy Ny].
  pose proof (pow2_pos 2100 ltac:(lia)) as Hinf.
  destruct x as [sx|sx| |sx mx ex], y as [sy|sy| |sy my ey];
    try discriminate; unfold units, SFcompare, cond_Zopp;
    try (pose proof (finite_below_infinity _ _ _ Vx) as Bx);
    try (pose proof (finite_below_infinity _ _ _ Vy) as By);
    try (pose proof (finite_compare _ _ _ _ _ _ Vx Vy) as Cxy).
  - reflexivity.
  - f_equal. symmetry. destruct sy;
      [apply Z.compare_gt_iff | apply Z.compare_lt_iff]; lia.
  - f_equal. symmetry. destruct sy;
      [apply Z.compare_gt_iff | apply Z.compare_lt_iff]; lia.
  - f_equal. symmetry. destruct sx;
      [apply Z.compare_lt_iff | apply Z.compare_gt_iff]; lia.
  - f_equal. symmetry. destruct sx, sy;
      (apply Z.compare_eq_iff || apply Z.compare_lt_iff
       || apply Z.compare_gt_iff); lia.
  - f_equal. symmetry. destruct sx, sy;
      (apply Z.compare_lt_iff || apply Z.compare_gt_iff); lia.
  - f_equal. symmetry. destruct sx;
      [apply Z.compare_lt_iff | apply Z.compare_gt_iff]; lia.
  - f_equal. symmetry. destruct sx, sy;
      (apply Z.compare_lt_iff || apply Z.compare_gt_iff); lia.
  - f_equal. destruct sx, sy.
    + rewrite Z.compare_opp.
      rewrite (Z.compare_antisym (Z.pos mx * 2 ^ (ex + 1075))
                                 (Z.pos my * 2 ^ (ey + 1075))), Cxy.
      destruct (ex ?= ey); reflexivity.
    + symmetry. apply Z.compare_lt_iff. lia.
    + symmetry. apply Z.compare_gt_iff. lia.
    + rewrite Cxy. reflexivity.
Qed.

Lemma leb_units (x y : F64.float) :
  number x -> number y -> F64.leb x y = (units x <=? units y).
Proof.
  intros Hx Hy. unfold F64.leb, SFleb, Z.leb.
  rewrite (compare_units x y Hx Hy).
  destruct (units x ?= units y); reflexivity.
Qed.

Lemma ltb_units (x y : F64.float) :
  number x -> number y -> F64.ltb x y = (units x <? units y).
Proof.
  intros Hx Hy. unfold F64.ltb, SFltb, Z.ltb.
  rewrite (compare_units x y Hx Hy).
  destruct (units x ?= units y); reflexivity.
Qed.

(** A comparison that holds has no NaN on either side. *)
Lemma leb_true_not_nan (x y : F64.float) :
  F64.leb x y = true -> F64.is_nan x = false /\ F64.is_nan y = false.
Proof.
  destruct x, y; simpl; try discriminate; auto.
Qed.

(** ** Shifting a mantissa to the right *)

Lemma shr_1_spec (mrs : shr_record) :
  0 <= shr_m mrs ->
  shr_m (shr_1 mrs) = shr_m mrs / 2 /\
  (shr_r mrs = false -> shr_s mrs = false -> (2 | shr_m mrs) ->
   shr_r (shr_1 mrs) = false /\ shr_s (shr_1 mrs) = false).
Proof.
  destruct mrs as [m r s]. cbn [shr_m shr_r shr_s]. intros Hm.
  destruct m as [|[p|p|]|p]; cbn [shr_1 shr_m shr_r shr_s]; try lia.
  - split; [reflexivity|]. intros -> -> _. auto.
  - split.
    + apply Z.div_unique with (r := 1); lia.
    + intros _ _ [c Hc]. lia.
  - split.
    + apply Z.div_unique with (r := 0); lia.
    + intros -> -> _. auto.
  - split; [reflexivity|].
    intros _ _ [c Hc]. lia.
Qed.

Lemma iter_pos_shr_1_spec (p : positive) :
  forall mrs : shr_record,
    0 <= shr_m mrs ->
    shr_m (iter_pos shr_1 p mrs) = shr_m mrs / 2 ^ Z.pos p /\
    (shr_r mrs = false -> shr_s mrs = false -> (2 ^ Z.pos p | shr_m mrs) ->
     shr_r (iter_pos shr_1 p mrs) = false /\
     shr_s (iter_pos shr_1 p mrs) = false).
Proof.
  assert (Hhalf : forall (q : positive) (m : Z),
             0 <= m -> (2 ^ Z.pos q * 2 ^ Z.pos q | m) ->
             (2 ^ Z.pos q | m) /\ (2 ^ Z.pos q | m / 2 ^ Z.pos q)).
  { intros q m Hm [c Hc].
    pose proof (pow2_pos (Z.pos q) ltac:(lia)) as Hq.
    split.
    - exists (c * 2 ^ Z.pos q). lia.
    - exists c. subst m.
      rewrite Z.mul_assoc, Z.div_mul by lia. reflexivity. }
  induction p as [p IH|p IH|]; intros mrs Hm; cbn [iter_pos].
  - destruct (shr_1_spec mrs Hm) as [H1 E1].
    assert (Hm1 : 0 <= shr_m (shr_1 mrs))
      by (rewrite H1; apply Z.div_pos; lia).
    destruct (IH _ Hm1) as [H2 E2].
    assert (Hm2 : 0 <= shr_m (iter_pos shr_1 p (shr_1 mrs))).
    { rewrite H2. apply Z.div_pos; [lia|]. apply pow2_pos. lia. }
    destruct (IH _ Hm2) as [H3 E3].
    pose proof (pow2_pos (Z.pos p) ltac:(lia)) as Hp.
    assert (Hpow : 2 ^ Z.pos p~1 = 2 * (2 ^ Z.pos p * 2 ^ Z.pos p)).
    { replace (Z.pos p~1) with (1 + (Z.pos p + Z.pos p)) by lia.
      rewrite (pow2_split 1), (pow2_split (Z.pos p)) by lia. reflexivity. }
    split.
    + rewrite H3, H2, H1, Hpow.
      rewrite !Z.div_div by lia. reflexivity.
    + intros Hr Hs Hdiv. rewrite Hpow in Hdiv.
      assert (Hd2 : (2 | shr_m mrs)).
      { destruct Hdiv as [c Hc].
        exists (c * (2 ^ Z.pos p * 2 ^ Z.pos p)). lia. }
      destruct (E1 Hr Hs Hd2) as [Hr1 Hs1].
      assert (Hd1 : (2 ^ Z.pos p * 2 ^ Z.pos p | shr_m (shr_1 mrs))).
      { rewrite H1. destruct Hdiv as [c Hc]. exists c. rewrite Hc.
        replace (c * (2 * (2 ^ Z.pos p * 2 ^ Z.pos p)))
          with (c * (2 ^ Z.pos p * 2 ^ Z.pos p) * 2) by lia.
        rewrite Z.div_mul by lia. reflexivity. }
      destruct (Hhalf p _ Hm1 Hd1) as [Da Db].
      destruct (E2 Hr1 Hs1 Da) as [Hr2 Hs2].
      apply E3; try assumption. rewrite H2. exact Db.
  - destruct (IH _ Hm) as [H2 E2].
    assert (Hm2 : 0 <= shr_m (iter_pos shr_1 p mrs)).
    { rewrite H2. apply Z.div_pos; [lia|]. apply pow2_pos. lia. }
    destruct (IH _ Hm2) as [H3 E3].
    pose proof (pow2_pos (Z.pos p) ltac:(lia)) as Hp.
    assert (Hpow : 2 ^ Z.pos p~0 = 2 ^ Z.pos p * 2 ^ Z.pos p).
    { replace (Z.pos p~0) with (Z.pos p + Z.pos p) by lia.
      rewrite pow2_split by lia. reflexivity. }
    split.
    + rewrite H3, H2, Hpow. rewrite Z.div_div by lia. reflexivity.
    + intros Hr Hs Hdiv. rewrite Hpow in Hdiv.
      destruct (Hhalf p _ Hm Hdiv) as [Da Db].
      destruct (E2 Hr Hs Da) as [Hr2 Hs2].
      apply E3; try assumption. rewrite H2. exact Db.
  - change (2 ^ 1) with 2. apply shr_1_spec. exact Hm.
Qed.

(** ** Shifting a mantissa to the left *)

Lemma pos_iter_xO (m d : positive) :
  Z.pos (Pos.iter xO m d) = Z.pos m * 2 ^ Z.pos d.
Proof.
  induction d as [|d IH] using Pos.peano_ind.
  - simpl. lia.
  - rewrite Pos.iter_succ, Pos2Z.inj_succ, Z.pow_succ_r by lia.
    change (Z.pos (Pos.iter xO m d)~0) with (2 * Z.pos (Pos.iter xO m d)).
    rewrite IH. lia.
Qed.

Lemma shl_align_le (m : positive) (e e' : Z) :
  e' <= e ->
  exists m', shl_align m e e' = (m', e') /\
             Z.pos m' = Z.pos m * 2 ^ (e - e').
Proof.
  intros Hle. unfold shl_align.
  destruct (e' - e) as [|d|d] eqn:Hd; try lia.
  - assert (e = e') by lia. subst e'. exists m.
    rewrite Z.sub_diag. split; [reflexivity|]. simpl. lia.
  - exists (Pos.iter xO m d). split; [reflexivity|].
    rewrite pos_iter_xO. f_equal. f_equal. lia.
Qed.

Lemma shl_align_gt (m : positive) (e e' : Z) :
  e < e' -> shl_align m e e' = (m, e).
Proof.
  intros Hlt. unfold shl_align.
  destruct (e' - e) as [|d|d] eqn:Hd; try lia. reflexivity.
Qed.

Lemma digits2_pos_shift (m m' : positive) (k : Z) :
  0 <= k -> Z.pos m' = Z.pos m * 2 ^ k ->
  Z.pos (digits2_pos m') = Z.pos (digits2_pos m) + k.
Proof.
  intros Hk Hm. rewrite !digits2_pos_log2, Hm.
  rewrite Z.log2_mul_pow2 by lia. lia.
Qed.

(** ** Faithful rounding *)

Lemma digits2_pos_unique (q : positive) (n : Z) :
  2 ^ (n - 1) <= Z.pos q < 2 ^ n -> Z.pos (digits2_pos q) = n.
Proof.
  intros [Hlo Hhi]. rewrite digits2_pos_log2.
  assert (Hn : 1 <= n).
  { destruct (Z.le_gt_cases 1 n) as [H|H]; [exact H|].
    assert (n <= 0) by lia.
    destruct (Z.eq_dec n 0) as [->|Hn0]; [simpl in Hhi; lia|].
    rewrite Z.pow_neg_r in Hhi by lia. lia. }
  apply Z.add_move_r. apply Z.log2_unique; [lia|].
  replace (Z.succ (n - 1)) with n by lia. split; assumption.
Qed.

Lemma cexp_finite (m : positive) (e : Z) :
  -1075 <= e ->
  cexp (Z.pos m * 2 ^ (e + 1075))
  = Z.max (Z.pos (digits2_pos m) + e + 1075 - 53) 1.
Proof.
  intros He. unfold cexp.
  pose proof (pow2_pos (e + 1075) ltac:(lia)) as Hp.
  rewrite Z.abs_eq by nia.
  rewrite Z.log2_mul_pow2 by lia.
  rewrite digits2_pos_log2. f_equal. lia.
Qed.

Lemma cexp_ge_1 (N : Z) : 1 <= cexp N.
Proof. unfold cexp. lia. Qed.

Lemma faithful_opp (N V : Z) : faithful N V -> faithful (- N) (- V).
Proof.
  unfold faithful, cexp. rewrite Z.abs_opp. intros [Hd Ha]. split.
  - apply Z.divide_opp_r. exact Hd.
  - replace (- V - - N) with (- (V - N)) by lia. rewrite Z.abs_opp. exact Ha.
Qed.

Lemma faithful_zero : faithful 0 0.
Proof.
  unfold faithful. split.
  - apply Z.divide_0_r.
  - simpl. pose proof (pow2_pos (cexp 0) ltac:(unfold cexp; lia)). lia.
Qed.

Lemma faithful_on_grid (N : Z) : (2 ^ cexp N | N) -> faithful N N.
Proof.
  intros Hd. split; [exact Hd|].
  rewrite Z.sub_diag. simpl.
  apply pow2_pos. pose proof (cexp_ge_1 N). lia.
Qed.

(** A quotient, or its successor when the division is not exact, is
    faithful. *)
Lemma faithful_of_quotient (M Q P K : Z) :
  0 < P -> 0 < K ->
  2 ^ cexp (M * K) = P * K ->
  Q = M / P \/ (Q = M / P + 1 /\ M mod P <> 0) ->
  faithful (M * K) (Q * (P * K)).
Proof.
  intros HP HK Hc HQ. unfold faithful. rewrite Hc. split.
  - exists Q. reflexivity.
  - pose proof (Z.div_mod M P ltac:(lia)) as Hdm.
    pose proof (Z.mod_pos_bound M P HP) as Hmod.
    replace (Q * (P * K) - M * K) with ((Q * P - M) * K) by ring.
    rewrite Z.abs_mul, (Z.abs_eq K) by lia.
    apply Zmult_lt_compat_r; [exact HK|].
    destruct HQ as [->|[-> Hne]]; apply Z.abs_lt; nia.
Qed.

(** A canonical mantissa lies on its own grid. *)
Lemma canonical_on_grid (m : positive) (e : Z) :
  -1074 <= e ->
  Z.pos (digits2_pos m) <= 53 ->
  (e = -1074 \/ Z.pos (digits2_pos m) = 53) ->
  (2 ^ cexp (Z.pos m * 2 ^ (e + 1075)) | Z.pos m * 2 ^ (e + 1075)).
Proof.
  intros He Hd Hc.
  rewrite cexp_finite by lia.
  destruct Hc as [->|Hc].
  - replace (Z.max (Z.pos (digits2_pos m) + -1074 + 1075 - 53) 1) with 1
      by lia.
    exists (Z.pos m). reflexivity.
  - rewrite Hc.
    replace (Z.max (53 + e + 1075 - 53) 1) with (e + 1075) by lia.
    exists (Z.pos m). reflexivity.
Qed.

Lemma finite_on_grid s m e :
  F64.valid (S754_finite s m e) = true ->
  (2 ^ cexp (Z.pos m * 2 ^ (e + 1075)) | Z.pos m * 2 ^ (e + 1075)).
Proof.
  intros Hv. destruct (valid_finite_inv _ _ _ Hv) as (He & Hd & Hc).
  apply canonical_on_grid; lia.
Qed.

Lemma round_nearest_even_cases (m : Z) (l : location) :
  round_nearest_even m l = m \/
  (round_nearest_even m l = m + 1 /\ l <> loc_Exact).
Proof.
  destruct l as [|[| |]]; simpl; auto.
  - destruct (Z.even m); [auto|]. right. split; [reflexivity|discriminate].
  - right. split; [reflexivity|discriminate].
Qed.

(** The result of rounding an exact mantissa that has at least as many
    digits as its exponent allows: infinity on overflow, and otherwise a
    finite float that is faithful to the value. *)
Lemma binary_round_aux_exact (s : bool) (mz : positive) (ez : Z) :
  -1074 <= ez ->
  ez <= fexp 53 1024 (Z.pos (digits2_pos mz) + ez) ->
  exists q e,
    binary_round_aux 53 1024 s (Z.pos mz) ez loc_Exact
    = (if e <=? 971 then S754_finite s q e else S754_infinity s) /\
    -1074 <= e /\
    Z.pos (digits2_pos q) <= 53 /\
    (e = -1074 \/ Z.pos (digits2_pos q) = 53) /\
    faithful (Z.pos mz * 2 ^ (ez + 1075)) (Z.pos q * 2 ^ (e + 1075)).
Proof.
  intros Hez Hn.
  pose proof (digits2_pos_bounds mz) as [Dlo Dhi].
  unfold binary_round_aux, shr_fexp. cbn [Zdigits2].
  set (d := Z.pos (digits2_pos mz)) in *.
  change (1024 - 53) with 971.
  destruct (fexp 53 1024 (d + ez) - ez) as [|p|p] eqn:E; [| |lia].
  - (* the mantissa is kept *)
    cbn [shr shr_record_of_loc loc_of_shr_record shr_m round_nearest_even
         Zdigits2].
    fold d. rewrite E. cbn [shr shr_record_of_loc shr_m].
    exists mz, ez. split; [reflexivity|].
    unfold fexp, emin in E. fold d.
    split; [lia|]. split; [lia|]. split; [lia|].
    apply faithful_on_grid.
    apply canonical_on_grid; fold d; lia.
  - (* the mantissa is shifted by [p] and rounded *)
    assert (Hp : Z.pos p = d - 53) by (unfold fexp, emin in E; lia).
    cbn [shr shr_record_of_loc].
    destruct (iter_pos_shr_1_spec p
                {| shr_m := Z.pos mz; shr_r := false; shr_s := false |})
      as [Hm1 Hex]; [cbn; lia|].
    cbn [shr_m shr_r shr_s] in Hm1, Hex.
    set (mrs1 := iter_pos shr_1 p
                   {| shr_m := Z.pos mz; shr_r := false; shr_s := false |})
      in *.
    pose proof (pow2_pos (Z.pos p) ltac:(lia)) as Hpp.
    assert (Hpow : 2 ^ (d - 1) = 2 ^ 52 * 2 ^ Z.pos p).
    { replace (d - 1) with (52 + Z.pos p) by lia. apply pow2_split; lia. }
    assert (Hpow' : 2 ^ d = 2 ^ 53 * 2 ^ Z.pos p).
    { replace d with (53 + Z.pos p) at 1 by lia. apply pow2_split; lia. }
    assert (Hb1 : 2 ^ 52 <= shr_m mrs1 < 2 ^ 53).
    { rewrite Hm1. split.
      - apply Z.div_le_lower_bound; lia.
      - apply Z.div_lt_upper_bound; lia. }
    assert (Hcases :
              round_nearest_even (shr_m mrs1) (loc_of_shr_record mrs1)
              = Z.pos mz / 2 ^ Z.pos p
              \/ (round_nearest_even (shr_m mrs1) (loc_of_shr_record mrs1)
                  = Z.pos mz / 2 ^ Z.pos p + 1
                  /\ Z.pos mz mod 2 ^ Z.pos p <> 0)).
    { destruct (round_nearest_even_cases (shr_m mrs1)
                  (loc_of_shr_record mrs1)) as [H|[H Hl]];
        rewrite H, Hm1; [left; reflexivity|right].
      split; [reflexivity|]. intros Hmod. apply Hl.
      destruct Hex as [Hr Hs]; try reflexivity.
      { apply Z.mod_divide; [lia|exact Hmod]. }
      destruct mrs1 as [m1 r1 s1]. cbn in Hr, Hs. subst. reflexivity. }
    set (m2 := round_nearest_even (shr_m mrs1) (loc_of_shr_record mrs1)) in *.
    assert (Hb2 : 2 ^ 52 <= m2 <= 2 ^ 53).
    { rewrite <- Hm1 in Hcases. destruct Hcases as [->|[-> _]]; lia. }
    assert (Hf : faithful (Z.pos mz * 2 ^ (ez + 1075))
                          (m2 * (2 ^ Z.pos p * 2 ^ (ez + 1075)))).
    { apply faithful_of_quotient; try assumption.
      - apply pow2_pos. lia.
      - rewrite cexp_finite by lia. fold d.
        replace (Z.max (d + ez + 1075 - 53) 1) with (Z.pos p + (ez + 1075))
          by lia.
        apply pow2_split; lia. }
    rewrite <- pow2_split in Hf by lia.
    destruct m2 as [|q|q] eqn:Em2;
      [change (2 ^ 52) with 4503599627370496 in Hb2; lia| |lia].
    cbn [Zdigits2].
    destruct (Z.eq_dec (Z.pos q) (2 ^ 53)) as [Hq|Hq].
    + (* rounding carried into a 54th bit *)
      assert (q = 9007199254740992%positive)
        by (change (2 ^ 53) with 9007199254740992 in Hq; lia).
      subst q.
      replace (fexp 53 1024
                 (Z.pos (digits2_pos 9007199254740992) + (ez + Z.pos p))
               - (ez + Z.pos p)) with 1
        by (change (Z.pos (digits2_pos 9007199254740992)) with 54;
            unfold fexp, emin; lia).
      cbn [shr iter_pos shr_record_of_loc shr_1 shr_m].
      exists 4503599627370496%positive, (ez + Z.pos p + 1).
      split; [reflexivity|].
      change (Z.pos (digits2_pos 4503599627370496)) with 53.
      split; [lia|]. split; [lia|]. split; [right; reflexivity|].
      replace (Z.pos 4503599627370496 * 2 ^ (ez + Z.pos p + 1 + 1075))
        with (Z.pos 9007199254740992 * 2 ^ (Z.pos p + (ez + 1075))).
      { exact Hf. }
      replace (ez + Z.pos p + 1 + 1075) with (1 + (Z.pos p + (ez + 1075)))
        by lia.
      rewrite (pow2_split 1) by lia. change (2 ^ 1) with 2. lia.
    + assert (Hdq : Z.pos (digits2_pos q) = 53).
      { apply digits2_pos_unique. change (53 - 1) with 52. lia. }
      rewrite Hdq.
      replace (fexp 53 1024 (53 + (ez + Z.pos p)) - (ez + Z.pos p)) with 0
        by (unfold fexp, emin; lia).
      cbn [shr shr_record_of_loc shr_m].
      exists q, (ez + Z.pos p).
      split; [reflexivity|].
      split; [lia|]. split; [lia|]. split; [right; exact Hdq|].
      replace (ez + Z.pos p + 1075) with (Z.pos p + (ez + 1075)) by lia.
      exact Hf.
Qed.

Lemma binary_round_exact (s : bool) (m : positive) (e : Z) :
  -1074 <= e ->
  exists q e',
    binary_round 53 1024 s m e
    = (if e' <=? 971 then S754_finite s q e' else S754_infinity s) /\
    -1074 <= e' /\
    Z.pos (digits2_pos q) <= 53 /\
    (e' = -1074 \/ Z.pos (digits2_pos q) = 53) /\
    faithful (Z.pos m * 2 ^ (e + 1075)) (Z.pos q * 2 ^ (e' + 1075)).
Proof.
  intros He. unfold binary_round.
  set (f := fexp 53 1024 (Z.pos (digits2_pos m) + e)).
  assert (Hf : -1074 <= f) by (unfold f, fexp, emin; lia).
  destruct (Z.le_gt_cases f e) as [Hle|Hgt].
  - destruct (shl_align_le m e f Hle) as (m' & -> & Hm').
    assert (Hd : Z.pos (digits2_pos m') = Z.pos (digits2_pos m) + (e - f))
      by (apply digits2_pos_shift; [lia|exact Hm']).
    replace (Z.pos m * 2 ^ (e + 1075)) with (Z.pos m' * 2 ^ (f + 1075)).
    + apply binary_round_aux_exact; [exact Hf|].
      rewrite Hd.
      replace (Z.pos (digits2_pos m) + (e - f) + f)
        with (Z.pos (digits2_pos m) + e) by lia.
      fold f. lia.
    + rewrite Hm'.
      replace (e + 1075) with ((e - f) + (f + 1075)) by lia.
      rewrite (pow2_split (e - f)) by lia. ring.
  - rewrite (shl_align_gt m e f Hgt).
    apply binary_round_aux_exact; [exact He|]. fold f. lia.
Qed.

(** A finite float is faithful to itself. *)
Lemma units_faithful (x : F64.float) :
  F64.valid x = true -> F64.is_finite x = true ->
  faithful (units x) (units x).
Proof.
  intros Hv Hf. destruct x as [s|s| |s m e]; try discriminate.
  - apply faithful_zero.
  - unfold units. pose proof (finite_on_grid _ _ _ Hv) as Hg.
    destruct s; cbn [cond_Zopp].
    + apply faithful_opp. apply faithful_on_grid. exact Hg.
    + apply faithful_on_grid. exact Hg.
Qed.

(** A sum that is finite is a float that is faithful to the exact sum. *)
Lemma add_finite (x y : F64.float) :
  F64.valid x = true -> F64.valid y = true ->
  F64.is_finite (F64.add x y) = true ->
  F64.is_finite x = true /\ F64.is_finite y = true /\
  F64.valid (F64.add x y) = true /\
  faithful (units x + units y) (units (F64.add x y)).
Proof.
  intros Vx Vy. unfold F64.add.
  destruct x as [sx|sx| |sx mx ex], y as [sy|sy| |sy my ey];
    try (cbn; discriminate);
    try (cbn; destruct sx, sy; discriminate).
  - (* zero + zero *)
    intros _. split; [reflexivity|]. split; [reflexivity|].
    split; [destruct sx, sy; reflexivity|].
    replace (units (SFadd F64.prec F64.emax (S754_zero sx) (S754_zero sy)))
      with 0 by (destruct sx, sy; reflexivity).
    apply faithful_zero.
  - (* zero + finite *)
    intros _. cbn [SFadd].
    split; [reflexivity|]. split; [reflexivity|]. split; [assumption|].
    cbn [units]. rewrite Z.add_0_l.
    apply (units_faithful (S754_finite sy my ey)); [assumption|reflexivity].
  - (* finite + zero *)
    intros _. cbn [SFadd].
    split; [reflexivity|]. split; [reflexivity|]. split; [assumption|].
    cbn [units]. rewrite Z.add_0_r.
    apply (units_faithful (S754_finite sx mx ex)); [assumption|reflexivity].
  - (* finite + finite *)
    cbn [SFadd]. unfold F64.prec, F64.emax.
    destruct (valid_finite_inv _ _ _ Vx) as (Hex & _ & _).
    destruct (valid_finite_inv _ _ _ Vy) as (Hey & _ & _).
    set (ez := Z.min ex ey).
    destruct (shl_align_le mx ex ez ltac:(unfold ez; lia)) as (mx' & -> & Hmx).
    destruct (shl_align_le my ey ez ltac:(unfold ez; lia)) as (my' & -> & Hmy).
    cbn [fst].
    assert (Hez : -1074 <= ez) by (unfold ez; lia).
    assert (Hux : Z.pos mx * 2 ^ (ex + 1075) = Z.pos mx' * 2 ^ (ez + 1075)).
    { rewrite Hmx. replace (ex + 1075) with ((ex - ez) + (ez + 1075)) by lia.
      rewrite (pow2_split (ex - ez)) by (unfold ez; lia). ring. }
    assert (Huy : Z.pos my * 2 ^ (ey + 1075) = Z.pos my' * 2 ^ (ez + 1075)).
    { rewrite Hmy. replace (ey + 1075) with ((ey - ez) + (ez + 1075)) by lia.
      rewrite (pow2_split (ey - ez)) by (unfold ez; lia). ring. }
    assert (Hsum : units (S754_finite sx mx ex) + units (S754_finite sy my ey)
                   = (cond_Zopp sx (Z.pos mx') + cond_Zopp sy (Z.pos my'))
                     * 2 ^ (ez + 1075)).
    { cbn [units]. rewrite Hux, Huy.
      destruct sx, sy; cbn [cond_Zopp]; ring. }
    rewrite Hsum.
    destruct (cond_Zopp sx (Z.pos mx') + cond_Zopp sy (Z.pos my'))
      as [|n|n]; cbn [binary_normalize].
    + intros _. split; [reflexivity|]. split; [reflexivity|].
      split; [reflexivity|]. apply faithful_zero.
    + destruct (binary_round_exact false n ez Hez)
        as (q & e' & -> & He' & Hd & Hc & Hf).
      destruct (Z.leb_spec e' 971) as [Hle|Hgt]; [|discriminate].
      intros _. split; [reflexivity|]. split; [reflexivity|]. split.
      * apply valid_finite_intro; lia.
      * exact Hf.
    + destruct (binary_round_exact true n ez Hez)
        as (q & e' & -> & He' & Hd & Hc & Hf).
      destruct (Z.leb_spec e' 971) as [Hle|Hgt]; [|discriminate].
      intros _. split; [reflexivity|]. split; [reflexivity|]. split.
      * apply valid_finite_intro; lia.
      * cbn [units cond_Zopp].
        replace (Z.neg n * 2 ^ (ez + 1075))
          with (- (Z.pos n * 2 ^ (ez + 1075))) by lia.
        apply faithful_opp. exact Hf.
Qed.

(** ** Halving *)

Lemma loc_of_shr_record_of_loc (m : Z) (l : location) :
  loc_of_shr_record (shr_record_of_loc m l) = l /\
  shr_m (shr_record_of_loc m l) = m.
Proof. destruct l as [|[| |]]; split; reflexivity. Qed.

Lemma shr_nonpos (mrs : shr_record) (e n : Z) :
  n <= 0 -> shr mrs e n = (mrs, e).
Proof. destruct n; [reflexivity|lia|reflexivity]. Qed.

(** Rounding a mantissa that needs no shift, before and after. *)
Lemma binary_round_aux_keep (s : bool) (m e : Z) (l : location) :
  fexp 53 1024 (Zdigits2 m + e) <= e ->
  fexp 53 1024 (Zdigits2 (round_nearest_even m l) + e) <= e ->
  binary_round_aux 53 1024 s m e l
  = match round_nearest_even m l with
    | Z0 => S754_zero s
    | Z.pos q => if e <=? 971 then S754_finite s q e else S754_infinity s
    | Z.neg _ => S754_nan
    end.
Proof.
  intros H1 H2. unfold binary_round_aux, shr_fexp.
  rewrite shr_nonpos by lia.
  destruct (loc_of_shr_record_of_loc m l) as [-> ->].
  rewrite shr_nonpos by lia.
  cbn [shr_record_of_loc shr_m]. reflexivity.
Qed.

(** Rounding twice a mantissa of 53 bits. *)
Lemma binary_round_aux_double (s : bool) (m : positive) (e : Z) :
  Z.pos (digits2_pos m) = 53 -> -1075 <= e ->
  binary_round_aux 53 1024 s (Z.pos m~0) e loc_Exact
  = if e + 1 <=? 971 then S754_finite s m (e + 1) else S754_infinity s.
Proof.
  intros Hd He. unfold binary_round_aux, shr_fexp.
  cbn [Zdigits2 digits2_pos]. rewrite Pos2Z.inj_succ, Hd.
  replace (fexp 53 1024 (Z.succ 53 + e) - e) with 1
    by (unfold fexp, emin; lia).
  cbn [shr iter_pos shr_record_of_loc shr_1 orb loc_of_shr_record
       round_nearest_even shr_m Zdigits2].
  rewrite Hd.
  replace (fexp 53 1024 (53 + (e + 1)) - (e + 1)) with 0
    by (unfold fexp, emin; lia).
  reflexivity.
Qed.

Lemma div_eucl_pair (a b : Z) : Z.div_eucl a b = (a / b, a mod b).
Proof.
  unfold Z.div, Z.modulo. destruct (Z.div_eucl a b). reflexivity.
Qed.

Lemma div_core_normal (m : positive) (e : Z) :
  -1072 <= e -> Z.pos (digits2_pos m) = 53 ->
  SFdiv_core_binary 53 1024 (Z.pos m) e 4503599627370496 (-51)
  = (Z.pos m~0, e - 2, loc_Exact).
Proof.
  intros He Hd. unfold SFdiv_core_binary. cbn [Zdigits2].
  change (Z.pos (digits2_pos 4503599627370496)) with 53. rewrite Hd.
  replace (Z.min (fexp 53 1024 (53 + e - (53 + -51))) (e - -51)) with (e - 2)
    by (unfold fexp, emin; lia).
  replace (e - -51 - (e - 2)) with 53 by lia.
  rewrite Z.shiftl_mul_pow2 by lia.
  rewrite div_eucl_pair.
  change (Z.pos 4503599627370496) with (2 ^ 52).
  replace (Z.pos m * 2 ^ 53) with (Z.pos m~0 * 2 ^ 52)
    by (change (2 ^ 53) with (2 * 2 ^ 52); lia).
  rewrite Z.div_mul, Z.mod_mul by (apply Z.pow_nonzero; lia).
  reflexivity.
Qed.

Lemma div_core_least_normal (m : positive) (e : Z) :
  e = -1073 -> Z.pos (digits2_pos m) = 53 ->
  SFdiv_core_binary 53 1024 (Z.pos m) e 4503599627370496 (-51)
  = (Z.pos m, -1074, loc_Exact).
Proof.
  intros He Hd. unfold SFdiv_core_binary. cbn [Zdigits2].
  change (Z.pos (digits2_pos 4503599627370496)) with 53. rewrite Hd.
  replace (Z.min (fexp 53 1024 (53 + e - (53 + -51))) (e - -51)) with (-1074)
    by (unfold fexp, emin; lia).
  replace (e - -51 - -1074) with 52 by lia.
  rewrite Z.shiftl_mul_pow2 by lia.
  rewrite div_eucl_pair.
  change (Z.pos 4503599627370496) with (2 ^ 52).
  rewrite Z.div_mul, Z.mod_mul by (apply Z.pow_nonzero; lia).
  reflexivity.
Qed.

Lemma div_core_subnormal (m : positive) (e : Z) :
  e = -1074 -> Z.pos (digits2_pos m) <= 53 ->
  SFdiv_core_binary 53 1024 (Z.pos m) e 4503599627370496 (-51)
  = (Z.pos m / 2, -1074,
     if Z.even (Z.pos m) then loc_Exact else loc_Inexact Eq).
Proof.
  intros He Hd. unfold SFdiv_core_binary. cbn [Zdigits2].
  change (Z.pos (digits2_pos 4503599627370496)) with 53.
  replace (Z.min (fexp 53 1024 (Z.pos (digits2_pos m) + e - (53 + -51)))
                 (e - -51)) with (-1074)
    by (unfold fexp, emin; lia).
  replace (e - -51 - -1074) with 51 by lia.
  rewrite Z.shiftl_mul_pow2 by lia.
  rewrite div_eucl_pair.
  change (2 ^ 51) with 2251799813685248.
  pose proof (Z.div_mod (Z.pos m) 2 ltac:(lia)) as Hdm.
  pose proof (Z.mod_pos_bound (Z.pos m) 2 ltac:(lia)) as Hmod.
  assert (Hq : Z.pos m * 2251799813685248 / 4503599627370496 = Z.pos m / 2).
  { symmetry.
    apply Z.div_unique with (r := Z.pos m mod 2 * 2251799813685248); lia. }
  assert (Hr : (Z.pos m * 2251799813685248) mod 4503599627370496
               = Z.pos m mod 2 * 2251799813685248).
  { symmetry. apply Z.mod_unique with (q := Z.pos m / 2); lia. }
  rewrite Hq, Hr. f_equal.
  unfold new_location.
  change (Z.even 4503599627370496) with true. unfold new_location_even.
  rewrite Zmod_even.
  destruct (Z.even (Z.pos m)); reflexivity.
Qed.

Lemma Zdigits2_small (z : Z) : 0 <= z < 2 ^ 53 -> Zdigits2 z <= 53.
Proof.
  intros [Hlo Hhi]. destruct z as [|q|q]; cbn [Zdigits2]; try lia.
  pose proof (digits2_pos_bounds q) as [Dlo _].
  destruct (Z.le_gt_cases (Z.pos (digits2_pos q)) 53) as [H|H]; [exact H|].
  assert (2 ^ 53 <= 2 ^ (Z.pos (digits2_pos q) - 1))
    by (apply Z.pow_le_mono_r; lia).
  lia.
Qed.

(** Half of a finite float is a finite float, at most one unit away from
    the exact half. *)
Lemma div_two (x : F64.float) :
  F64.valid x = true -> F64.is_finite x = true ->
  F64.valid (F64.div x (F64.of_Z 2)) = true /\
  F64.is_finite (F64.div x (F64.of_Z 2)) = true /\
  Z.abs (2 * units (F64.div x (F64.of_Z 2)) - units x) < 4.
Proof.
  intros Hv Hf.
  change (F64.of_Z 2) with (S754_finite false 4503599627370496 (-51)).
  destruct x as [s|s| |s m e]; try discriminate.
  - cbn. repeat split; try lia.
  - destruct (valid_finite_inv _ _ _ Hv) as (He & Hd & Hc).
    pose proof (digits2_pos_bounds m) as [Dlo Dhi].
    unfold F64.div, SFdiv, F64.prec, F64.emax.
    rewrite xorb_false_r.
    destruct (Z.le_gt_cases (-1072) e) as [Hn|Hn];
      [|destruct (Z.eq_dec e (-1073)) as [Hl|Hl]].
    + (* a normal number whose half is normal *)
      assert (Hd53 : Z.pos (digits2_pos m) = 53) by lia.
      rewrite (div_core_normal m e Hn Hd53).
      rewrite (binary_round_aux_double s m (e - 2) Hd53) by lia.
      destruct (Z.leb_spec (e - 2 + 1) 971) as [_|Hgt]; [|lia].
      split; [apply valid_finite_intro; lia|]. split; [reflexivity|].
      cbn [units].
      replace (e + 1075) with (1 + (e - 2 + 1 + 1075)) by lia.
      rewrite (pow2_split 1) by lia. change (2 ^ 1) with 2.
      destruct s; cbn [cond_Zopp]; lia.
    + (* the least exponent of the normal numbers *)
      assert (Hd53 : Z.pos (digits2_pos m) = 53) by lia.
      rewrite (div_core_least_normal m e Hl Hd53).
      rewrite binary_round_aux_keep;
        cbn [round_nearest_even Zdigits2];
        try (rewrite Hd53; unfold fexp, emin; lia).
      change (-1074 <=? 971) with true. cbv iota.
      split; [apply valid_finite_intro; lia|]. split; [reflexivity|].
      cbn [units]. subst e.
      change (2 ^ (-1073 + 1075)) with 4. change (2 ^ (-1074 + 1075)) with 2.
      destruct s; cbn [cond_Zopp]; lia.
    + (* the least exponent: the last bit is rounded away *)
      assert (He' : e = -1074) by lia.
      rewrite (div_core_subnormal m e He' Hd).
      pose proof (Z.div_mod (Z.pos m) 2 ltac:(lia)) as Hdm.
      pose proof (Z.mod_pos_bound (Z.pos m) 2 ltac:(lia)) as Hmod.
      assert (Hm53 : Z.pos m < 2 ^ 53).
      { eapply Z.lt_le_trans; [exact Dhi|]. apply Z.pow_le_mono_r; lia. }
      change (2 ^ 53) with 9007199254740992 in Hm53.
      set (q := Z.pos m / 2) in *.
      set (l := if Z.even (Z.pos m) then loc_Exact else loc_Inexact Eq).
      assert (Hq : 0 <= q) by lia.
      assert (Hr : (Z.even (Z.pos m) = true /\ round_nearest_even q l = q)
                   \/ (Z.even (Z.pos m) = false /\
                       (round_nearest_even q l = q
                        \/ round_nearest_even q l = q + 1))).
      { unfold l. destruct (Z.even (Z.pos m)).
        - left. split; reflexivity.
        - right. split; [reflexivity|]. cbn [round_nearest_even].
          destruct (Z.even q); auto. }
      assert (Hpar : Z.pos m mod 2 = if Z.even (Z.pos m) then 0 else 1).
      { rewrite Zmod_even. reflexivity. }
      assert (Hr2 : 0 <= round_nearest_even q l < 2 ^ 53).
      { change (2 ^ 53) with 9007199254740992.
        destruct Hr as [[_ ->]|[_ [->| ->]]]; lia. }
      rewrite binary_round_aux_keep.
      2:{ pose proof (Zdigits2_small q) as Hs.
          change (2 ^ 53) with 9007199254740992 in Hs.
          unfold fexp, emin. lia. }
      2:{ pose proof (Zdigits2_small _ Hr2). unfold fexp, emin. lia. }
      destruct (round_nearest_even q l) as [|q2|q2] eqn:Eq2; [| |lia].
      * cbn. repeat split.
        subst e. change (2 ^ (-1074 + 1075)) with 2.
        destruct Hr as [[Hev H0]|[Hev [H0|H0]]]; rewrite Hev in Hpar;
          destruct s; cbn [cond_Zopp]; lia.
      * change (-1074 <=? 971) with true. cbv iota.
        pose proof (Zdigits2_small _ Hr2) as Hd2. cbn [Zdigits2] in Hd2.
        split; [apply valid_finite_intro; lia|]. split; [reflexivity|].
        cbn [units]. subst e. change (2 ^ (-1074 + 1075)) with 2.
        destruct Hr as [[Hev H0]|[Hev [H0|H0]]]; rewrite Hev in Hpar;
          destruct s; cbn [cond_Zopp]; lia.
Qed.

(** ** A faithful value stays between representable bounds *)

Lemma representable_divides (b N : Z) :
  0 < N -> 0 < b -> representable b ->
  (2 ^ cexp N | b) \/ (b < 2 ^ 52 * 2 ^ cexp N /\ 2 ^ 52 * 2 ^ cexp N <= N).
Proof.
  intros HN Hb (m & j & -> & Hm & Hj).
  pose proof (cexp_ge_1 N) as Hk.
  destruct (Z.le_gt_cases (cexp N) j) as [Hle|Hgt].
  - left. exists (m * 2 ^ (j - cexp N)).
    rewrite <- Z.mul_assoc, <- pow2_split by lia.
    f_equal. f_equal. lia.
  - right.
    assert (Hc : cexp N = Z.log2 N + 1 - 53).
    { unfold cexp in *. rewrite Z.abs_eq in * by lia. lia. }
    pose proof (Z.log2_spec N HN) as [Hlog _].
    pose proof (pow2_pos j ltac:(lia)) as Hpj.
    assert (Hm0 : 0 < m) by nia.
    rewrite Z.abs_eq in Hm by lia.
    rewrite <- pow2_split by lia.
    replace (52 + cexp N) with (Z.log2 N) by lia.
    split; [|exact Hlog].
    apply Z.lt_le_trans with (2 ^ 53 * 2 ^ j).
    + apply Zmult_lt_compat_r; lia.
    + rewrite <- pow2_split by lia. apply Z.pow_le_mono_r; lia.
Qed.

Lemma grid_le (a b P : Z) : 0 < P -> a * P < (b + 1) * P -> a * P <= b * P.
Proof.
  intros HP H. apply Z.mul_lt_mono_pos_r in H; [|exact HP].
  apply Z.mul_le_mono_nonneg_r; lia.
Qed.

Lemma sandwich_upper (N V b : Z) :
  0 < N -> N <= b -> representable b -> faithful N V -> V <= b.
Proof.
  intros HN Hb Hrep [[cv Hcv] Habs].
  pose proof (pow2_pos (cexp N) ltac:(pose proof (cexp_ge_1 N); lia)) as HP.
  apply Z.abs_lt in Habs.
  destruct (representable_divides b N HN ltac:(lia) Hrep) as [[cb Hcb]|[H H']].
  - set (P := 2 ^ cexp N) in *. subst V b. apply grid_le; lia.
  - lia.
Qed.

Lemma sandwich_lower (N V a : Z) :
  0 < a -> a <= N -> representable a -> faithful N V -> a <= V.
Proof.
  intros Ha HN Hrep [[cv Hcv] Habs].
  pose proof (pow2_pos (cexp N) ltac:(pose proof (cexp_ge_1 N); lia)) as HP.
  apply Z.abs_lt in Habs.
  destruct (representable_divides a N ltac:(lia) Ha Hrep)
    as [[ca Hca]|[H1 H2]].
  - set (P := 2 ^ cexp N) in *. subst V a. apply grid_le; lia.
  - set (P := 2 ^ cexp N) in *.
    assert (2 ^ 52 * P <= cv * P); [|lia].
    subst V. apply grid_le; lia.
Qed.

Lemma representable_opp (b : Z) : representable b -> representable (- b).
Proof.
  intros (m & j & -> & Hm & Hj). exists (- m), j.
  rewrite Z.abs_opp. repeat split; [ring|assumption|assumption].
Qed.

Lemma faithful_lower (a N V : Z) :
  representable a -> a <= N -> faithful N V -> a <= V.
Proof.
  intros Hrep Ha Hf.
  destruct (Z.lt_trichotomy N 0) as [Hneg|[->|Hpos]].
  - assert (Hle : - V <= - a); [|lia].
    apply (sandwich_upper (- N) (- V) (- a)); try lia.
    + apply representable_opp. exact Hrep.
    + apply faithful_opp. exact Hf.
  - destruct Hf as [[cv Hcv] Habs]. change (2 ^ cexp 0) with 2 in *.
    apply Z.abs_lt in Habs. lia.
  - destruct (Z.le_gt_cases a 0) as [Ha0|Ha0].
    + destruct Hf as [[cv Hcv] Habs].
      pose proof (pow2_pos (cexp N)
                    ltac:(pose proof (cexp_ge_1 N); lia)) as HP.
      apply Z.abs_lt in Habs. set (P := 2 ^ cexp N) in *.
      assert (0 * P <= cv * P); [|lia].
      apply grid_le; lia.
    + apply (sandwich_lower N V a); assumption || lia.
Qed.

Lemma faithful_upper (b N V : Z) :
  representable b -> N <= b -> faithful N V -> V <= b.
Proof.
  intros Hrep Hb Hf.
  assert (Hle : - b <= - V); [|lia].
  apply (faithful_lower (- b) (- N) (- V)); try lia.
  - apply representable_opp. exact Hrep.
  - apply faithful_opp. exact Hf.
Qed.

Lemma units_even (x : F64.float) :
  F64.valid x = true -> F64.is_finite x = true -> exists c, units x = 2 * c.
Proof.
  intros Hv Hf. destruct x as [s|s| |s m e]; try discriminate.
  - exists 0. reflexivity.
  - destruct (valid_finite_inv _ _ _ Hv) as (He & _ & _).
    exists (cond_Zopp s (Z.pos m * 2 ^ (e + 1074))). cbn [units].
    replace (e + 1075) with (1 + (e + 1074)) by lia.
    rewrite (pow2_split 1) by lia. change (2 ^ 1) with 2.
    destruct s; cbn [cond_Zopp]; lia.
Qed.

Lemma double_representable (x : F64.float) :
  F64.valid x = true -> F64.is_finite x = true ->
  representable (2 * units x).
Proof.
  intros Hv Hf. destruct x as [s|s| |s m e]; try discriminate.
  - exists 0, 1. cbn. lia.
  - destruct (valid_finite_inv _ _ _ Hv) as (He & Hd & _).
    pose proof (digits2_pos_bounds m) as [_ Dhi].
    assert (Hm : Z.pos m < 2 ^ 53).
    { eapply Z.lt_le_trans; [exact Dhi|]. apply Z.pow_le_mono_r; lia. }
    exists (cond_Zopp s (Z.pos m)), (e + 1076).
    split; [|split; [|lia]].
    + cbn [units].
      replace (e + 1076) with (1 + (e + 1075)) by lia.
      rewrite (pow2_split 1) by lia. change (2 ^ 1) with 2.
      destruct s; cbn [cond_Zopp]; lia.
    + destruct s; cbn [cond_Zopp]; lia.
Qed.

(** ** The midline lies between the swings *)

Lemma midline_between (lo hi : F64.float) :
  F64.valid lo = true -> F64.valid hi = true ->
  F64.leb lo hi = true ->
  F64.is_finite (F64.add hi lo) = true ->
  F64.leb lo (midline_of hi lo) = true /\
  F64.leb (midline_of hi lo) hi = true.
Proof.
  intros Vlo Vhi Hle Hfin.
  destruct (leb_true_not_nan _ _ Hle) as [Nlo Nhi].
  destruct (add_finite hi lo Vhi Vlo Hfin) as (Fhi & Flo & Vs & Hfaith).
  rewrite (leb_units lo hi) in Hle by (split; assumption).
  apply Z.leb_le in Hle.
  set (s := F64.add hi lo) in *.
  destruct (div_two s Vs Hfin) as (Vm & Fm & Hhalf).
  unfold midline_of. fold s.
  set (mid := F64.div s (F64.of_Z 2)) in *.
  assert (Hlow : 2 * units lo <= units s).
  { apply (faithful_lower _ (units hi + units lo)); try assumption; try lia.
    apply double_representable; assumption. }
  assert (Hup : units s <= 2 * units hi).
  { apply (faithful_upper _ (units hi + units lo)); try assumption; try lia.
    apply double_representable; assumption. }
  destruct (units_even lo Vlo Flo) as (cl & Hcl).
  destruct (units_even hi Vhi Fhi) as (ch & Hch).
  destruct (units_even mid Vm Fm) as (cm & Hcm).
  apply Z.abs_lt in Hhalf.
  assert (Nm : number mid).
  { split; [exact Vm|]. destruct mid; try discriminate; reflexivity. }
  rewrite (leb_units lo mid), (leb_units mid hi)
    by (assumption || (split; assumption)).
  split; apply Z.leb_le; lia.
Qed.

(** ** The extrema of a list of numbers *)

Lemma gtb_units (x y : F64.float) :
  number x -> number y -> F64.gtb x y = (units y <? units x).
Proof. intros Hx Hy. unfold F64.gtb. apply (ltb_units y x Hy Hx). Qed.

Lemma max_loop_units (l : list F64.float) :
  forall acc y,
    number acc -> Forall number l ->
    extremum_loop F64.gtb (@Ok _) acc l = Ok y ->
    (y = acc \/ In y l) /\
    units acc <= units y /\
    Forall (fun h => units h <= units y) l.
Proof.
  induction l as [|x l IH]; intros acc y Hacc Hl H; cbn in H.
  - ok_inv H. split; [left; reflexivity|]. split; [lia|constructor].
  - inversion Hl as [|? ? Hx Hl']; subst.
    rewrite (gtb_units x acc Hx Hacc) in H.
    destruct (Z.ltb_spec (units acc) (units x)) as [Hlt|Hge].
    + destruct (IH x y Hx Hl' H) as ([->|Hin] & Hle & Hall).
      * split; [right; left; reflexivity|]. split; [lia|].
        constructor; [lia|exact Hall].
      * split; [right; right; exact Hin|]. split; [lia|].
        constructor; [lia|exact Hall].
    + destruct (IH acc y Hacc Hl' H) as ([->|Hin] & Hle & Hall).
      * split; [left; reflexivity|]. split; [lia|].
        constructor; [lia|exact Hall].
      * split; [right; right; exact Hin|]. split; [lia|].
        constructor; [lia|exact Hall].
Qed.

Lemma min_loop_units (l : list F64.float) :
  forall acc y,
    number acc -> Forall number l ->
    extremum_loop F64.ltb (@Ok _) acc l = Ok y ->
    (y = acc \/ In y l) /\
    units y <= units acc /\
    Forall (fun h => units y <= units h) l.
Proof.
  induction l as [|x l IH]; intros acc y Hacc Hl H; cbn in H.
  - ok_inv H. split; [left; reflexivity|]. split; [lia|constructor].
  - inversion Hl as [|? ? Hx Hl']; subst.
    rewrite (ltb_units x acc Hx Hacc) in H.
    destruct (Z.ltb_spec (units x) (units acc)) as [Hlt|Hge].
    + destruct (IH x y Hx Hl' H) as ([->|Hin] & Hle & Hall).
      * split; [right; left; reflexivity|]. split; [lia|].
        constructor; [lia|exact Hall].
      * split; [right; right; exact Hin|]. split; [lia|].
        constructor; [lia|exact Hall].
    + destruct (IH acc y Hacc Hl' H) as ([->|Hin] & Hle & Hall).
      * split; [left; reflexivity|]. split; [lia|].
        constructor; [lia|exact Hall].
      * split; [right; right; exact Hin|]. split; [lia|].
        constructor; [lia|exact Hall].
Qed.

(** [max] of a list of numbers is an item that no item exceeds. *)
Lemma py_max_greatest (l : list F64.float) (y : F64.float) :
  Forall number l ->
  py_max (@Ok _) l = Ok y ->
  In y l /\ Forall (fun h => F64.leb h y = true) l.
Proof.
  intros Hl H. destruct l as [|x l]; [discriminate|].
  cbn in H. inversion Hl as [|? ? Hx Hl']; subst.
  destruct (max_loop_units l x y Hx Hl' H) as (Hin & Hle & Hall).
  assert (Hy : number y).
  { destruct Hin as [->|Hin]; [exact Hx|].
    rewrite Forall_forall in Hl'. apply Hl'. exact Hin. }
  split.
  - destruct Hin as [->|Hin]; [left; reflexivity|right; exact Hin].
  - constructor.
    + rewrite (leb_units x y Hx Hy). apply Z.leb_le. exact Hle.
    + rewrite Forall_forall in *. intros h Hh.
      rewrite (leb_units h y (Hl' h Hh) Hy). apply Z.leb_le.
      apply Hall. exact Hh.
Qed.

(** [min] of a list of numbers is an item that exceeds no item. *)
Lemma py_min_least (l : list F64.float) (y : F64.float) :
  Forall number l ->
  py_min (@Ok _) l = Ok y ->
  In y l /\ Forall (fun h => F64.leb y h = true) l.
Proof.
  intros Hl H. destruct l as [|x l]; [discriminate|].
  cbn in H. inversion Hl as [|? ? Hx Hl']; subst.
  destruct (min_loop_units l x y Hx Hl' H) as (Hin & Hle & Hall).
  assert (Hy : number y).
  { destruct Hin as [->|Hin]; [exact Hx|].
    rewrite Forall_forall in Hl'. apply Hl'. exact Hin. }
  split.
  - destruct Hin as [->|Hin]; [left; reflexivity|right; exact Hin].
  - constructor.
    + rewrite (leb_units y x Hy Hx). apply Z.leb_le. exact Hle.
    + rewrite Forall_forall in *. intros h Hh.
      rewrite (leb_units y h Hy (Hl' h Hh)). apply Z.leb_le.
      apply Hall. exact Hh.
Qed.

(** The highs and the lows of well-formed candles. *)
Lemma well_formed_highs_lows (series : list candle) :
  Forall well_formed_candle series ->
  exists highs lows,
    highs_of series = Ok highs /\ lows_of series = Ok lows /\
    Forall2 (fun l h => number l /\ number h /\ F64.leb l h = true)
            lows highs.
Proof.
  unfold highs_of, lows_of.
  induction 1 as [|c series (h & l & Hh & Hl & Vh & Vl & Hle) _
                   (highs & lows & Ehs & Els & IH)].
  - exists [], []. repeat split. constructor.
  - exists (h :: highs), (l :: lows). cbn [py_listcomp].
    rewrite Hh, Hl, Ehs, Els. cbn [bind].
    split; [reflexivity|]. split; [reflexivity|].
    constructor; [|exact IH].
    destruct (leb_true_not_nan _ _ Hle) as [Nl Nh].
    repeat split; assumption.
Qed.

(** ** [sorted] on numbers *)

Lemma insert_sorted_Permutation (x : F64.float) (l : list F64.float) :
  Permutation (insert_sorted x l) (x :: l).
Proof.
  induction l as [|y l IH]; cbn [insert_sorted].
  - apply Permutation_refl.
  - destruct (F64.ltb y x).
    + eapply perm_trans; [apply perm_skip; exact IH|]. apply perm_swap.
    + apply Permutation_refl.
Qed.

(** [sorted] rearranges its argument. *)
Lemma sorted_Permutation (data : list F64.float) :
  Permutation (sorted data) data.
Proof.
  induction data as [|x data IH]; cbn [sorted fold_right].
  - apply perm_nil.
  - eapply perm_trans; [apply insert_sorted_Permutation|].
    apply perm_skip. exact IH.
Qed.

Lemma insert_sorted_HdRel (a x : F64.float) (l : list F64.float) :
  F64.leb a x = true ->
  HdRel (fun u v => F64.leb u v = true) a l ->
  HdRel (fun u v => F64.leb u v = true) a (insert_sorted x l).
Proof.
  intros Hax Hal. destruct l as [|y l]; cbn [insert_sorted].
  - constructor. exact Hax.
  - destruct (F64.ltb y x); constructor.
    + inversion Hal; assumption.
    + exact Hax.
Qed.

Lemma insert_sorted_Sorted (x : F64.float) (l : list F64.float) :
  number x -> Forall number l ->
  Sorted (fun u v => F64.leb u v = true) l ->
  Sorted (fun u v => F64.leb u v = true) (insert_sorted x l).
Proof.
  intros Nx Nl Hs. induction Hs as [|y l Hs IH Hd]; cbn [insert_sorted].
  - repeat constructor.
  - inversion Nl as [|? ? Ny Nl']; subst.
    destruct (F64.ltb y x) eqn:Hlt.
    + constructor; [apply IH; exact Nl'|].
      apply insert_sorted_HdRel; [|exact Hd].
      rewrite (ltb_units y x Ny Nx) in Hlt. apply Z.ltb_lt in Hlt.
      rewrite (leb_units y x Ny Nx). apply Z.leb_le. lia.
    + constructor; [constructor; assumption|].
      constructor.
      rewrite (ltb_units y x Ny Nx) in Hlt. apply Z.ltb_ge in Hlt.
      rewrite (leb_units x y Nx Ny). apply Z.leb_le. exact Hlt.
Qed.

(** On numbers, [sorted] puts its argument in ascending order. *)
Lemma sorted_Sorted (data : list F64.float) :
  Forall number data ->
  Sorted (fun u v => F64.leb u v = true) (sorted data).
Proof.
  induction 1 as [|x data Nx Nd IH]; cbn [sorted fold_right].
  - constructor.
  - apply insert_sorted_Sorted; [exact Nx| |exact IH].
    eapply Permutation_Forall; [|exact Nd].
    apply Permutation_sym. apply sorted_Permutation.
Qed.

(** ** The statistical median *)










(** ** The literals of the source *)

(** The literals are the floats nearest to the decimals they stand for. *)
Example literals_correctly_rounded :
  F64.lit_0_98 = F64.div (F64.of_Z 98) (F64.of_Z 100) /\
  F64.lit_1_02 = F64.div (F64.of_Z 102) (F64.of_Z 100) /\
  F64.lit_1_01 = F64.div (F64.of_Z 101) (F64.of_Z 100) /\
  F64.lit_0_995 = F64.div (F64.of_Z 995) (F64.of_Z 1000) /\
  F64.lit_1_005 = F64.div (F64.of_Z 1005) (F64.of_Z 1000) /\
  F64.lit_1_002 = F64.div (F64.of_Z 1002) (F64.of_Z 1000) /\
  F64.lit_1_004 = F64.div (F64.of_Z 1004) (F64.of_Z 1000).
Proof. vm_compute. repeat split. Qed.

(** Twice the largest float is infinite. *)
Example max_float_overflows :
  F64.valid F64.max_float = true /\
  F64.add F64.max_float F64.max_float = S754_infinity false.
Proof. vm_compute. split; reflexivity. Qed.

(** * The claims *)

(** ** Comparisons of floats *)

Lemma SFcompare_antisym (x y : F64.float) :
  SFcompare y x = option_map CompOpp (SFcompare x y).
Proof.
  destruct x as [sx|sx| |sx mx ex], y as [sy|sy| |sy my ey]; simpl;
    try reflexivity;
    try (destruct sx; reflexivity);
    try (destruct sy; reflexivity);
    try (destruct sx, sy; reflexivity).
  destruct sx, sy; simpl; try reflexivity;
    rewrite (Z.compare_antisym ex ey);
    destruct (ex ?= ey); simpl; try reflexivity;
    rewrite ?(Pos.compare_cont_antisym mx my Eq); reflexivity.
Qed.

Lemma eqb_not_ltb (x y : F64.float) :
  F64.eqb x y = true -> F64.ltb x y = false /\ F64.gtb x y = false.
Proof.
  unfold F64.eqb, F64.ltb, F64.gtb, SFeqb, SFltb.
  rewrite (SFcompare_antisym x y).
  destruct (SFcompare x y) as [[| |]|]; simpl; intros H;
    try discriminate; auto.
Qed.

(** ** The sample series *)

Lemma sample_1d_shaped : well_shaped sample_1d.
Proof.
  split; [discriminate|]. repeat constructor; simpl; lia.
Qed.

Lemma sample_4h_shaped : well_shaped sample_4h.
Proof.
  split; [discriminate|]. repeat constructor; simpl; lia.
Qed.

Lemma sample_15m_shaped : well_shaped sample_15m.
Proof.
  split; [discriminate|]. repeat constructor; simpl; lia.
Qed.

(** ** Swings and midline *)

(** C1, as amended. On daily candles with low <= high, whenever the
    detector returns, swing_high is the greatest of the daily highs,
    swing_low the least of the daily lows and the midline the float
    [(swing_high + swing_low) / 2]; when the float sum
    [swing_high + swing_low] is finite, swing_low <= midline <=
    swing_high. *)
Theorem midline_between_swings ohlcv_1d ohlcv_4h ohlcv_1h ohlcv_15m r :
  Forall well_formed_candle ohlcv_1d ->
  detect_structure_and_liquidity ohlcv_1d ohlcv_4h ohlcv_1h ohlcv_15m = Ok r ->
  exists tf highs lows sh sl,
    dict_get r "1D" = Some tf /\
    highs_of ohlcv_1d = Ok highs /\
    lows_of ohlcv_1d = Ok lows /\
    swing_high tf = Some sh /\
    swing_low tf = Some sl /\
    midline_50 tf = Some (midline_of sh sl) /\
    (In sh highs /\ Forall (fun h => F64.leb h sh = true) highs) /\
    (In sl lows /\ Forall (fun l => F64.leb sl l = true) lows) /\
    (F64.is_finite (F64.add sh sl) = true ->
     F64.leb sl (midline_of sh sl) = true /\
     F64.leb (midline_of sh sl) sh = true).
Proof.
  intros Hwf H.
  destruct (detect_quantities _ _ _ _ _ H)
    as (p & sh & sl & med & tf1 & tf4 & tfh & tf15
        & _ & Hsh & Hsl & _ & -> & (_ & _ & Fsh & Fsl & Fmid & _) & _).
  destruct (well_formed_highs_lows _ Hwf) as (highs & lows & Ehs & Els & Hp).
  unfold swing_high_of, py_max in Hsh.
  rewrite (py_extremum_listcomp _ _ _ _ Ehs) in Hsh.
  unfold swing_low_of, py_min in Hsl.
  rewrite (py_extremum_listcomp _ _ _ _ Els) in Hsl.
  assert (Nh : Forall number highs).
  { clear -Hp. induction Hp as [|l h ls hs (_ & Hh & _) _ IH];
      constructor; assumption. }
  assert (Nl : Forall number lows).
  { clear -Hp. induction Hp as [|l h ls hs (Hl & _) _ IH];
      constructor; assumption. }
  destruct (py_max_greatest highs sh Nh Hsh) as (Ish & Gsh).
  destruct (py_min_least lows sl Nl Hsl) as (Isl & Lsl).
  exists tf1, highs, lows, sh, sl.
  split; [reflexivity|]. split; [exact Ehs|]. split; [exact Els|].
  split; [exact Fsh|]. split; [exact Fsl|]. split; [exact Fmid|].
  split; [split; assumption|]. split; [split; assumption|].
  intros Hfin.
  assert (Nsh : number sh) by (rewrite Forall_forall in Nh; auto).
  assert (Nsl : number sl) by (rewrite Forall_forall in Nl; auto).
  apply midline_between; try apply Nsl; try apply Nsh; try exact Hfin.
  (* swing_low <= some low <= its high <= swing_high *)
  destruct Hp as [|l h ls hs (Hl & Hh & Hlh) _]; [destruct Ish|].
  inversion Gsh as [|? ? Ghs _]; subst.
  inversion Lsl as [|? ? Lls _]; subst.
  rewrite leb_units in * by assumption.
  apply Z.leb_le. apply Z.leb_le in Hlh, Ghs, Lls. lia.
Qed.

Lemma sample_1d_well_formed : Forall well_formed_candle sample_1d.
Proof.
  repeat constructor; do 2 eexists; repeat split; vm_compute; reflexivity.
Qed.

Lemma midline_between_swings_witness :
  Forall well_formed_candle sample_1d /\
  exists r tf sh sl,
    detect_structure_and_liquidity sample_1d sample_4h sample_1h sample_15m
      = Ok r /\
    dict_get r "1D" = Some tf /\
    swing_high tf = Some sh /\
    swing_low tf = Some sl /\
    F64.is_finite (F64.add sh sl) = true /\
    F64.leb sl (midline_of sh sl) = true /\
    F64.leb (midline_of sh sl) sh = true.
Proof.
  split; [exact sample_1d_well_formed|].
  destruct (detect_structure_and_liquidity
              sample_1d sample_4h sample_1h sample_15m) as [r|e] eqn:E;
    [|vm_compute in E; discriminate].
  destruct (midline_between_swings _ _ _ _ r sample_1d_well_formed E)
    as (tf & highs & lows & sh & sl
        & Htf & _ & _ & Hsh & Hsl & _ & _ & _ & Hmid).
  exists r, tf, sh, sl.
  split; [reflexivity|]. split; [exact Htf|].
  split; [exact Hsh|]. split; [exact Hsl|].
  assert (Hfin : F64.is_finite (F64.add sh sl) = true).
  { vm_compute in E. injection E as <-.
    vm_compute in Htf. injection Htf as <-.
    vm_compute in Hsh. injection Hsh as <-.
    vm_compute in Hsl. injection Hsl as <-.
    vm_compute. reflexivity. }
  split; [exact Hfin|]. exact (Hmid Hfin).
Defined.

(** On a day on which every price is the largest float the candles are
    well formed, and the midline is infinite, above swing_high. *)
Lemma midline_overflow :
  Forall well_formed_candle huge_1d /\
  Forall well_formed_candle sample_4h /\
  Forall well_formed_candle sample_1h /\
  Forall well_formed_candle sample_15m /\
  exists r tf sh sl mid,
    detect_structure_and_liquidity huge_1d sample_4h sample_1h sample_15m
      = Ok r /\
    dict_get r "1D" = Some tf /\
    swing_high tf = Some sh /\
    swing_low tf = Some sl /\
    midline_50 tf = Some mid /\
    F64.leb sl mid = true /\
    F64.leb mid sh = false.
Proof.
  repeat split;
    try (repeat constructor; do 2 eexists; repeat split;
         vm_compute; reflexivity).
  do 5 eexists. repeat split; vm_compute; reflexivity.
Qed.

(** ** Bias *)

(** C2. The detector returns on series that are not empty and whose rows
    are whole; and whenever it returns, the bias of the daily context is
    "discount_LONG" exactly when the close of the last 15-minute candle is
    strictly below the midline, and "premium_SHORT" otherwise; a price equal
    to the midline gives "premium_SHORT". *)
Theorem bias_by_midline ohlcv_1d ohlcv_4h ohlcv_1h ohlcv_15m :
  (well_shaped ohlcv_1d -> well_shaped ohlcv_4h -> well_shaped ohlcv_15m ->
   exists r,
     detect_structure_and_liquidity ohlcv_1d ohlcv_4h ohlcv_1h ohlcv_15m
     = Ok r) /\
  forall r,
    detect_structure_and_liquidity ohlcv_1d ohlcv_4h ohlcv_1h ohlcv_15m
    = Ok r ->
    exists tf p sh sl,
      dict_get r "1D" = Some tf /\
      latest_price_of ohlcv_15m = Ok p /\
      swing_high_of ohlcv_1d = Ok sh /\
      swing_low_of ohlcv_1d = Ok sl /\
      (bias tf = Some "discount_LONG"
       <-> F64.ltb p (midline_of sh sl) = true) /\
      (bias tf = Some "premium_SHORT"
       <-> F64.ltb p (midline_of sh sl) = false) /\
      (F64.eqb p (midline_of sh sl) = true -> bias tf = Some "premium_SHORT").
Proof.
  split; [apply detect_returns|].
  intros r H.
  destruct (detect_quantities _ _ _ _ _ H)
    as (p & sh & sl & med & tf1 & tf4 & tfh & tf15
        & Hp & Hsh & Hsl & _ & -> & (Hb & _) & _).
  exists tf1, p, sh, sl.
  repeat (split; [assumption || reflexivity|]).
  rewrite Hb.
  destruct (F64.ltb p (midline_of sh sl)) eqn:Hlt.
  - repeat split; intros; try reflexivity; try discriminate.
    apply eqb_not_ltb in H0. destruct H0 as [H0 _]. congruence.
  - repeat split; intros; try reflexivity; discriminate.
Qed.

Lemma bias_by_midline_witness :
  well_shaped sample_1d /\ well_shaped sample_4h /\ well_shaped sample_15m /\
  exists r,
    detect_structure_and_liquidity sample_1d sample_4h sample_1h sample_15m
      = Ok r /\
    exists tf p sh sl,
      dict_get r "1D" = Some tf /\
      latest_price_of sample_15m = Ok p /\
      swing_high_of sample_1d = Ok sh /\
      swing_low_of sample_1d = Ok sl /\
      (bias tf = Some "discount_LONG"
       <-> F64.ltb p (midline_of sh sl) = true) /\
      (bias tf = Some "premium_SHORT"
       <-> F64.ltb p (midline_of sh sl) = false) /\
      (F64.eqb p (midline_of sh sl) = true -> bias tf = Some "premium_SHORT").
Proof.
  pose proof sample_1d_shaped as S1.
  pose proof sample_4h_shaped as S4.
  pose proof sample_15m_shaped as S15.
  repeat (split; [assumption|]).
  destruct (bias_by_midline sample_1d sample_4h sample_1h sample_15m)
    as [Hret Hbias].
  destruct (Hret S1 S4 S15) as (r & Hr).
  exists r. split; [exact Hr|]. apply Hbias. exact Hr.
Defined.

(** ** Trend *)


Lemma sample_closes_numbers :
  Forall number (map F64.of_Z [98; 102; 99; 101]).
Proof. repeat constructor. Qed.


(** ** Break of structure *)

(** C4. Whenever the detector returns, the four contexts "1D", "4H", "1H"
    and "15m" carry the same bos, which is a function of the trend alone:
    "up" for "bullish_HH_HL" and "down" for "bearish_LH_LL". *)
Theorem bos_from_trend ohlcv_1d ohlcv_4h ohlcv_1h ohlcv_15m r :
  detect_structure_and_liquidity ohlcv_1d ohlcv_4h ohlcv_1h ohlcv_15m = Ok r ->
  exists tf_1d t,
    dict_get r "1D" = Some tf_1d /\
    trend tf_1d = Some t /\
    (t = "bullish_HH_HL" \/ t = "bearish_LH_LL") /\
    (forall k, In k ["1D"; "4H"; "1H"; "15m"] ->
       exists tf, dict_get r k = Some tf /\ bos tf = Some (bos_of t)) /\
    bos_of "bullish_HH_HL" = "up" /\
    bos_of "bearish_LH_LL" = "down".
Proof.
  intros H.
  destruct (detect_quantities _ _ _ _ _ H)
    as (p & sh & sl & med & tf1 & tf4 & tfh & tf15
        & _ & _ & _ & _ & -> & (_ & Ht & _) & (B1 & B4 & Bh & B15) & _).
  exists tf1. eexists.
  split; [reflexivity|]. split; [exact Ht|].
  split. { destruct (F64.gtb p med); auto. }
  split; [|split; reflexivity].
  intros k [<-|[<-|[<-|[<-|[]]]]]; eexists; (split; [reflexivity|assumption]).
Qed.

Lemma bos_from_trend_witness :
  exists r,
    detect_structure_and_liquidity sample_1d sample_4h sample_1h sample_15m
      = Ok r /\
    exists tf_1d t,
      dict_get r "1D" = Some tf_1d /\
      trend tf_1d = Some t /\
      (t = "bullish_HH_HL" \/ t = "bearish_LH_LL") /\
      (forall k, In k ["1D"; "4H"; "1H"; "15m"] ->
         exists tf, dict_get r k = Some tf /\ bos tf = Some (bos_of t)) /\
      bos_of "bullish_HH_HL" = "up" /\
      bos_of "bearish_LH_LL" = "down".
Proof.
  eexists. split; [vm_compute; reflexivity|].
  apply (bos_from_trend sample_1d sample_4h sample_1h sample_15m).
  vm_compute. reflexivity.
Defined.

(** ** Order blocks *)

(** C10. Whenever the detector returns, the "4H" context and the "1H"
    context each hold exactly one order-block zone, and both zones are
    labelled "bullish", whatever the trend. *)
Theorem ob_zones_always_bullish ohlcv_1d ohlcv_4h ohlcv_1h ohlcv_15m r :
  detect_structure_and_liquidity ohlcv_1d ohlcv_4h ohlcv_1h ohlcv_15m = Ok r ->
  exists tf_4h tf_1h z4 z1,
    dict_get r "4H" = Some tf_4h /\
    dict_get r "1H" = Some tf_1h /\
    ob_zones tf_4h = [z4] /\ ob_type z4 = "bullish" /\
    ob_zones tf_1h = [z1] /\ ob_type z1 = "bullish".
Proof.
  intros H.
  destruct (detect_quantities _ _ _ _ _ H)
    as (p & sh & sl & med & tf1 & tf4 & tfh & tf15
        & _ & _ & _ & _ & -> & _ & _ & (z4 & z1 & H4 & T4 & H1 & T1)).
  exists tf4, tfh, z4, z1. repeat split; assumption || reflexivity.
Qed.

(** The trend is bearish on the first input and bullish on the second. *)
Lemma ob_zones_always_bullish_witness :
  (exists r,
      detect_structure_and_liquidity sample_1d sample_4h sample_1h sample_15m
        = Ok r /\
      (exists tf, dict_get r "1D" = Some tf /\
                  trend tf = Some "bearish_LH_LL") /\
      exists tf_4h tf_1h z4 z1,
        dict_get r "4H" = Some tf_4h /\
        dict_get r "1H" = Some tf_1h /\
        ob_zones tf_4h = [z4] /\ ob_type z4 = "bullish" /\
        ob_zones tf_1h = [z1] /\ ob_type z1 = "bullish") /\
  (exists r,
      detect_structure_and_liquidity sample_1d sample_4h sample_1h
        sample_15m_high = Ok r /\
      (exists tf, dict_get r "1D" = Some tf /\
                  trend tf = Some "bullish_HH_HL") /\
      exists tf_4h tf_1h z4 z1,
        dict_get r "4H" = Some tf_4h /\
        dict_get r "1H" = Some tf_1h /\
        ob_zones tf_4h = [z4] /\ ob_type z4 = "bullish" /\
        ob_zones tf_1h = [z1] /\ ob_type z1 = "bullish").
Proof.
  split.
  - eexists. split; [vm_compute; reflexivity|].
    split; [eexists; split; vm_compute; reflexivity|].
    apply (ob_zones_always_bullish sample_1d sample_4h sample_1h sample_15m).
    vm_compute. reflexivity.
  - eexists. split; [vm_compute; reflexivity|].
    split; [eexists; split; vm_compute; reflexivity|].
    apply (ob_zones_always_bullish sample_1d sample_4h sample_1h
             sample_15m_high).
    vm_compute. reflexivity.
Defined.

(** ** Session classifier *)

(** C8. The session is "NY" exactly for the hours 12 to 19, "LDN" exactly
    for the hours 7 to 11 and "ASIA" for every other hour; hour 12 gives
    "NY", hour 7 "LDN", and the hours 6 and 20 "ASIA". *)
Theorem detect_session_boundaries (h : Z) :
  (detect_session h = "NY" <-> 12 <= h < 20) /\
  (detect_session h = "LDN" <-> 7 <= h < 12) /\
  (detect_session h = "ASIA" <-> ~ 12 <= h < 20 /\ ~ 7 <= h < 12) /\
  detect_session 12 = "NY" /\
  detect_session 7 = "LDN" /\
  detect_session 6 = "ASIA" /\
  detect_session 20 = "ASIA".
Proof.
  unfold detect_session.
  destruct (Z.leb_spec 12 h), (Z.ltb_spec h 20), (Z.leb_spec 7 h),
    (Z.ltb_spec h 12); simpl;
    repeat split; intros; try reflexivity; try discriminate; try lia;
    try (exfalso; intuition lia).
Qed.

(** ** The scenario of the specification *)

(** C9. With daily highs 100, 110, 105 and lows 90, 95, 92, 4-hour closes
    98, 102, 99, 101 and a last 15-minute close of 97, the detector returns
    swing_high 110, swing_low 90, midline 100, bias "discount_LONG", trend
    "bearish_LH_LL" and bos "down"; the median of the 4-hour closes is
    100. *)
Theorem scenario_end_to_end ohlcv_1d ohlcv_4h ohlcv_1h ohlcv_15m :
  highs_of ohlcv_1d = Ok (map F64.of_Z [100; 110; 105]) ->
  lows_of ohlcv_1d = Ok (map F64.of_Z [90; 95; 92]) ->
  closes_of ohlcv_4h = Ok (map F64.of_Z [98; 102; 99; 101]) ->
  latest_price_of ohlcv_15m = Ok (F64.of_Z 97) ->
  median_4h_of ohlcv_4h = Ok (F64.of_Z 100) /\
  exists tf_1d tf_4h tf_1h tf_15m,
    detect_structure_and_liquidity ohlcv_1d ohlcv_4h ohlcv_1h ohlcv_15m
      = Ok [("1D", tf_1d); ("4H", tf_4h); ("1H", tf_1h); ("15m", tf_15m)] /\
    swing_high tf_1d = Some (F64.of_Z 110) /\
    swing_low tf_1d = Some (F64.of_Z 90) /\
    midline_50 tf_1d = Some (F64.of_Z 100) /\
    bias tf_1d = Some "discount_LONG" /\
    trend tf_1d = Some "bearish_LH_LL" /\
    bos tf_1d = Some "down" /\ bos tf_4h = Some "down" /\
    bos tf_1h = Some "down" /\ bos tf_15m = Some "down".
Proof.
  unfold highs_of, lows_of, closes_of, latest_price_of, median_4h_of.
  intros Hh Hl Hc Hp.
  split; [rewrite Hc; vm_compute; reflexivity|].
  unfold detect_structure_and_liquidity, py_max, py_min.
  rewrite (py_extremum_listcomp _ _ _ _ Hh).
  rewrite (py_extremum_listcomp _ _ _ _ Hl).
  rewrite Hc.
  bind_inv Hp. rewrite E. cbn [bind]. rewrite Hp.
  do 4 eexists. split; [vm_compute; reflexivity|].
  vm_compute. repeat split.
Qed.

Lemma scenario_end_to_end_witness :
  median_4h_of sample_4h = Ok (F64.of_Z 100) /\
  exists tf_1d tf_4h tf_1h tf_15m,
    detect_structure_and_liquidity sample_1d sample_4h sample_1h sample_15m
      = Ok [("1D", tf_1d); ("4H", tf_4h); ("1H", tf_1h); ("15m", tf_15m)] /\
    swing_high tf_1d = Some (F64.of_Z 110) /\
    swing_low tf_1d = Some (F64.of_Z 90) /\
    midline_50 tf_1d = Some (F64.of_Z 100) /\
    bias tf_1d = Some "discount_LONG" /\
    trend tf_1d = Some "bearish_LH_LL" /\
    bos tf_1d = Some "down" /\ bos tf_4h = Some "down" /\
    bos tf_1h = Some "down" /\ bos tf_15m = Some "down".
Proof.
  apply (scenario_end_to_end sample_1d sample_4h sample_1h sample_15m);
    vm_compute; reflexivity.
Defined.

(** ** Heatmap cluster fetcher *)

Section FetcherProperties.

Variable float_of_str : string -> result F64.float.
Variable http_get : string -> dict string -> result http_response.

(** The loop appends the clusters of the items that do not raise. *)
Lemma clusters_loop_flat_map items :
  forall clusters,
    clusters_loop float_of_str clusters items
    = (clusters ++ flat_map (kept_cluster float_of_str) items)%list.
Proof.
  induction items as [|i items IH]; intros clusters; cbn [clusters_loop flat_map].
  - rewrite app_nil_r. reflexivity.
  - rewrite IH. unfold kept_cluster at 2.
    destruct (entry_cluster float_of_str i) as [c|e];
      cbn [bind try_except].
    + rewrite <- app_assoc. reflexivity.
    + reflexivity.
Qed.

Lemma kept_unparsable i :
  unparsable float_of_str i = true -> kept_cluster float_of_str i = [].
Proof.
  unfold kept_cluster, entry_cluster, unparsable, field_or_zero.
  destruct i; simpl; try reflexivity.
  destruct (py_float float_of_str _) as [x|e]; simpl; [|reflexivity].
  destruct (py_float float_of_str _) as [y|e]; simpl;
    [discriminate|reflexivity].
Qed.

Lemma kept_parsable i :
  unparsable float_of_str i = false ->
  exists c,
    kept_cluster float_of_str i = [c] /\ entry_yields float_of_str i c.
Proof.
  unfold kept_cluster, entry_cluster, unparsable.
  destruct i; simpl; try discriminate.
  fold (field_or_zero d "price"). fold (field_or_zero d "size").
  fold (side_field d).
  destruct (py_float float_of_str (field_or_zero d "price")) as [x|e] eqn:Ex;
    simpl; [|discriminate].
  destruct (py_float float_of_str (field_or_zero d "size")) as [y|e] eqn:Ey;
    simpl; [|discriminate].
  intros _. eexists. split; [reflexivity|].
  constructor; assumption.
Qed.

Lemma flat_map_kept items :
  exists cs,
    flat_map (kept_cluster float_of_str) items = cs /\
    Forall2 (entry_yields float_of_str)
            (filter (fun i => negb (unparsable float_of_str i)) items) cs.
Proof.
  induction items as [|i items (cs & <- & IH)]; simpl.
  - exists []. split; [reflexivity|constructor].
  - destruct (unparsable float_of_str i) eqn:Hu; simpl.
    + rewrite (kept_unparsable _ Hu). simpl. eauto.
    + destruct (kept_parsable _ Hu) as (c & -> & Hc). simpl.
      eexists. split; [reflexivity|]. constructor; assumption.
Qed.

(** What the fetcher returns on a 200 answer that carries a list. *)
Lemma fetch_on_answer symbol entries :
  heatmap_answer (http_get (heatmap_url symbol) coinglass_headers) entries ->
  fetch_coinglass_clusters float_of_str http_get symbol
  = Ok {| heatmap := {| N1 := []; N2 := [];
                        N3 := flat_map (kept_cluster float_of_str)
                                       (firstn 3 entries) |};
          liquidations := {| N1 := []; N2 := []; N3 := [] |} |}.
Proof.
  intros (r & d & Hr & Hs & Hb & Hd).
  unfold fetch_coinglass_clusters. cbv zeta.
  rewrite Hr. cbn [bind try_except]. rewrite Hs. cbn [Z.eqb Pos.eqb].
  rewrite Hb. cbn [bind json_get try_except]. rewrite Hd.
  destruct entries as [|i entries].
  - reflexivity.
  - cbn [truthy json_slice3 bind].
    rewrite clusters_loop_flat_map. reflexivity.
Qed.

(** What the fetcher returns when the call gives no data. *)
Lemma fetch_on_failure symbol :
  heatmap_call_fails (http_get (heatmap_url symbol) coinglass_headers) ->
  fetch_coinglass_clusters float_of_str http_get symbol
  = Ok {| heatmap := {| N1 := []; N2 := []; N3 := [] |};
          liquidations := {| N1 := []; N2 := []; N3 := [] |} |}.
Proof.
  intros Hf. unfold fetch_coinglass_clusters. cbv zeta.
  destruct Hf as [e He|r Hr Hs|r e Hr Hb].
  - rewrite He. reflexivity.
  - rewrite Hr. cbn [bind].
    destruct (Z.eqb_spec (status_code r) 200) as [H|_]; [contradiction|].
    reflexivity.
  - rewrite Hr. cbn [bind].
    destruct (status_code r =? 200); [rewrite Hb|]; reflexivity.
Qed.

(** C6. When the heatmap call raises, answers with a status other than
    200, or answers with a body that does not parse, the fetcher still
    returns, with an empty heatmap.N3; the request with the heatmap then
    succeeds whenever the request without it does, and carries that empty
    list. *)
Theorem heatmap_failure_degrades symbol :
  heatmap_call_fails (http_get (heatmap_url symbol) coinglass_headers) ->
  exists cg,
    fetch_coinglass_clusters float_of_str http_get symbol = Ok cg /\
    N3 (heatmap cg) = [] /\
    forall fetch_ohlcv utc_hour timeframe lookback_bars m0,
      get_market_context float_of_str http_get fetch_ohlcv utc_hour
        symbol timeframe lookback_bars false = Ok m0 ->
      exists m,
        get_market_context float_of_str http_get fetch_ohlcv utc_hour
          symbol timeframe lookback_bars true = Ok m /\
        coinglass m = Some cg.
Proof.
  intros Hf. eexists. split; [apply fetch_on_failure; exact Hf|].
  split; [reflexivity|].
  intros fetch_ohlcv utc_hour timeframe lookback_bars m0 H0.
  unfold get_market_context in *.
  rewrite (fetch_on_failure _ Hf).
  bind_inv H0. rewrite E. cbn [bind].
  bind_inv H0. rewrite E0. cbn [bind].
  bind_inv H0. rewrite E1. cbn [bind].
  bind_inv H0. rewrite E2. cbn [bind].
  bind_inv H0. rewrite E3. cbn [bind].
  eexists. split; reflexivity.
Qed.

(** C7. On a 200 answer with more than three valid entries, the
    heatmap.N3 list holds the clusters of the first three entries, in the
    order of the answer, and nothing else. *)
Theorem first_three_entries_mapped symbol entries cs :
  heatmap_answer (http_get (heatmap_url symbol) coinglass_headers) entries ->
  Forall2 valid_entry entries cs ->
  (3 < List.length entries)%nat ->
  exists cg,
    fetch_coinglass_clusters float_of_str http_get symbol = Ok cg /\
    N3 (heatmap cg) = firstn 3 cs /\
    List.length (N3 (heatmap cg)) = 3%nat.
Proof.
  intros Ha Hv Hlen.
  rewrite (fetch_on_answer _ _ Ha). eexists. split; [reflexivity|].
  cbn [heatmap N3].
  assert (Hk : forall es ds, Forall2 valid_entry es ds ->
                             flat_map (kept_cluster float_of_str) es = ds).
  { induction 1 as [|i c es ds Hi _ IH]; simpl; [reflexivity|].
    rewrite IH. destruct Hi as [d s p z x y Hs Hls Hp Hz Hx Hy].
    unfold kept_cluster, entry_cluster. cbn [json_get bind].
    rewrite Hs, Hp, Hz.
    assert (Hnum : forall v w, number_value v = Some w ->
                               py_float float_of_str v = Ok w).
    { intros v w. destruct v; simpl; try discriminate.
      - destruct (F64.is_finite (F64.of_Z n)); [|discriminate].
        intros H. injection H as <-. reflexivity.
      - intros H. injection H as <-. reflexivity. }
    rewrite (Hnum _ _ Hx), (Hnum _ _ Hy). cbn [bind].
    destruct Hls as [-> | ->]; reflexivity. }
  assert (Hf3 : Forall2 valid_entry (firstn 3 entries) (firstn 3 cs)).
  { clear -Hv. revert Hv. generalize 3%nat as n.
    intros n Hv. revert n.
    induction Hv; intros [|n]; simpl; constructor; auto. }
  rewrite (Hk _ _ Hf3). split; [reflexivity|].
  rewrite length_firstn.
  rewrite <- (Forall2_length Hv). lia.
Qed.

(** C5, as amended. On a 200 answer that carries a list, the heatmap.N3
    list holds, in the order of the answer, the clusters of those among
    the first three entries on which parsing does not raise; the entries
    on which it raises are skipped, and they are the entries that are no
    object or whose price or size [float] rejects.  An entry that lacks
    its price or size is parsed with 0 in its place, and one that lacks
    its side is parsed as "long". *)
Theorem unparsable_entries_skipped symbol entries :
  heatmap_answer (http_get (heatmap_url symbol) coinglass_headers) entries ->
  exists cg,
    fetch_coinglass_clusters float_of_str http_get symbol = Ok cg /\
    Forall2 (entry_yields float_of_str)
            (filter (fun i => negb (unparsable float_of_str i))
                    (firstn 3 entries))
            (N3 (heatmap cg)).
Proof.
  intros Ha. rewrite (fetch_on_answer _ _ Ha).
  eexists. split; [reflexivity|].
  cbn [heatmap N3].
  destruct (flat_map_kept (firstn 3 entries)) as (cs & -> & H). exact H.
Qed.

End FetcherProperties.

Lemma heatmap_failure_degrades_witness :
  heatmap_call_fails (answer_500 (heatmap_url "BTC/USDT") coinglass_headers) /\
  exists cg,
    fetch_coinglass_clusters no_float_of_str answer_500 "BTC/USDT" = Ok cg /\
    N3 (heatmap cg) = [] /\
    forall fetch_ohlcv utc_hour timeframe lookback_bars m0,
      get_market_context no_float_of_str answer_500 fetch_ohlcv utc_hour
        "BTC/USDT" timeframe lookback_bars false = Ok m0 ->
      exists m,
        get_market_context no_float_of_str answer_500 fetch_ohlcv utc_hour
          "BTC/USDT" timeframe lookback_bars true = Ok m /\
        coinglass m = Some cg.
Proof.
  assert (H : heatmap_call_fails
                (answer_500 (heatmap_url "BTC/USDT") coinglass_headers)).
  { eapply call_not_200; [reflexivity|]. vm_compute. discriminate. }
  split; [exact H|].
  apply (heatmap_failure_degrades no_float_of_str answer_500 "BTC/USDT" H).
Defined.

(** The request on the sample market, with a heatmap service that answers
    500: it succeeds, with an empty heatmap.N3. *)
Example request_with_failing_heatmap :
  exists m,
    get_market_context no_float_of_str answer_500 sample_exchange 13
      "BTC/USDT" "1h" 300 true = Ok m /\
    session m = "NY" /\
    option_map (fun cg => N3 (heatmap cg)) (coinglass m) = Some [].
Proof.
  eexists. split; [vm_compute; reflexivity|]. split; reflexivity.
Qed.

Lemma five_entries_valid : Forall2 valid_entry five_entries five_clusters.
Proof.
  unfold five_entries, five_clusters, entry.
  repeat (constructor;
          [eapply valid_entry_intro; try reflexivity; auto|]).
  constructor.
Qed.

Lemma first_three_entries_mapped_witness :
  exists cg,
    fetch_coinglass_clusters no_float_of_str (answer_entries five_entries)
      "BTC/USDT" = Ok cg /\
    N3 (heatmap cg) = firstn 3 five_clusters /\
    List.length (N3 (heatmap cg)) = 3%nat.
Proof.
  apply (first_three_entries_mapped no_float_of_str
           (answer_entries five_entries) "BTC/USDT" five_entries
           five_clusters).
  - do 2 eexists. repeat split.
  - exact five_entries_valid.
  - simpl. lia.
Defined.

(** An entry without a price is malformed in the sense of the claim, and
    yet it is not skipped: its cluster has the price 0. *)
Lemma entry_without_price_kept :
  malformed entry_without_price = true /\
  exists cg,
    fetch_coinglass_clusters no_float_of_str
      (answer_entries [entry_without_price]) "BTC/USDT" = Ok cg /\
    N3 (heatmap cg)
    = [ {| side := "short"; price := F64.of_Z 0; size_usd := F64.of_Z 5 |} ].
Proof.
  split; [reflexivity|]. eexists. split; vm_compute; reflexivity.
Qed.

Lemma unparsable_entries_skipped_witness :
  exists cg,
    fetch_coinglass_clusters no_float_of_str
      (answer_entries [JStr "x"; entry "short" 66500 3400000;
                       JObj [("side", JStr "long"); ("price", JNull)];
                       entry "long" 63000 2500000])
      "BTC/USDT" = Ok cg /\
    Forall2 (entry_yields no_float_of_str)
            (filter (fun i => negb (unparsable no_float_of_str i))
                    (firstn 3 [JStr "x"; entry "short" 66500 3400000;
                               JObj [("side", JStr "long"); ("price", JNull)];
                               entry "long" 63000 2500000]))
            (N3 (heatmap cg)).
Proof.
  apply (unparsable_entries_skipped no_float_of_str _ "BTC/USDT").
  do 2 eexists. repeat split.
Defined.

(** * Further properties of the structure detector *)

(** ** Indexing and the loops, on every input *)

Lemma py_index_nonneg {A : Type} (l : list A) (i : nat) :
  (exists a, py_index l (Z.of_nat i) = Ok a /\ nth_error l i = Some a)
  \/ (py_index l (Z.of_nat i) = Raise IndexError /\ (List.length l <= i)%nat).
Proof.
  destruct (Nat.lt_ge_cases i (List.length l)) as [Hlt|Hge].
  - left. destruct (py_index_in_range l i Hlt) as (a & Ha). exists a.
    split; [exact Ha|].
    unfold py_index in Ha.
    destruct (_ || _); [discriminate|].
    destruct (Z.ltb_spec (Z.of_nat i) 0) as [H|_]; [lia|].
    rewrite Nat2Z.id in Ha.
    destruct (nth_error l i); [congruence|discriminate].
  - right. split; [|exact Hge]. unfold py_index.
    destruct (Z.ltb_spec (Z.of_nat i) 0) as [H|_]; [lia|].
    destruct (Z.ltb_spec (Z.of_nat i) 0) as [H|_]; [lia|].
    destruct (Z.leb_spec (Z.of_nat (List.length l)) (Z.of_nat i)) as [_|H];
      [reflexivity|lia].
Qed.

Lemma py_index_shorter (c : candle) (n : nat) :
  if shorter (S n) c then py_index c (Z.of_nat n) = Raise IndexError
  else exists a, py_index c (Z.of_nat n) = Ok a.
Proof.
  unfold shorter.
  destruct (Nat.ltb_spec (List.length c) (S n)) as [H|H].
  - destruct (py_index_nonneg c n) as [(a & _ & Hn)|[Hr _]]; [|exact Hr].
    assert (nth_error c n <> None) by congruence.
    apply nth_error_Some in H0. lia.
  - apply py_index_in_range. lia.
Qed.

Lemma py_index_last_empty {A : Type} : @py_index A [] (-1) = Raise IndexError.
Proof. reflexivity. Qed.

Lemma last_map_Some {A : Type} (l : list A) (a : A) :
  List.last (map Some (l ++ [a])%list) None = Some a.
Proof.
  rewrite map_app. cbn [map]. apply last_last.
Qed.

Lemma extremum_loop_short beyond (n : nat) (l : list candle) :
  forall acc,
    if existsb (shorter (S n)) l
    then extremum_loop beyond (fun c => py_index c (Z.of_nat n)) acc l
         = Raise IndexError
    else exists y,
        extremum_loop beyond (fun c => py_index c (Z.of_nat n)) acc l = Ok y.
Proof.
  induction l as [|c l IH]; intros acc; cbn [existsb extremum_loop].
  - eauto.
  - pose proof (py_index_shorter c n) as Hc.
    destruct (shorter (S n) c); cbn [orb].
    + rewrite Hc. reflexivity.
    + destruct Hc as (a & ->). cbn [bind]. apply IH.
Qed.

Lemma py_extremum_short beyond (n : nat) (l : list candle) :
  match l with
  | [] => py_extremum beyond (fun c => py_index c (Z.of_nat n)) l
          = Raise ValueError
  | _ :: _ =>
      if existsb (shorter (S n)) l
      then py_extremum beyond (fun c => py_index c (Z.of_nat n)) l
           = Raise IndexError
      else exists y,
          py_extremum beyond (fun c => py_index c (Z.of_nat n)) l = Ok y
  end.
Proof.
  destruct l as [|c l]; [reflexivity|].
  cbn [existsb py_extremum].
  pose proof (py_index_shorter c n) as Hc.
  destruct (shorter (S n) c); cbn [orb].
  - rewrite Hc. reflexivity.
  - destruct Hc as (a & ->). cbn [bind]. apply extremum_loop_short.
Qed.

Lemma py_listcomp_short (n : nat) (l : list candle) :
  if existsb (shorter (S n)) l
  then py_listcomp (fun c => py_index c (Z.of_nat n)) l = Raise IndexError
  else exists ys,
      py_listcomp (fun c => py_index c (Z.of_nat n)) l = Ok ys /\
      List.length ys = List.length l.
Proof.
  induction l as [|c l IH]; cbn [existsb py_listcomp].
  - eauto.
  - pose proof (py_index_shorter c n) as Hc.
    destruct (shorter (S n) c); cbn [orb].
    + rewrite Hc. reflexivity.
    + destruct Hc as (a & ->). cbn [bind].
      destruct (existsb (shorter (S n)) l).
      * rewrite IH. reflexivity.
      * destruct IH as (ys & -> & Hlen). cbn [bind].
        exists (a :: ys). split; [reflexivity|]. simpl. congruence.
Qed.

Lemma shorter_mono (n m : nat) (l : list candle) :
  (n <= m)%nat -> existsb (shorter n) l = true -> existsb (shorter m) l = true.
Proof.
  intros Hnm H. apply existsb_exists in H. destruct H as (c & Hin & Hc).
  apply existsb_exists. exists c. split; [exact Hin|].
  unfold shorter in *. apply Nat.ltb_lt in Hc. apply Nat.ltb_lt. lia.
Qed.

(** The steps of the detector fail in the order of [detect_exception]. *)
Lemma detect_first_failure ohlcv_1d ohlcv_4h ohlcv_1h ohlcv_15m :
  match detect_exception ohlcv_1d ohlcv_4h ohlcv_15m with
  | Some e =>
      detect_structure_and_liquidity ohlcv_1d ohlcv_4h ohlcv_1h ohlcv_15m
      = Raise e
  | None =>
      exists r,
        detect_structure_and_liquidity ohlcv_1d ohlcv_4h ohlcv_1h ohlcv_15m
        = Ok r
  end.
Proof.
  unfold detect_exception, detect_structure_and_liquidity.
  destruct ohlcv_15m as [|c0 m15] using rev_ind.
  { reflexivity. }
  clear IHm15. rewrite last_map_Some, py_index_last. cbn [bind].
  pose proof (py_index_shorter c0 4) as Hlast.
  change (Z.of_nat 4) with 4 in Hlast.
  destruct (shorter 5 c0); [rewrite Hlast; reflexivity|].
  destruct Hlast as (p & ->). cbn [bind].
  pose proof (py_extremum_short F64.gtb 2 ohlcv_1d) as Hmax.
  pose proof (py_extremum_short F64.ltb 3 ohlcv_1d) as Hmin.
  change (Z.of_nat 2) with 2 in Hmax. change (Z.of_nat 3) with 3 in Hmin.
  unfold py_max, py_min.
  destruct ohlcv_1d as [|c1 d]; [rewrite Hmax; reflexivity|].
  set (daily := c1 :: d) in *.
  destruct (existsb (shorter 4) daily) eqn:E4.
  - destruct (existsb (shorter 3) daily) eqn:E3.
    + rewrite Hmax. reflexivity.
    + destruct Hmax as (sh & ->). cbn [bind]. rewrite Hmin. reflexivity.
  - destruct (existsb (shorter 3) daily) eqn:E3.
    { rewrite (shorter_mono 3 4 daily) in E4 by (lia || assumption).
      discriminate. }
    destruct Hmax as (sh & ->). destruct Hmin as (sl & ->). cbn [bind].
    pose proof (py_listcomp_short 4 ohlcv_4h) as Hcl.
    change (Z.of_nat 4) with 4 in Hcl.
    destruct (existsb (shorter 5) ohlcv_4h).
    + rewrite Hcl. reflexivity.
    + destruct Hcl as (closes & -> & Hlen). cbn [bind].
      destruct ohlcv_4h as [|c4 h4].
      * destruct closes; [reflexivity|discriminate].
      * destruct (median_returns closes) as (med & ->).
        { intros ->. discriminate. }
        cbn [bind]. eauto.
Qed.

(** X1. The detector raises exactly the exception of its first failing
    step, and returns when no step fails: IndexError on an empty 15-minute
    series or a last 15-minute row without a close, then ValueError on an
    empty daily series, IndexError on a daily row without a low or on a
    4-hour row without a close, and StatisticsError on an empty 4-hour
    series. *)
Theorem detect_raises_first_failure ohlcv_1d ohlcv_4h ohlcv_1h ohlcv_15m :
  match detect_exception ohlcv_1d ohlcv_4h ohlcv_15m with
  | Some e =>
      detect_structure_and_liquidity ohlcv_1d ohlcv_4h ohlcv_1h ohlcv_15m
      = Raise e
  | None =>
      exists r,
        detect_structure_and_liquidity ohlcv_1d ohlcv_4h ohlcv_1h ohlcv_15m
        = Ok r
  end.
Proof.
  exact (detect_first_failure ohlcv_1d ohlcv_4h ohlcv_1h ohlcv_15m).
Qed.

(** ** What the detector reads *)

(** X2. The detector reads the highs and lows of the daily rows, the
    closes of the 4-hour rows and the close of the last 15-minute row, and
    nothing else: two inputs that agree on these give the same answer.  The
    hourly series, the earlier 15-minute rows, the opens, the volumes and
    the timestamps are never read. *)
Theorem detect_reads_only
        ohlcv_1d ohlcv_4h ohlcv_1h ohlcv_15m
        ohlcv_1d' ohlcv_4h' ohlcv_1h' ohlcv_15m' highs lows closes p :
  highs_of ohlcv_1d = Ok highs -> highs_of ohlcv_1d' = Ok highs ->
  lows_of ohlcv_1d = Ok lows -> lows_of ohlcv_1d' = Ok lows ->
  closes_of ohlcv_4h = Ok closes -> closes_of ohlcv_4h' = Ok closes ->
  latest_price_of ohlcv_15m = Ok p -> latest_price_of ohlcv_15m' = Ok p ->
  detect_structure_and_liquidity ohlcv_1d ohlcv_4h ohlcv_1h ohlcv_15m
  = detect_structure_and_liquidity ohlcv_1d' ohlcv_4h' ohlcv_1h' ohlcv_15m'.
Proof.
  unfold highs_of, lows_of, closes_of, latest_price_of.
  intros Hh Hh' Hl Hl' Hc Hc' Hp Hp'.
  unfold detect_structure_and_liquidity, py_max, py_min.
  rewrite (py_extremum_listcomp _ _ _ _ Hh), (py_extremum_listcomp _ _ _ _ Hh').
  rewrite (py_extremum_listcomp _ _ _ _ Hl), (py_extremum_listcomp _ _ _ _ Hl').
  rewrite Hc, Hc'.
  bind_inv Hp. bind_inv Hp'. rewrite E, E0. cbn [bind]. rewrite Hp, Hp'.
  reflexivity.
Qed.

Lemma detect_reads_only_witness :
  sample_1d <> other_1d /\
  detect_structure_and_liquidity sample_1d sample_4h sample_1h sample_15m
  = detect_structure_and_liquidity other_1d other_4h [] other_15m.
Proof.
  split; [vm_compute; discriminate|].
  apply (detect_reads_only sample_1d sample_4h sample_1h sample_15m
           other_1d other_4h [] other_15m
           (map F64.of_Z [100; 110; 105]) (map F64.of_Z [90; 95; 92])
           (map F64.of_Z [98; 102; 99; 101]) (F64.of_Z 97));
    vm_compute; reflexivity.
Defined.

(** ** The answer of the detector *)

Lemma detect_key_list ohlcv_1d ohlcv_4h ohlcv_1h ohlcv_15m r :
  detect_structure_and_liquidity ohlcv_1d ohlcv_4h ohlcv_1h ohlcv_15m = Ok r ->
  map fst r = ["1D"; "4H"; "1H"; "15m"].
Proof.
  intros H.
  destruct (detect_quantities _ _ _ _ _ H)
    as (p & sh & sl & med & tf1 & tf4 & tfh & tf15
        & _ & _ & _ & _ & -> & _).
  reflexivity.
Qed.

(** X3. Whenever the detector returns, its answer has the four keys "1D",
    "4H", "1H" and "15m", once each and in this order, and no other key. *)
Theorem detect_keys ohlcv_1d ohlcv_4h ohlcv_1h ohlcv_15m r :
  detect_structure_and_liquidity ohlcv_1d ohlcv_4h ohlcv_1h ohlcv_15m = Ok r ->
  map fst r = ["1D"; "4H"; "1H"; "15m"] /\
  forall k, dict_get r k <> None <-> In k ["1D"; "4H"; "1H"; "15m"].
Proof.
  intros H.
  destruct (detect_quantities _ _ _ _ _ H)
    as (p & sh & sl & med & tf1 & tf4 & tfh & tf15
        & _ & _ & _ & _ & -> & _).
  split; [reflexivity|].
  intros k. cbn [dict_get In].
  destruct (String.eqb_spec "1D" k) as [<-|N1]; [split; [auto|discriminate]|].
  destruct (String.eqb_spec "4H" k) as [<-|N4]; [split; [auto|discriminate]|].
  destruct (String.eqb_spec "1H" k) as [<-|Nh]; [split; [auto|discriminate]|].
  destruct (String.eqb_spec "15m" k) as [<-|N15];
    [split; [auto|discriminate]|].
  split; [congruence|]. intros [?|[?|[?|[?|[]]]]]; contradiction.
Qed.

Lemma detect_keys_witness :
  exists r,
    detect_structure_and_liquidity sample_1d sample_4h sample_1h sample_15m
    = Ok r /\
    map fst r = ["1D"; "4H"; "1H"; "15m"] /\
    forall k, dict_get r k <> None <-> In k ["1D"; "4H"; "1H"; "15m"].
Proof.
  destruct (detect_structure_and_liquidity
              sample_1d sample_4h sample_1h sample_15m) as [r|e] eqn:E;
    [|vm_compute in E; discriminate].
  exists r. split; [reflexivity|].
  apply (detect_keys sample_1d sample_4h sample_1h sample_15m r E).
Defined.

(** X4. Whenever the detector returns: the last 15-minute close is the
    current price of the "1D" and "15m" contexts, and the other two have
    none; bias, trend, swings and midline are on "1D" alone, which has no
    zone and no level; "4H" and "1H" have one order block and one fair
    value gap each, and no level; "15m" has no zone and the two levels "EQH"
    and "EQL", in this order, which are the top and the bottom of the "1H"
    order block; and the "4H" fair value gap ends at the top of the "4H"
    order block. *)
Theorem detect_answer_shape ohlcv_1d ohlcv_4h ohlcv_1h ohlcv_15m r :
  detect_structure_and_liquidity ohlcv_1d ohlcv_4h ohlcv_1h ohlcv_15m = Ok r ->
  exists tf_1d tf_4h tf_1h tf_15m p z4 g4 z1 g1 eqh eql,
    r = [("1D", tf_1d); ("4H", tf_4h); ("1H", tf_1h); ("15m", tf_15m)] /\
    latest_price_of ohlcv_15m = Ok p /\
    (current_price tf_1d = Some p /\ current_price tf_15m = Some p /\
     current_price tf_4h = None /\ current_price tf_1h = None) /\
    Forall (fun tf => bias tf = None /\ trend tf = None /\
                      swing_high tf = None /\ swing_low tf = None /\
                      midline_50 tf = None) [tf_4h; tf_1h; tf_15m] /\
    (ob_zones tf_1d = [] /\ fvg_zones tf_1d = [] /\
     micro_liquidity tf_1d = []) /\
    (ob_zones tf_4h = [z4] /\ fvg_zones tf_4h = [g4] /\
     micro_liquidity tf_4h = [] /\ fvg_to g4 = ob_to z4) /\
    (ob_zones tf_1h = [z1] /\ fvg_zones tf_1h = [g1] /\
     micro_liquidity tf_1h = []) /\
    (ob_zones tf_15m = [] /\ fvg_zones tf_15m = [] /\
     micro_liquidity tf_15m = [eqh; eql] /\
     liq_type eqh = "EQH" /\ liq_type eql = "EQL" /\
     liq_price eqh = ob_to z1 /\ liq_price eql = ob_from_ z1).
Proof.
  unfold detect_structure_and_liquidity, latest_price_of. intros H.
  bind_inv H. rename v into last, E into Elast.
  bind_inv H. rename v into p, E into Ep.
  bind_inv H. bind_inv H. bind_inv H. bind_inv H. ok_inv H.
  rewrite Elast. cbn [bind].
  do 4 eexists. exists p. do 6 eexists.
  split; [reflexivity|]. split; [exact Ep|].
  cbn. repeat split; repeat constructor; repeat split.
Qed.

Lemma detect_answer_shape_witness :
  exists r tf_1d tf_4h tf_1h tf_15m p z4 g4 z1 g1 eqh eql,
    detect_structure_and_liquidity sample_1d sample_4h sample_1h sample_15m
    = Ok r /\
    r = [("1D", tf_1d); ("4H", tf_4h); ("1H", tf_1h); ("15m", tf_15m)] /\
    latest_price_of sample_15m = Ok p /\
    (current_price tf_1d = Some p /\ current_price tf_15m = Some p /\
     current_price tf_4h = None /\ current_price tf_1h = None) /\
    Forall (fun tf => bias tf = None /\ trend tf = None /\
                      swing_high tf = None /\ swing_low tf = None /\
                      midline_50 tf = None) [tf_4h; tf_1h; tf_15m] /\
    (ob_zones tf_1d = [] /\ fvg_zones tf_1d = [] /\
     micro_liquidity tf_1d = []) /\
    (ob_zones tf_4h = [z4] /\ fvg_zones tf_4h = [g4] /\
     micro_liquidity tf_4h = [] /\ fvg_to g4 = ob_to z4) /\
    (ob_zones tf_1h = [z1] /\ fvg_zones tf_1h = [g1] /\
     micro_liquidity tf_1h = []) /\
    (ob_zones tf_15m = [] /\ fvg_zones tf_15m = [] /\
     micro_liquidity tf_15m = [eqh; eql] /\
     liq_type eqh = "EQH" /\ liq_type eql = "EQL" /\
     liq_price eqh = ob_to z1 /\ liq_price eql = ob_from_ z1).
Proof.
  destruct (detect_structure_and_liquidity
              sample_1d sample_4h sample_1h sample_15m) as [r|e] eqn:E;
    [|vm_compute in E; discriminate].
  exists r.
  destruct (detect_answer_shape sample_1d sample_4h sample_1h sample_15m r E)
    as (tf1 & tf4 & tfh & tf15 & p & z4 & g4 & z1 & g1 & eqh & eql & H).
  exists tf1, tf4, tfh, tf15, p, z4, g4, z1, g1, eqh, eql.
  split; [reflexivity|exact H].
Defined.

(** X5. On daily candles with low <= high, whenever the detector returns,
    swing_low <= swing_high, whatever the size of the prices. *)
Theorem swing_low_below_swing_high ohlcv_1d ohlcv_4h ohlcv_1h ohlcv_15m r :
  Forall well_formed_candle ohlcv_1d ->
  detect_structure_and_liquidity ohlcv_1d ohlcv_4h ohlcv_1h ohlcv_15m = Ok r ->
  exists tf sh sl,
    dict_get r "1D" = Some tf /\
    swing_high tf = Some sh /\ swing_low tf = Some sl /\
    F64.leb sl sh = true.
Proof.
  intros Hwf H.
  destruct (detect_quantities _ _ _ _ _ H)
    as (p & sh & sl & med & tf1 & tf4 & tfh & tf15
        & _ & Hsh & Hsl & _ & -> & (_ & _ & Fsh & Fsl & _) & _).
  destruct (well_formed_highs_lows _ Hwf) as (highs & lows & Ehs & Els & Hp).
  unfold swing_high_of, py_max in Hsh.
  rewrite (py_extremum_listcomp _ _ _ _ Ehs) in Hsh.
  unfold swing_low_of, py_min in Hsl.
  rewrite (py_extremum_listcomp _ _ _ _ Els) in Hsl.
  assert (Nh : Forall number highs).
  { clear -Hp. induction Hp as [|l h ls hs (_ & Hh & _) _ IH];
      constructor; assumption. }
  assert (Nl : Forall number lows).
  { clear -Hp. induction Hp as [|l h ls hs (Hl & _) _ IH];
      constructor; assumption. }
  destruct (py_max_greatest highs sh Nh Hsh) as (Ish & Gsh).
  destruct (py_min_least lows sl Nl Hsl) as (Isl & Lsl).
  exists tf1, sh, sl.
  split; [reflexivity|]. split; [exact Fsh|]. split; [exact Fsl|].
  assert (Nsh : number sh) by (rewrite Forall_forall in Nh; auto).
  assert (Nsl : number sl) by (rewrite Forall_forall in Nl; auto).
  destruct Hp as [|l h ls hs (Hl & Hh & Hlh) _]; [destruct Ish|].
  inversion Gsh as [|? ? Ghs _]; subst.
  inversion Lsl as [|? ? Lls _]; subst.
  rewrite leb_units in * by assumption.
  apply Z.leb_le. apply Z.leb_le in Hlh, Ghs, Lls. lia.
Qed.

Lemma huge_1d_well_formed : Forall well_formed_candle huge_1d.
Proof.
  repeat constructor; do 2 eexists; repeat split; vm_compute; reflexivity.
Qed.

(** The witness is the day of the largest float, on which the midline
    overflows. *)
Lemma swing_low_below_swing_high_witness :
  Forall well_formed_candle huge_1d /\
  exists r tf sh sl,
    detect_structure_and_liquidity huge_1d sample_4h sample_1h sample_15m
    = Ok r /\
    dict_get r "1D" = Some tf /\
    swing_high tf = Some sh /\ swing_low tf = Some sl /\
    F64.leb sl sh = true.
Proof.
  split; [exact huge_1d_well_formed|].
  destruct (detect_structure_and_liquidity
              huge_1d sample_4h sample_1h sample_15m) as [r|e] eqn:E;
    [|vm_compute in E; discriminate].
  exists r.
  destruct (swing_low_below_swing_high _ _ _ _ r huge_1d_well_formed E)
    as (tf & sh & sl & H).
  exists tf, sh, sl. split; [reflexivity|exact H].
Defined.

(** ** The median *)

(** The mean of two finite floats, in either order of the sum. *)
Lemma mean_between (lo hi : F64.float) :
  F64.valid lo = true -> F64.valid hi = true ->
  F64.leb lo hi = true ->
  F64.is_finite (F64.add lo hi) = true ->
  F64.leb lo (F64.div (F64.add lo hi) (F64.of_Z 2)) = true /\
  F64.leb (F64.div (F64.add lo hi) (F64.of_Z 2)) hi = true.
Proof.
  intros Vlo Vhi Hle Hfin.
  destruct (leb_true_not_nan _ _ Hle) as [Nlo Nhi].
  destruct (add_finite lo hi Vlo Vhi Hfin) as (Flo & Fhi & Vs & Hfaith).
  rewrite (leb_units lo hi) in Hle by (split; assumption).
  apply Z.leb_le in Hle.
  set (s := F64.add lo hi) in *.
  destruct (div_two s Vs Hfin) as (Vm & Fm & Hhalf).
  set (mid := F64.div s (F64.of_Z 2)) in *.
  assert (Hlow : 2 * units lo <= units s).
  { apply (faithful_lower _ (units lo + units hi)); try assumption; try lia.
    apply double_representable; assumption. }
  assert (Hup : units s <= 2 * units hi).
  { apply (faithful_upper _ (units lo + units hi)); try assumption; try lia.
    apply double_representable; assumption. }
  destruct (units_even lo Vlo Flo) as (cl & Hcl).
  destruct (units_even hi Vhi Fhi) as (ch & Hch).
  destruct (units_even mid Vm Fm) as (cm & Hcm).
  apply Z.abs_lt in Hhalf.
  assert (Nm : number mid).
  { split; [exact Vm|]. destruct mid; try discriminate; reflexivity. }
  rewrite (leb_units lo mid), (leb_units mid hi)
    by (assumption || (split; assumption)).
  split; apply Z.leb_le; lia.
Qed.

Lemma Sorted_adjacent {A : Type} (R : A -> A -> Prop) (l : list A) :
  Sorted R l ->
  forall i a b,
    nth_error l i = Some a -> nth_error l (S i) = Some b -> R a b.
Proof.
  induction 1 as [|x l Hs IH Hd]; intros i a b Ha Hb.
  - destruct i; discriminate.
  - destruct i as [|i].
    + cbn in Ha, Hb. injection Ha as <-.
      destruct l as [|y l]; [discriminate|]. cbn in Hb. injection Hb as <-.
      inversion Hd; assumption.
    + cbn in Ha. change (nth_error (x :: l) (S (S i)))
        with (nth_error l (S i)) in Hb.
      eapply IH; eassumption.
Qed.

(** The median of numbers is one of them, or the mean of two of them,
    which lies between the two when their sum is finite. *)
Lemma median_between (data : list F64.float) (m : F64.float) :
  Forall number data ->
  median data = Ok m ->
  In m data \/
  exists a b,
    In a data /\ In b data /\ F64.leb a b = true /\
    m = F64.div (F64.add a b) (F64.of_Z 2) /\
    (F64.is_finite (F64.add a b) = true ->
     F64.leb a m = true /\ F64.leb m b = true).
Proof.
  intros Hn H. unfold median in H.
  pose proof (sorted_Permutation data) as Hperm.
  pose proof (sorted_Sorted data Hn) as Hsorted.
  set (s := sorted data) in *.
  set (n := Z.of_nat (List.length s)) in *.
  destruct (Z.eqb_spec n 0) as [_|Hn0]; [discriminate|].
  assert (Hpos : 0 < n) by (unfold n in *; lia).
  destruct (Z.eqb_spec (n mod 2) 1) as [_|Heven].
  - left. eapply Permutation_in; [exact Hperm|].
    eapply py_index_In. exact H.
  - right. bind_inv H. rename v into a, E into Ea.
    bind_inv H. rename v into b, E into Eb. ok_inv H.
    pose proof (Z.mod_pos_bound n 2 ltac:(lia)) as Hmod.
    pose proof (Z.div_mod n 2 ltac:(lia)) as Hdm.
    assert (Hhalf : 1 <= n / 2) by lia.
    assert (Na : nth_error s (Z.to_nat (n / 2 - 1)) = Some a)
      by (apply py_index_nth_error; [lia|exact Ea]).
    assert (Nb : nth_error s (Z.to_nat (n / 2)) = Some b)
      by (apply py_index_nth_error; [lia|exact Eb]).
    replace (Z.to_nat (n / 2)) with (S (Z.to_nat (n / 2 - 1))) in Nb by lia.
    pose proof (Sorted_adjacent _ _ Hsorted _ _ _ Na Nb) as Hab.
    cbv beta in Hab.
    assert (Ia : In a data).
    { eapply Permutation_in; [exact Hperm|]. eapply py_index_In. exact Ea. }
    assert (Ib : In b data).
    { eapply Permutation_in; [exact Hperm|]. eapply py_index_In. exact Eb. }
    exists a, b. repeat (split; [assumption || reflexivity|]).
    rewrite Forall_forall in Hn.
    apply mean_between; try assumption; [apply (Hn a Ia)|apply (Hn b Ib)].
Qed.

(** X6. When the 4-hour closes are numbers, the median the detector
    compares the price with is one of the closes, or the mean of two of
    them; in the second case it lies between these two closes when their
    float sum is finite. *)
Theorem median_4h_between_closes (ohlcv_4h : list candle) closes med :
  closes_of ohlcv_4h = Ok closes ->
  Forall number closes ->
  median_4h_of ohlcv_4h = Ok med ->
  In med closes \/
  exists a b,
    In a closes /\ In b closes /\ F64.leb a b = true /\
    med = F64.div (F64.add a b) (F64.of_Z 2) /\
    (F64.is_finite (F64.add a b) = true ->
     F64.leb a med = true /\ F64.leb med b = true).
Proof.
  unfold closes_of, median_4h_of. intros Hc Hn Hm.
  rewrite Hc in Hm. cbn [bind] in Hm.
  apply median_between; assumption.
Qed.

Lemma median_4h_between_closes_witness :
  closes_of sample_4h = Ok (map F64.of_Z [98; 102; 99; 101]) /\
  Forall number (map F64.of_Z [98; 102; 99; 101]) /\
  median_4h_of sample_4h = Ok (F64.of_Z 100) /\
  (In (F64.of_Z 100) (map F64.of_Z [98; 102; 99; 101]) \/
   exists a b,
     In a (map F64.of_Z [98; 102; 99; 101]) /\
     In b (map F64.of_Z [98; 102; 99; 101]) /\
     F64.leb a b = true /\
     F64.of_Z 100 = F64.div (F64.add a b) (F64.of_Z 2) /\
     (F64.is_finite (F64.add a b) = true ->
      F64.leb a (F64.of_Z 100) = true /\ F64.leb (F64.of_Z 100) b = true)).
Proof.
  assert (Hc : closes_of sample_4h = Ok (map F64.of_Z [98; 102; 99; 101]))
    by (vm_compute; reflexivity).
  assert (Hm : median_4h_of sample_4h = Ok (F64.of_Z 100))
    by (vm_compute; reflexivity).
  split; [exact Hc|]. split; [exact sample_closes_numbers|].
  split; [exact Hm|].
  exact (median_4h_between_closes sample_4h _ _ Hc sample_closes_numbers Hm).
Defined.

(** * Further properties of the heatmap cluster fetcher *)

Section FetcherEdges.

Variable float_of_str : string -> result F64.float.
Variable http_get : string -> dict string -> result http_response.

Lemma kept_cluster_at_most_one (i : json) :
  (List.length (kept_cluster float_of_str i) <= 1)%nat /\
  Forall (fun c => side c = "long" \/ side c = "short")
         (kept_cluster float_of_str i).
Proof.
  unfold kept_cluster, entry_cluster.
  destruct (json_get i "side" JNull) as [s|e]; cbn [bind];
    [|split; [simpl; lia|constructor]].
  destruct (json_get i "price" (JInt 0)) as [p|e]; cbn [bind];
    [|split; [simpl; lia|constructor]].
  destruct (py_float float_of_str p) as [x|e]; cbn [bind];
    [|split; [simpl; lia|constructor]].
  destruct (json_get i "size" (JInt 0)) as [z|e]; cbn [bind];
    [|split; [simpl; lia|constructor]].
  destruct (py_float float_of_str z) as [y|e]; cbn [bind];
    [|split; [simpl; lia|constructor]].
  split; [simpl; lia|].
  constructor; [|constructor]. cbn [side].
  destruct (json_eq_str s "short"); auto.
Qed.

Lemma flat_map_kept_bounds (items : list json) :
  (List.length (flat_map (kept_cluster float_of_str) items)
   <= List.length items)%nat /\
  Forall (fun c => side c = "long" \/ side c = "short")
         (flat_map (kept_cluster float_of_str) items).
Proof.
  induction items as [|i items [IHl IHs]]; cbn [flat_map].
  - split; [simpl; lia|constructor].
  - destruct (kept_cluster_at_most_one i) as [Hl Hs].
    rewrite length_app. split; [simpl; lia|].
    apply Forall_app. split; assumption.
Qed.

Lemma json_slice3_length (data : json) (items : list json) :
  json_slice3 data = Ok items -> (List.length items <= 3)%nat.
Proof.
  destruct data; cbn [json_slice3]; try discriminate; intros H; ok_inv H.
  - rewrite length_map.
    destruct s as [|a [|b [|c s]]]; cbn; try lia.
    destruct s; cbn; lia.
  - destruct l as [|a [|b [|c l]]]; simpl; lia.
Qed.

(** The buckets of every answer of the fetcher. *)
Lemma fetch_buckets symbol cg :
  fetch_coinglass_clusters float_of_str http_get symbol = Ok cg ->
  (List.length (N3 (heatmap cg)) <= 3)%nat /\
  Forall (fun c => side c = "long" \/ side c = "short") (N3 (heatmap cg)) /\
  N1 (heatmap cg) = [] /\ N2 (heatmap cg) = [] /\
  liquidations cg = {| N1 := []; N2 := []; N3 := [] |}.
Proof.
  unfold fetch_coinglass_clusters. cbv zeta.
  set (data := try_except _ _).
  intros H. bind_inv H. ok_inv H. cbn [heatmap liquidations N1 N2 N3].
  repeat split.
  - destruct (truthy data); [|ok_inv E; simpl; lia].
    bind_inv E. ok_inv E.
    rewrite clusters_loop_flat_map. cbn [app].
    pose proof (json_slice3_length _ _ E0).
    pose proof (flat_map_kept_bounds v0) as [Hl _]. lia.
  - destruct (truthy data); [|ok_inv E; constructor].
    bind_inv E. ok_inv E.
    rewrite clusters_loop_flat_map. cbn [app].
    apply flat_map_kept_bounds.
Qed.

Lemma kept_cluster_string (s : string) :
  kept_cluster float_of_str (JStr s) = [].
Proof. reflexivity. Qed.

(** The answer of the fetcher on a body without entries. *)
Lemma fetch_no_entries symbol body :
  heatmap_body (http_get (heatmap_url symbol) coinglass_headers) body ->
  no_entries body ->
  fetch_coinglass_clusters float_of_str http_get symbol
  = Ok {| heatmap := {| N1 := []; N2 := []; N3 := [] |};
          liquidations := {| N1 := []; N2 := []; N3 := [] |} |}.
Proof.
  intros (r & Hr & Hs & Hb) Hn.
  unfold fetch_coinglass_clusters. cbv zeta.
  rewrite Hr. cbn [bind]. rewrite Hs. cbn [Z.eqb Pos.eqb]. rewrite Hb.
  cbn [bind].
  destruct Hn as [b Hobj|d Hd|d v Hd Hv|d s Hd].
  - destruct b; try reflexivity. exfalso. eapply Hobj. reflexivity.
  - cbn [json_get try_except]. rewrite Hd. reflexivity.
  - cbn [json_get try_except]. rewrite Hd, Hv. reflexivity.
  - cbn [json_get try_except]. rewrite Hd.
    destruct (truthy (JStr s)); [|reflexivity].
    cbn [json_slice3 bind]. rewrite clusters_loop_flat_map. cbn [app].
    replace (flat_map (kept_cluster float_of_str) _) with (@nil CoinglassCluster);
      [reflexivity|].
    induction (list_ascii_of_string (substring 0 3 s)) as [|c l IH];
      [reflexivity|].
    cbn [map flat_map]. rewrite <- IH. reflexivity.
Qed.

(** X7. Whenever the fetcher returns, whatever the service answered: its
    heatmap.N3 has at most three clusters, each with the side "long" or
    "short", and the five other buckets are empty. *)
Theorem fetch_at_most_three symbol cg :
  fetch_coinglass_clusters float_of_str http_get symbol = Ok cg ->
  (List.length (N3 (heatmap cg)) <= 3)%nat /\
  Forall (fun c => side c = "long" \/ side c = "short") (N3 (heatmap cg)) /\
  N1 (heatmap cg) = [] /\ N2 (heatmap cg) = [] /\
  liquidations cg = {| N1 := []; N2 := []; N3 := [] |}.
Proof.
  exact (fetch_buckets symbol cg).
Qed.

(** X8. A 200 answer whose body is no object, has no "data", or has a
    "data" that is falsy (null, false, 0, an empty string, list or object)
    or a string, makes the fetcher return with every bucket empty: the
    characters of a string are walked, and none of them is an entry. *)
Theorem fetch_without_entries symbol body :
  heatmap_body (http_get (heatmap_url symbol) coinglass_headers) body ->
  no_entries body ->
  fetch_coinglass_clusters float_of_str http_get symbol
  = Ok {| heatmap := {| N1 := []; N2 := []; N3 := [] |};
          liquidations := {| N1 := []; N2 := []; N3 := [] |} |}.
Proof.
  exact (fetch_no_entries symbol body).
Qed.

(** X9. A 200 answer whose "data" is truthy and neither a list nor a
    string (an object, a number, true) makes the fetcher raise: the slice
    [data[:3]] is taken outside of every [try].  The request with the
    heatmap then raises too, on every exchange. *)
Theorem fetch_raises_on_unsliceable symbol d v :
  heatmap_body (http_get (heatmap_url symbol) coinglass_headers) (JObj d) ->
  dict_get d "data" = Some v ->
  truthy v = true -> unsliceable v = true ->
  (exists e,
      fetch_coinglass_clusters float_of_str http_get symbol = Raise e) /\
  forall fetch_ohlcv utc_hour timeframe lookback_bars,
  exists e,
    get_market_context float_of_str http_get fetch_ohlcv utc_hour
      symbol timeframe lookback_bars true = Raise e.
Proof.
  intros (r & Hr & Hs & Hb) Hd Hv Hu.
  assert (Hf : fetch_coinglass_clusters float_of_str http_get symbol
               = Raise TypeError).
  { unfold fetch_coinglass_clusters. cbv zeta.
    rewrite Hr. cbn [bind]. rewrite Hs. cbn [Z.eqb Pos.eqb]. rewrite Hb.
    cbn [bind json_get try_except]. rewrite Hd, Hv.
    destruct v; try discriminate; reflexivity. }
  split; [eexists; exact Hf|].
  intros fetch_ohlcv utc_hour timeframe lookback_bars.
  unfold get_market_context. rewrite Hf.
  destruct (fetch_ohlcv symbol "1d" lookback_bars); cbn [bind]; eauto.
  destruct (fetch_ohlcv symbol "4h" lookback_bars); cbn [bind]; eauto.
  destruct (fetch_ohlcv symbol "1h" lookback_bars); cbn [bind]; eauto.
  destruct (fetch_ohlcv symbol "15m" lookback_bars); cbn [bind]; eauto.
  destruct (detect_structure_and_liquidity _ _ _ _); cbn [bind]; eauto.
Qed.

End FetcherEdges.

Lemma fetch_at_most_three_witness :
  exists cg,
    fetch_coinglass_clusters no_float_of_str (answer_entries five_entries)
      "BTC/USDT" = Ok cg /\
    (List.length (N3 (heatmap cg)) <= 3)%nat /\
    Forall (fun c => side c = "long" \/ side c = "short") (N3 (heatmap cg)) /\
    N1 (heatmap cg) = [] /\ N2 (heatmap cg) = [] /\
    liquidations cg = {| N1 := []; N2 := []; N3 := [] |}.
Proof.
  destruct (fetch_coinglass_clusters no_float_of_str
              (answer_entries five_entries) "BTC/USDT") as [cg|e] eqn:E;
    [|vm_compute in E; discriminate].
  exists cg. split; [reflexivity|].
  apply (fetch_at_most_three no_float_of_str (answer_entries five_entries)
           "BTC/USDT" cg E).
Defined.

Lemma fetch_without_entries_witness :
  heatmap_body (answer_body error_body (heatmap_url "BTC/USDT")
                  coinglass_headers) error_body /\
  no_entries error_body /\
  fetch_coinglass_clusters no_float_of_str (answer_body error_body) "BTC/USDT"
  = Ok {| heatmap := {| N1 := []; N2 := []; N3 := [] |};
          liquidations := {| N1 := []; N2 := []; N3 := [] |} |}.
Proof.
  assert (Hb : heatmap_body (answer_body error_body (heatmap_url "BTC/USDT")
                               coinglass_headers) error_body)
    by (eexists; repeat split).
  assert (Hn : no_entries error_body)
    by (apply body_without_data; reflexivity).
  split; [exact Hb|]. split; [exact Hn|].
  apply (fetch_without_entries no_float_of_str (answer_body error_body)
           "BTC/USDT" error_body Hb Hn).
Defined.

Lemma fetch_raises_on_unsliceable_witness :
  (exists e,
      fetch_coinglass_clusters no_float_of_str (answer_body object_data_body)
        "BTC/USDT" = Raise e) /\
  forall fetch_ohlcv utc_hour timeframe lookback_bars,
  exists e,
    get_market_context no_float_of_str (answer_body object_data_body)
      fetch_ohlcv utc_hour "BTC/USDT" timeframe lookback_bars true = Raise e.
Proof.
  eapply (fetch_raises_on_unsliceable no_float_of_str
            (answer_body object_data_body) "BTC/USDT").
  - eexists. repeat split.
  - reflexivity.
  - reflexivity.
  - reflexivity.
Defined.

(** ** The symbol sent to the service *)

Lemma upper_char_ascii (c : ascii) :
  is_ascii c = true ->
  is_ascii (upper_char c) = true /\
  is_lower (upper_char c) = false /\
  (Ascii.eqb (upper_char c) "/" = Ascii.eqb c "/") /\
  upper_char (upper_char c) = upper_char c.
Proof.
  unfold is_ascii. intros H. apply Nat.ltb_lt in H.
  rewrite <- (ascii_nat_embedding c).
  remember (nat_of_ascii c) as n eqn:En. clear En c.
  do 128 (destruct n as [|n]; [vm_compute; repeat split|]).
  lia.
Qed.

Lemma symbol_cg_normal (s : string) :
  string_forallb is_ascii s = true ->
  string_forallb
    (fun c => is_ascii c && negb (is_lower c) && negb (Ascii.eqb c "/"))
    (upper (replace_slash s)) = true /\
  upper (replace_slash (upper (replace_slash s))) = upper (replace_slash s).
Proof.
  induction s as [|c s IH]; cbn [string_forallb replace_slash upper].
  - intros _. split; reflexivity.
  - intros H. apply andb_prop in H. destruct H as [Hc Hs].
    destruct (IH Hs) as [IH1 IH2].
    destruct (upper_char_ascii c Hc) as (Ha & Hl & Hsl & Hid).
    destruct (Ascii.eqb c "/") eqn:Ec.
    + split; assumption.
    + cbn [string_forallb replace_slash upper].
      rewrite ?Hsl, ?Ha, ?Hl, ?IH1. cbn [negb andb replace_slash upper].
      rewrite ?Hsl. cbn [upper]. rewrite Hid, IH2. split; reflexivity.
Qed.

(** X10. For a symbol of ASCII characters, the symbol in the URL has no
    slash and no lower-case letter, and a symbol already in this form is
    sent as it is: "btc/usdt", "BTC/USDT" and "BTCUSDT" ask for the same
    URL. *)
Theorem heatmap_url_normal (symbol : string) :
  string_forallb is_ascii symbol = true ->
  exists symbol_cg,
    heatmap_url symbol
    = "https://open-api.coinglass.com/api/pro/v1/futures/liquidation_heatmap?symbol="
      ++ symbol_cg /\
    string_forallb
      (fun c => is_ascii c && negb (is_lower c) && negb (Ascii.eqb c "/"))
      symbol_cg = true /\
    heatmap_url symbol_cg = heatmap_url symbol.
Proof.
  intros H. destruct (symbol_cg_normal symbol H) as [Hn Hid].
  exists (upper (replace_slash symbol)).
  split; [reflexivity|]. split; [exact Hn|].
  unfold heatmap_url. rewrite Hid. reflexivity.
Qed.

Lemma heatmap_url_normal_witness :
  string_forallb is_ascii "btc/usdt" = true /\
  exists symbol_cg,
    heatmap_url "btc/usdt"
    = "https://open-api.coinglass.com/api/pro/v1/futures/liquidation_heatmap?symbol="
      ++ symbol_cg /\
    string_forallb
      (fun c => is_ascii c && negb (is_lower c) && negb (Ascii.eqb c "/"))
      symbol_cg = true /\
    heatmap_url symbol_cg = heatmap_url "btc/usdt".
Proof.
  split; [reflexivity|].
  apply (heatmap_url_normal "btc/usdt"). reflexivity.
Defined.

(** * Properties of the request handler *)

Section Handler.

Variable float_of_str : string -> result F64.float.
Variable http_get : string -> dict string -> result http_response.
Variable fetch_ohlcv : string -> string -> Z -> result (list candle).
Variable utc_hour : Z.

(** X11. The four series are asked for in the order 1d, 4h, 1h, 15m, and
    the first request to the exchange that raises decides: the handler
    raises the same exception, with or without the heatmap.  A failure on
    the hourly series, which the detector never reads, fails the request
    as well. *)
Theorem request_raises_exchange_failure
        symbol timeframe lookback_bars include_coinglass before tf after e :
  fetched_timeframes = (before ++ tf :: after)%list ->
  (forall t, In t before ->
             exists o, fetch_ohlcv symbol t lookback_bars = Ok o) ->
  fetch_ohlcv symbol tf lookback_bars = Raise e ->
  get_market_context float_of_str http_get fetch_ohlcv utc_hour
    symbol timeframe lookback_bars include_coinglass = Raise e.
Proof.
  unfold fetched_timeframes, get_market_context.
  intros Hsplit Hbefore Hraise.
  destruct before as [|t1 [|t2 [|t3 [|t4 before]]]];
    cbn [app] in Hsplit; injection Hsplit as; subst.
  - rewrite Hraise. reflexivity.
  - destruct (Hbefore "1d") as (o1 & ->); [cbn; auto|].
    cbn [bind]. rewrite Hraise. reflexivity.
  - destruct (Hbefore "1d") as (o1 & ->); [cbn; auto|].
    destruct (Hbefore "4h") as (o4 & ->); [cbn; auto|].
    cbn [bind]. rewrite Hraise. reflexivity.
  - destruct (Hbefore "1d") as (o1 & ->); [cbn; auto|].
    destruct (Hbefore "4h") as (o4 & ->); [cbn; auto|].
    destruct (Hbefore "1h") as (oh & ->); [cbn; auto|].
    cbn [bind]. rewrite Hraise. reflexivity.
  - destruct before; discriminate.
Qed.

(** X12. When the exchange answers the four requests, the exception of
    the detector on its series is the exception of the handler, with or
    without the heatmap and whatever the heatmap service answers: an
    exchange that has no candle of the symbol makes the request raise
    IndexError. *)
Theorem request_raises_detector_failure
        symbol timeframe lookback_bars include_coinglass o1 o4 oh o15 e :
  fetch_ohlcv symbol "1d" lookback_bars = Ok o1 ->
  fetch_ohlcv symbol "4h" lookback_bars = Ok o4 ->
  fetch_ohlcv symbol "1h" lookback_bars = Ok oh ->
  fetch_ohlcv symbol "15m" lookback_bars = Ok o15 ->
  detect_exception o1 o4 o15 = Some e ->
  get_market_context float_of_str http_get fetch_ohlcv utc_hour
    symbol timeframe lookback_bars include_coinglass = Raise e.
Proof.
  intros H1 H4 Hh H15 He. unfold get_market_context.
  rewrite H1, H4, Hh, H15. cbn [bind].
  pose proof (detect_first_failure o1 o4 oh o15) as Hd.
  rewrite He in Hd. rewrite Hd. reflexivity.
Qed.

(** X13. Whenever the handler returns: its answer carries the symbol as
    it was given, one of the three sessions, the four timeframes "1D",
    "4H", "1H" and "15m" in this order, and a coinglass part exactly when
    the heatmap was asked for, with at most three clusters in heatmap.N3
    and nothing in the liquidations. *)
Theorem request_answer
        sym timeframe lookback_bars include_coinglass m :
  get_market_context float_of_str http_get fetch_ohlcv utc_hour
    sym timeframe lookback_bars include_coinglass = Ok m ->
  symbol m = sym /\
  (session m = "NY" \/ session m = "LDN" \/ session m = "ASIA") /\
  map fst (timeframes m) = ["1D"; "4H"; "1H"; "15m"] /\
  (coinglass m = None <-> include_coinglass = false) /\
  forall cg,
    coinglass m = Some cg ->
    (List.length (N3 (heatmap cg)) <= 3)%nat /\
    liquidations cg = {| N1 := []; N2 := []; N3 := [] |}.
Proof.
  unfold get_market_context. intros H.
  bind_inv H. bind_inv H. bind_inv H. bind_inv H.
  bind_inv H. rename v3 into ctx, E3 into Ectx.
  bind_inv H. rename v3 into cg, E3 into Ecg. ok_inv H.
  cbn [symbol session timeframes coinglass].
  split; [reflexivity|]. split.
  { unfold detect_session.
    destruct (_ && _); [auto|]. destruct (_ && _); auto. }
  split; [apply (detect_key_list _ _ _ _ _ Ectx)|].
  destruct include_coinglass.
  - bind_inv Ecg. ok_inv Ecg. split; [split; discriminate|].
    intros cg H. injection H as <-.
    destruct (fetch_buckets _ _ _ _ E3) as (Hl & _ & _ & _ & Hq).
    split; assumption.
  - ok_inv Ecg. split; [split; reflexivity|]. discriminate.
Qed.

(** X14. The handler returns when the exchange gives series that are not
    empty and whose rows are whole and either the heatmap is not asked for,
    or the heatmap call fails, or it answers 200 with a list of entries or
    with a body without entries. *)
Theorem request_returns
        symbol timeframe lookback_bars include_coinglass o1 o4 oh o15 :
  fetch_ohlcv symbol "1d" lookback_bars = Ok o1 ->
  fetch_ohlcv symbol "4h" lookback_bars = Ok o4 ->
  fetch_ohlcv symbol "1h" lookback_bars = Ok oh ->
  fetch_ohlcv symbol "15m" lookback_bars = Ok o15 ->
  well_shaped o1 -> well_shaped o4 -> well_shaped o15 ->
  include_coinglass = false
  \/ heatmap_readable (http_get (heatmap_url symbol) coinglass_headers) ->
  exists m,
    get_market_context float_of_str http_get fetch_ohlcv utc_hour
      symbol timeframe lookback_bars include_coinglass = Ok m.
Proof.
  intros H1 H4 Hh H15 S1 S4 S15 Hcg. unfold get_market_context.
  rewrite H1, H4, Hh, H15. cbn [bind].
  destruct (detect_returns o1 o4 oh o15 S1 S4 S15) as (ctx & ->).
  cbn [bind].
  destruct Hcg as [->|Hread]; [cbn [bind]; eauto|].
  destruct include_coinglass; [|cbn [bind]; eauto].
  destruct Hread as [Hf|entries Ha|body Hb Hn].
  - rewrite (fetch_on_failure _ _ _ Hf). cbn [bind]. eauto.
  - rewrite (fetch_on_answer _ _ _ _ Ha). cbn [bind]. eauto.
  - rewrite (fetch_no_entries _ _ _ _ Hb Hn). cbn [bind]. eauto.
Qed.

End Handler.

Lemma request_raises_exchange_failure_witness :
  fetched_timeframes = (["1d"; "4h"] ++ "1h" :: ["15m"])%list /\
  (forall t, In t ["1d"; "4h"] ->
             exists o, exchange_without_1h "BTC/USDT" t 300 = Ok o) /\
  exchange_without_1h "BTC/USDT" "1h" 300 = Raise HTTPError /\
  get_market_context no_float_of_str (answer_entries five_entries)
    exchange_without_1h 13 "BTC/USDT" "1h" 300 true = Raise HTTPError.
Proof.
  assert (Hb : forall t, In t ["1d"; "4h"] ->
                         exists o, exchange_without_1h "BTC/USDT" t 300 = Ok o).
  { intros t [<-|[<-|[]]]; eexists; reflexivity. }
  split; [reflexivity|]. split; [exact Hb|]. split; [reflexivity|].
  apply (request_raises_exchange_failure no_float_of_str
           (answer_entries five_entries) exchange_without_1h 13
           "BTC/USDT" "1h" 300 true ["1d"; "4h"] "1h" ["15m"] HTTPError
           eq_refl Hb eq_refl).
Defined.

Lemma request_raises_detector_failure_witness :
  detect_exception [] [] [] = Some IndexError /\
  get_market_context no_float_of_str (answer_entries five_entries)
    empty_exchange 13 "XYZ/USDT" "1h" 300 true = Raise IndexError.
Proof.
  split; [reflexivity|].
  apply (request_raises_detector_failure no_float_of_str
           (answer_entries five_entries) empty_exchange 13
           "XYZ/USDT" "1h" 300 true [] [] [] [] IndexError);
    reflexivity.
Defined.

Lemma request_answer_witness :
  exists m,
    get_market_context no_float_of_str (answer_entries five_entries)
      sample_exchange 13 "BTC/USDT" "1h" 300 true = Ok m /\
    symbol m = "BTC/USDT" /\
    (session m = "NY" \/ session m = "LDN" \/ session m = "ASIA") /\
    map fst (timeframes m) = ["1D"; "4H"; "1H"; "15m"] /\
    (coinglass m = None <-> true = false) /\
    forall cg,
      coinglass m = Some cg ->
      (List.length (N3 (heatmap cg)) <= 3)%nat /\
      liquidations cg = {| N1 := []; N2 := []; N3 := [] |}.
Proof.
  destruct (get_market_context no_float_of_str (answer_entries five_entries)
              sample_exchange 13 "BTC/USDT" "1h" 300 true) as [m|e] eqn:E;
    [|vm_compute in E; discriminate].
  exists m. split; [reflexivity|].
  apply (request_answer no_float_of_str (answer_entries five_entries)
           sample_exchange 13 "BTC/USDT" "1h" 300 true m E).
Defined.

Lemma request_returns_witness :
  exists m,
    get_market_context no_float_of_str (answer_body error_body)
      sample_exchange 13 "BTC/USDT" "1h" 300 true = Ok m.
Proof.
  apply (request_returns no_float_of_str (answer_body error_body)
           sample_exchange 13 "BTC/USDT" "1h" 300 true
           sample_1d sample_4h sample_1h sample_15m);
    try reflexivity.
  - exact sample_1d_shaped.
  - exact sample_4h_shaped.
  - exact sample_15m_shaped.
  - right. eapply readable_nothing.
    + eexists. repeat split.
    + apply body_without_data. reflexivity.
Defined.

(** * Rounding to nearest *)

(** ** The bits shifted out *)

Lemma shr_1_reads (X k : Z) (mrs : shr_record) :
  0 <= X -> shr_reads X k mrs -> shr_reads X (k + 1) (shr_1 mrs).
Proof.
  intros HX (Hk & Hm & Hr & Hs).
  pose proof (pow2_pos k Hk) as Hp.
  assert (Hpow : 2 ^ (k + 1) = 2 * 2 ^ k)
    by (rewrite Z.add_1_r, Z.pow_succ_r by lia; reflexivity).
  pose proof (Z.div_mod X (2 ^ k) ltac:(lia)) as Hdm.
  pose proof (Z.mod_pos_bound X (2 ^ k) Hp) as Hrem.
  set (rem := X mod 2 ^ k) in *.
  set (q := X / 2 ^ k) in *.
  assert (Hq0 : 0 <= q) by (apply Z.div_pos; lia).
  pose proof (Z.div_mod q 2 ltac:(lia)) as Hq.
  pose proof (Z.mod_pos_bound q 2 ltac:(lia)) as Hq2.
  assert (Hdiv : X / 2 ^ (k + 1) = q / 2).
  { rewrite Hpow. symmetry.
    apply Z.div_unique with (r := (q mod 2) * 2 ^ k + rem); nia. }
  assert (Hmod : X mod 2 ^ (k + 1) = (q mod 2) * 2 ^ k + rem).
  { rewrite Hpow. symmetry.
    apply Z.mod_unique with (q := q / 2); nia. }
  destruct (shr_1_spec mrs ltac:(lia)) as [H1 _].
  split; [lia|]. split; [rewrite H1, Hm, Hdiv; reflexivity|].
  rewrite Hmod, Hpow.
  assert (Hodd : shr_r (shr_1 mrs) = true <-> q mod 2 = 1).
  { destruct mrs as [m r s]. cbn [shr_m] in Hm. subst m.
    destruct q as [|[p|p|]|p]; cbn [shr_1 shr_r]; try lia;
      rewrite ?Zmod_even; cbn; split; congruence. }
  assert (Hst : shr_s (shr_1 mrs) = orb (shr_r mrs) (shr_s mrs)).
  { destruct mrs as [m r s]. cbn [shr_m] in Hm.
    destruct m as [|[p|p|]|p]; try reflexivity; lia. }
  split.
  - rewrite Hodd. split; intros H; nia.
  - rewrite Hst. intros Hf. apply orb_false_elim in Hf.
    destruct Hf as [Hr0 Hs0].
    assert (Hlt : 2 * rem < 2 ^ k).
    { destruct (Z.le_gt_cases (2 ^ k) (2 * rem)) as [H|H]; [|exact H].
      apply Hr in H. congruence. }
    specialize (Hs Hs0). rewrite Z.mod_small in Hs by lia.
    assert (rem = 0) by lia.
    replace (2 * (q mod 2 * 2 ^ k + rem)) with (q mod 2 * (2 * 2 ^ k)) by lia.
    apply Z.mod_mul. lia.
Qed.

Lemma iter_pos_reads (X : Z) (p : positive) :
  0 <= X ->
  forall k mrs,
    shr_reads X k mrs -> shr_reads X (k + Z.pos p) (iter_pos shr_1 p mrs).
Proof.
  intros HX. induction p as [p IH|p IH|]; intros k mrs H; cbn [iter_pos].
  - replace (k + Z.pos p~1) with (k + 1 + Z.pos p + Z.pos p) by lia.
    apply IH, IH, shr_1_reads; assumption.
  - replace (k + Z.pos p~0) with (k + Z.pos p + Z.pos p) by lia.
    apply IH, IH; assumption.
  - apply shr_1_reads; assumption.
Qed.

Lemma shr_reads_start (X : Z) :
  shr_reads X 0 {| shr_m := X; shr_r := false; shr_s := false |}.
Proof.
  unfold shr_reads. cbn [shr_m shr_r shr_s]. change (2 ^ 0) with 1.
  rewrite Z.div_1_r, !Z.mod_1_r. cbn.
  split; [lia|]. split; [reflexivity|]. split; [|reflexivity].
  split; [discriminate|lia].
Qed.

(** Rounding the record of a number to nearest, ties to even, gives a
    multiple of the step at most half a step away. *)
Lemma round_nearest_even_reads (X k : Z) (mrs : shr_record) :
  0 <= X -> shr_reads X k mrs ->
  let m := round_nearest_even (shr_m mrs) (loc_of_shr_record mrs) in
  (m = X / 2 ^ k \/ m = X / 2 ^ k + 1) /\
  2 * Z.abs (m * 2 ^ k - X) <= 2 ^ k.
Proof.
  intros HX (Hk & Hm & Hr & Hs).
  pose proof (pow2_pos k Hk) as Hp.
  pose proof (Z.div_mod X (2 ^ k) ltac:(lia)) as Hdm.
  pose proof (Z.mod_pos_bound X (2 ^ k) Hp) as Hrem.
  set (rem := X mod 2 ^ k) in *.
  set (q := X / 2 ^ k) in *.
  destruct mrs as [m0 r s]. cbn [shr_m shr_r shr_s] in *. subst m0.
  assert (Hdown : 2 * rem <= 2 ^ k -> 2 * Z.abs (q * 2 ^ k - X) <= 2 ^ k).
  { intros H. rewrite Z.abs_neq by nia. nia. }
  assert (Hup : 2 ^ k <= 2 * rem ->
                2 * Z.abs ((q + 1) * 2 ^ k - X) <= 2 ^ k).
  { intros H. rewrite Z.abs_eq by nia. nia. }
  assert (Hr' : r = false -> 2 * rem < 2 ^ k).
  { intros ->. destruct (Z.le_gt_cases (2 ^ k) (2 * rem)) as [H|H];
      [apply Hr in H; discriminate|exact H]. }
  destruct r, s; cbn [loc_of_shr_record round_nearest_even].
  - split; [right; reflexivity|]. apply Hup. apply Hr. reflexivity.
  - assert (Htie : 2 * rem = 2 ^ k).
    { specialize (Hs eq_refl).
      assert (Hge : 2 ^ k <= 2 * rem) by (apply Hr; reflexivity).
      pose proof (Z.div_mod (2 * rem) (2 ^ k) ltac:(lia)) as Hd.
      rewrite Hs in Hd.
      assert (2 * rem / 2 ^ k = 1); [|lia].
      assert (0 < 2 * rem / 2 ^ k) by (apply Z.div_str_pos; lia).
      assert (2 * rem / 2 ^ k < 2) by (apply Z.div_lt_upper_bound; lia).
      lia. }
    destruct (Z.even q).
    + split; [left; reflexivity|]. apply Hdown. lia.
    + split; [right; reflexivity|]. apply Hup. lia.
  - split; [left; reflexivity|]. apply Hdown. specialize (Hr' eq_refl). lia.
  - split; [left; reflexivity|]. apply Hdown. specialize (Hr' eq_refl). lia.
Qed.

(** ** The grid of the products *)

Lemma cexp_fine_ge (N : Z) : 1076 <= cexp_fine N.
Proof. unfold cexp_fine. lia. Qed.

Lemma cexp_fine_pos (N : Z) : 0 < 2 ^ cexp_fine N.
Proof. apply pow2_pos. pose proof (cexp_fine_ge N). lia. Qed.

Lemma cexp_fine_mono (N1 N2 : Z) :
  0 <= N1 <= N2 -> cexp_fine N1 <= cexp_fine N2.
Proof.
  intros H. unfold cexp_fine. rewrite !Z.abs_eq by lia.
  pose proof (Z.log2_le_mono N1 N2 ltac:(lia)). lia.
Qed.

Lemma cexp_fine_scaled (m : positive) (e : Z) :
  0 <= e ->
  cexp_fine (Z.pos m * 2 ^ e) = Z.max (Z.pos (digits2_pos m) + e - 53) 1076.
Proof.
  intros He. unfold cexp_fine.
  pose proof (pow2_pos e He) as Hp.
  rewrite Z.abs_eq by nia.
  rewrite Z.log2_mul_pow2 by lia.
  rewrite digits2_pos_log2. f_equal. lia.
Qed.

Lemma nearest_zero (W : Z) : nearest 0 W -> W = 0.
Proof.
  intros [[c Hc] Ha]. change (cexp_fine 0) with 1076 in *.
  rewrite Z.sub_0_r in Ha.
  pose proof (pow2_pos 1076 ltac:(lia)) as HP.
  set (P := 2 ^ 1076) in *. subst W.
  destruct (Z.eq_dec c 0) as [->|Hne]; [reflexivity|].
  rewrite Z.abs_mul, (Z.abs_eq P) in Ha by lia.
  assert (1 <= Z.abs c) by lia. nia.
Qed.

Lemma nearest_on_grid (N : Z) : (2 ^ cexp_fine N | N) -> nearest N N.
Proof.
  intros Hd. split; [exact Hd|].
  rewrite Z.sub_diag. pose proof (cexp_fine_pos N). simpl. lia.
Qed.

Lemma fine_divides (b N : Z) :
  0 < N -> 0 < b -> representable_fine b ->
  (2 ^ cexp_fine N | b) \/
  (b < 2 ^ 52 * 2 ^ cexp_fine N /\ 2 ^ 52 * 2 ^ cexp_fine N <= N).
Proof.
  intros HN Hb (m & j & -> & Hm & Hj).
  pose proof (cexp_fine_ge N) as Hk.
  destruct (Z.le_gt_cases (cexp_fine N) j) as [Hle|Hgt].
  - left. exists (m * 2 ^ (j - cexp_fine N)).
    rewrite <- Z.mul_assoc, <- pow2_split by lia.
    f_equal. f_equal. lia.
  - right.
    assert (Hc : cexp_fine N = Z.log2 N + 1 - 53).
    { unfold cexp_fine in *. rewrite Z.abs_eq in * by lia. lia. }
    pose proof (Z.log2_spec N HN) as [Hlog _].
    pose proof (pow2_pos j ltac:(lia)) as Hpj.
    assert (Hm0 : 0 < m) by nia.
    rewrite Z.abs_eq in Hm by lia.
    rewrite <- pow2_split by lia.
    replace (52 + cexp_fine N) with (Z.log2 N) by lia.
    split; [|exact Hlog].
    apply Z.lt_le_trans with (2 ^ 53 * 2 ^ j).
    + apply Zmult_lt_compat_r; lia.
    + rewrite <- pow2_split by lia. apply Z.pow_le_mono_r; lia.
Qed.

(** A value rounded to nearest stays between representable bounds. *)
Lemma nearest_upper (N W b : Z) :
  0 < N -> N <= b -> representable_fine b -> nearest N W -> W <= b.
Proof.
  intros HN Hb Hrep [[cv Hcv] Habs].
  pose proof (cexp_fine_pos N) as HP.
  assert (Habs' : Z.abs (W - N) < 2 ^ cexp_fine N) by lia.
  apply Z.abs_lt in Habs'.
  destruct (fine_divides b N HN ltac:(lia) Hrep) as [[cb Hcb]|[H H']].
  - set (P := 2 ^ cexp_fine N) in *. subst W b. apply grid_le; lia.
  - lia.
Qed.

Lemma nearest_lower (N W a : Z) :
  0 < a -> a <= N -> representable_fine a -> nearest N W -> a <= W.
Proof.
  intros Ha HN Hrep [[cv Hcv] Habs].
  pose proof (cexp_fine_pos N) as HP.
  assert (Habs' : Z.abs (W - N) < 2 ^ cexp_fine N) by lia.
  apply Z.abs_lt in Habs'.
  destruct (fine_divides a N ltac:(lia) Ha Hrep) as [[ca Hca]|[H1 H2]].
  - set (P := 2 ^ cexp_fine N) in *. subst W a. apply grid_le; lia.
  - set (P := 2 ^ cexp_fine N) in *.
    assert (2 ^ 52 * P <= cv * P); [|lia].
    subst W. apply grid_le; lia.
Qed.

Lemma nearest_nonneg (N W : Z) : 0 <= N -> nearest N W -> 0 <= W.
Proof.
  intros HN [[cv Hcv] Habs].
  pose proof (cexp_fine_pos N) as HP.
  assert (Habs' : Z.abs (W - N) < 2 ^ cexp_fine N) by lia.
  apply Z.abs_lt in Habs'. set (P := 2 ^ cexp_fine N) in *.
  assert (0 * P <= cv * P); [|lia].
  apply grid_le; lia.
Qed.

(** Rounding to nearest keeps the order of two values. *)
Lemma nearest_monotone (N1 N2 W1 W2 : Z) :
  0 < N1 -> N1 < N2 -> nearest N1 W1 -> nearest N2 W2 -> W1 <= W2.
Proof.
  intros H1 H12 Hn1 Hn2.
  pose proof (cexp_fine_mono N1 N2 ltac:(lia)) as Hc.
  destruct (Z.eq_dec (cexp_fine N1) (cexp_fine N2)) as [Heq|Hne].
  - destruct Hn1 as [[c1 Hc1] Ha1], Hn2 as [[c2 Hc2] Ha2].
    rewrite Heq in *. pose proof (cexp_fine_pos N2) as HP.
    set (P := 2 ^ cexp_fine N2) in *. subst W1 W2.
    apply grid_le; lia.
  - assert (Hlog : Z.log2 N1 < Z.log2 N2).
    { unfold cexp_fine in *. rewrite !Z.abs_eq in * by lia. lia. }
    assert (Hj : 1076 <= Z.log2 N2).
    { unfold cexp_fine in *. rewrite !Z.abs_eq in * by lia. lia. }
    pose proof (Z.log2_spec N1 H1) as [_ Hhi].
    pose proof (Z.log2_spec N2 ltac:(lia)) as [Hlo _].
    assert (Hb : 2 ^ Z.succ (Z.log2 N1) <= 2 ^ Z.log2 N2)
      by (apply Z.pow_le_mono_r; lia).
    assert (Hrep : representable_fine (2 ^ Z.log2 N2)).
    { exists 1, (Z.log2 N2). split; [lia|]. split; [reflexivity|lia]. }
    apply Z.le_trans with (2 ^ Z.log2 N2).
    + apply (nearest_upper N1); try assumption; lia.
    + apply (nearest_lower N2); try assumption; lia.
Qed.

(** ** Rounding a mantissa to nearest *)

Lemma rounded_units_finite (s : bool) (q : positive) (e : Z) :
  -1074 <= e ->
  Z.pos (digits2_pos q) <= 53 ->
  (e = -1074 \/ Z.pos (digits2_pos q) = 53) ->
  let r := if e <=? 971 then S754_finite s q e else S754_infinity s in
  F64.valid r = true /\ F64.is_nan r = false /\
  units r * 2 ^ 1075 = rounded_units s (Z.pos q * 2 ^ (e + 2150)).
Proof.
  intros He Hd Hc r.
  pose proof (digits2_pos_bounds q) as [Dlo Dhi].
  pose proof (pow2_pos (e + 1075) ltac:(lia)) as Hp.
  assert (Hsplit : 2 ^ (e + 2150) = 2 ^ (e + 1075) * 2 ^ 1075).
  { replace (e + 2150) with ((e + 1075) + 1075) by lia.
    apply pow2_split; lia. }
  unfold r, rounded_units.
  destruct (Z.leb_spec e 971) as [Hle|Hgt].
  - split; [apply valid_finite_intro; lia|]. split; [reflexivity|].
    assert (Hlt : Z.pos q * 2 ^ (e + 2150) < 2 ^ 3174).
    { apply Z.lt_le_trans with (2 ^ 53 * 2 ^ (e + 2150)).
      - apply Zmult_lt_compat_r; [apply pow2_pos; lia|].
        eapply Z.lt_le_trans; [exact Dhi|]. apply Z.pow_le_mono_r; lia.
      - rewrite <- pow2_split by lia. apply Z.pow_le_mono_r; lia. }
    apply Z.ltb_lt in Hlt. rewrite Hlt. cbn [units].
    rewrite Hsplit. destruct s; cbn [cond_Zopp]; ring.
  - split; [reflexivity|]. split; [reflexivity|].
    assert (Hd53 : Z.pos (digits2_pos q) = 53) by lia.
    rewrite Hd53 in Dlo. change (53 - 1) with 52 in Dlo.
    assert (Hge : 2 ^ 3174 <= Z.pos q * 2 ^ (e + 2150)).
    { apply Z.le_trans with (2 ^ 52 * 2 ^ (e + 2150)).
      - rewrite <- pow2_split by lia. apply Z.pow_le_mono_r; lia.
      - apply Z.mul_le_mono_nonneg_r; [|exact Dlo].
        apply Z.lt_le_incl, pow2_pos. lia. }
    destruct (Z.ltb_spec (Z.pos q * 2 ^ (e + 2150)) (2 ^ 3174)) as [H|H];
      [lia|].
    cbn [units].
    replace (2 ^ 3175) with (2 ^ 2100 * 2 ^ 1075)
      by (rewrite <- pow2_split by lia; reflexivity).
    destruct s; cbn [cond_Zopp]; ring.
Qed.

(** The result of rounding an exact mantissa that has at least as many
    digits as its exponent allows is the nearest float to the value, and
    an infinity from 2^1024 on. *)
Lemma binary_round_aux_nearest (s : bool) (mz : positive) (ez : Z) :
  -2150 <= ez ->
  ez <= fexp 53 1024 (Z.pos (digits2_pos mz) + ez) ->
  exists W,
    nearest (Z.pos mz * 2 ^ (ez + 2150)) W /\
    F64.valid (binary_round_aux 53 1024 s (Z.pos mz) ez loc_Exact) = true /\
    F64.is_nan (binary_round_aux 53 1024 s (Z.pos mz) ez loc_Exact) = false /\
    units (binary_round_aux 53 1024 s (Z.pos mz) ez loc_Exact) * 2 ^ 1075
    = rounded_units s W.
Proof.
  intros Hez Hn.
  pose proof (digits2_pos_bounds mz) as [Dlo Dhi].
  pose proof (pow2_pos (ez + 2150) ltac:(lia)) as HK.
  assert (Hcexp : cexp_fine (Z.pos mz * 2 ^ (ez + 2150))
                  = fexp 53 1024 (Z.pos (digits2_pos mz) + ez) + 2150).
  { rewrite cexp_fine_scaled by lia. unfold fexp, emin. lia. }
  unfold binary_round_aux, shr_fexp. cbn [Zdigits2].
  set (d := Z.pos (digits2_pos mz)) in *.
  change (1024 - 53) with 971.
  destruct (fexp 53 1024 (d + ez) - ez) as [|p|p] eqn:E; [| |lia].
  - (* the mantissa is kept *)
    cbn [shr shr_record_of_loc loc_of_shr_record shr_m round_nearest_even
         Zdigits2].
    fold d. rewrite E. cbn [shr shr_record_of_loc shr_m].
    exists (Z.pos mz * 2 ^ (ez + 2150)).
    split.
    { apply nearest_on_grid. rewrite Hcexp.
      replace (fexp 53 1024 (d + ez) + 2150) with (ez + 2150) by lia.
      exists (Z.pos mz). reflexivity. }
    apply rounded_units_finite; unfold fexp, emin in E; fold d; lia.
  - (* the mantissa is shifted by [p] and rounded *)
    set (e1 := fexp 53 1024 (d + ez)) in *.
    assert (He1 : e1 = ez + Z.pos p) by lia.
    assert (He1' : -1074 <= e1) by (unfold e1, fexp, emin; lia).
    assert (Hpd : d - 53 <= Z.pos p) by (unfold e1, fexp, emin in E; lia).
    cbn [shr shr_record_of_loc].
    pose proof (iter_pos_reads (Z.pos mz) p ltac:(lia) 0 _
                  (shr_reads_start (Z.pos mz))) as Hread.
    rewrite Z.add_0_l in Hread.
    set (mrs1 := iter_pos shr_1 p
                   {| shr_m := Z.pos mz; shr_r := false; shr_s := false |})
      in *.
    destruct (round_nearest_even_reads (Z.pos mz) (Z.pos p) mrs1
                ltac:(lia) Hread) as [Hcases Hhalf].
    pose proof (pow2_pos (Z.pos p) ltac:(lia)) as Hpp.
    assert (Hm1 : 0 <= Z.pos mz / 2 ^ Z.pos p < 2 ^ 53).
    { split; [apply Z.div_pos; lia|].
      apply Z.div_lt_upper_bound; [lia|].
      eapply Z.lt_le_trans; [exact Dhi|].
      rewrite Z.mul_comm, <- pow2_split by lia.
      apply Z.pow_le_mono_r; lia. }
    assert (Hnormal : -1074 < e1 -> 2 ^ 52 <= Z.pos mz / 2 ^ Z.pos p).
    { intros H. assert (Hp53 : Z.pos p = d - 53)
        by (unfold e1, fexp, emin in *; lia).
      apply Z.div_le_lower_bound; [lia|].
      rewrite Z.mul_comm, <- pow2_split by lia.
      replace (52 + Z.pos p) with (d - 1) by lia. exact Dlo. }
    set (m2 := round_nearest_even (shr_m mrs1) (loc_of_shr_record mrs1)) in *.
    assert (Hb2 : 0 <= m2 <= 2 ^ 53) by lia.
    assert (Hnear : nearest (Z.pos mz * 2 ^ (ez + 2150))
                            (m2 * 2 ^ (e1 + 2150))).
    { unfold nearest. rewrite Hcexp. fold e1. split.
      - exists m2. reflexivity.
      - replace (e1 + 2150) with (Z.pos p + (ez + 2150)) by lia.
        rewrite pow2_split by lia.
        replace (m2 * (2 ^ Z.pos p * 2 ^ (ez + 2150))
                 - Z.pos mz * 2 ^ (ez + 2150))
          with ((m2 * 2 ^ Z.pos p - Z.pos mz) * 2 ^ (ez + 2150)) by ring.
        rewrite Z.abs_mul, (Z.abs_eq (2 ^ (ez + 2150))) by lia.
        rewrite Z.mul_assoc.
        apply Z.mul_le_mono_nonneg_r; lia. }
    exists (m2 * 2 ^ (e1 + 2150)). split; [exact Hnear|].
    replace (ez + Z.pos p) with e1 by lia.
    destruct m2 as [|q|q] eqn:Em2; [| |lia].
    + (* the value rounds to zero *)
      cbn [Zdigits2].
      rewrite shr_nonpos by (unfold fexp, emin; lia).
      cbn [shr_record_of_loc shr_m]. unfold rounded_units.
      rewrite Z.mul_0_l. cbn [units]. 
      split; [reflexivity|]. split; [reflexivity|].
      destruct s; reflexivity.
    + cbn [Zdigits2].
      destruct (Z.eq_dec (Z.pos q) (2 ^ 53)) as [Hq|Hq].
      * (* rounding carried into a 54th bit *)
        assert (q = 9007199254740992%positive)
          by (change (2 ^ 53) with 9007199254740992 in Hq; lia).
        subst q.
        replace (fexp 53 1024
                   (Z.pos (digits2_pos 9007199254740992) + e1) - e1) with 1
          by (change (Z.pos (digits2_pos 9007199254740992)) with 54;
              unfold fexp, emin; lia).
        cbn [shr iter_pos shr_record_of_loc shr_1 shr_m].
        replace (Z.pos 9007199254740992 * 2 ^ (e1 + 2150))
          with (Z.pos 4503599627370496 * 2 ^ (e1 + 1 + 2150)).
        { apply rounded_units_finite;
            change (Z.pos (digits2_pos 4503599627370496)) with 53; lia. }
        replace (e1 + 1 + 2150) with (1 + (e1 + 2150)) by lia.
        rewrite (pow2_split 1) by lia. change (2 ^ 1) with 2. lia.
      * pose proof (digits2_pos_bounds q) as [Qlo Qhi].
        assert (Hdq : Z.pos (digits2_pos q) <= 53).
        { destruct (Z.le_gt_cases (Z.pos (digits2_pos q)) 53) as [H|H];
            [exact H|].
          assert (2 ^ 53 <= 2 ^ (Z.pos (digits2_pos q) - 1))
            by (apply Z.pow_le_mono_r; lia).
          lia. }
        assert (Hcan : e1 = -1074 \/ Z.pos (digits2_pos q) = 53).
        { destruct (Z.eq_dec e1 (-1074)) as [H|H]; [left; exact H|right].
          apply digits2_pos_unique. change (53 - 1) with 52.
          specialize (Hnormal ltac:(lia)). lia. }
        rewrite shr_nonpos by (unfold fexp, emin; lia).
        cbn [shr_record_of_loc shr_m].
        apply rounded_units_finite; assumption.
Qed.

(** ** Products *)

Lemma digits2_pos_mul_ge (mx my : positive) :
  Z.pos (digits2_pos my) <= Z.pos (digits2_pos (mx * my)).
Proof.
  rewrite !digits2_pos_log2.
  pose proof (Z.log2_le_mono (Z.pos my) (Z.pos (mx * my)) ltac:(nia)). lia.
Qed.

(** The product of a non-negative finite float and a positive finite one
    is the nearest float to the exact product, and an infinity from 2^1024
    on. *)
Lemma mul_rounds (x y : F64.float) :
  F64.valid x = true -> F64.valid y = true ->
  F64.is_finite x = true -> F64.is_finite y = true ->
  0 <= units x -> 0 < units y ->
  exists W,
    nearest (units x * units y) W /\
    number (F64.mul x y) /\
    units (F64.mul x y) * 2 ^ 1075 = rounded_units false W.
Proof.
  intros Vx Vy Fx Fy Hx Hy.
  destruct y as [sy|sy| |sy my ey]; try discriminate.
  assert (sy = false) as ->.
  { destruct sy; [|reflexivity]. destruct (finite_below_infinity _ _ _ Vy).
    cbn [units cond_Zopp] in Hy. lia. }
  destruct x as [sx|sx| |sx mx ex]; try discriminate.
  - exists 0. cbn [units]. rewrite Z.mul_0_l. split.
    + apply nearest_on_grid. apply Z.divide_0_r.
    + split; [split; reflexivity|]. reflexivity.
  - assert (sx = false) as ->.
    { destruct sx; [|reflexivity]. destruct (finite_below_infinity _ _ _ Vx).
      cbn [units cond_Zopp] in Hx. lia. }
    destruct (valid_finite_inv _ _ _ Vx) as (Hex & Hdx & Hcx).
    destruct (valid_finite_inv _ _ _ Vy) as (Hey & Hdy & Hcy).
    unfold F64.mul, SFmul, F64.prec, F64.emax. cbn [xorb].
    change (Z.pos mx * Z.pos my) with (Z.pos (mx * my)).
    destruct (binary_round_aux_nearest false (mx * my) (ex + ey))
      as (W & Hnear & Hv & Hnan & Hu).
    + lia.
    + pose proof (digits2_pos_mul_ge mx my) as H1.
      pose proof (digits2_pos_mul_ge my mx) as H2.
      rewrite Pos.mul_comm in H2.
      unfold fexp, emin. lia.
    + exists W. split; [|split; [split; assumption|exact Hu]].
      cbn [units cond_Zopp].
      replace (Z.pos mx * 2 ^ (ex + 1075) * (Z.pos my * 2 ^ (ey + 1075)))
        with (Z.pos (mx * my) * 2 ^ (ex + ey + 2150)); [exact Hnear|].
      replace (ex + ey + 2150) with ((ex + 1075) + (ey + 1075)) by lia.
      rewrite pow2_split by lia. rewrite Pos2Z.inj_mul. ring.
Qed.

Lemma finite_units_bound (x : F64.float) :
  F64.valid x = true -> F64.is_finite x = true ->
  Z.abs (units x) < 2 ^ 2099.
Proof.
  intros Vx Fx. destruct x as [s|s| |s m e]; try discriminate.
  - cbn. lia.
  - pose proof (finite_magnitude _ _ _ Vx) as [_ Hhi]. cbv zeta in Hhi.
    destruct (valid_finite_inv _ _ _ Vx) as (He & Hd & _).
    destruct (finite_below_infinity _ _ _ Vx) as [Hpos _].
    assert (2 ^ (Z.pos (digits2_pos m) + e + 1075) <= 2 ^ 2099)
      by (apply Z.pow_le_mono_r; lia).
    cbn [units]. destruct s; cbn [cond_Zopp]; lia.
Qed.

Lemma units_representable_fine (x : F64.float) :
  F64.valid x = true -> F64.is_finite x = true ->
  representable_fine (units x * 2 ^ 1075).
Proof.
  intros Vx Fx. destruct x as [s|s| |s m e]; try discriminate.
  - exists 0, 1076. cbn. lia.
  - destruct (valid_finite_inv _ _ _ Vx) as (He & Hd & _).
    pose proof (digits2_pos_bounds m) as [_ Dhi].
    assert (Hm : Z.pos m < 2 ^ 53).
    { eapply Z.lt_le_trans; [exact Dhi|]. apply Z.pow_le_mono_r; lia. }
    exists (cond_Zopp s (Z.pos m)), (e + 2150).
    split; [|split; [|lia]].
    + cbn [units].
      replace (e + 2150) with ((e + 1075) + 1075) by lia.
      rewrite (pow2_split (e + 1075) 1075) by lia.
      destruct s; cbn [cond_Zopp]; ring.
    + destruct s; cbn [cond_Zopp]; lia.
Qed.

Lemma rounded_units_mono (W1 W2 : Z) :
  W1 <= W2 -> rounded_units false W1 <= rounded_units false W2.
Proof.
  intros H. unfold rounded_units. cbn [cond_Zopp].
  assert (2 ^ 3174 < 2 ^ 3175) by (apply Z.pow_lt_mono_r; lia).
  destruct (Z.ltb_spec W1 (2 ^ 3174)), (Z.ltb_spec W2 (2 ^ 3174)); lia.
Qed.

Lemma factor_cases (p : F64.float) :
  number p -> 0 <= units p ->
  (F64.is_finite p = true) \/ p = S754_infinity false.
Proof.
  intros [Vp Np] Hp. destruct p as [s|s| |s m e]; try discriminate; auto.
  destruct s; [|auto]. cbn [units cond_Zopp] in Hp.
  pose proof (pow2_pos 2100 ltac:(lia)). lia.
Qed.

Lemma mul_infinity (c : F64.float) :
  F64.is_finite c = true -> 0 < units c ->
  F64.mul (S754_infinity false) c = S754_infinity false.
Proof.
  intros Fc Hc. destruct c as [s|s| |s m e]; try discriminate.
  destruct s; [|reflexivity]. cbn [units cond_Zopp] in Hc.
  assert (0 <= Z.pos m * 2 ^ (e + 1075)); [|lia].
  apply Z.mul_nonneg_nonneg; [lia|]. apply Z.pow_nonneg. lia.
Qed.

(** Multiplying a non-negative number by a factor of at most one does not
    raise it. *)
Lemma mul_shrinks (p c : F64.float) :
  number p -> 0 <= units p ->
  F64.valid c = true -> F64.is_finite c = true ->
  0 < units c <= 2 ^ 1075 ->
  number (F64.mul p c) /\ units (F64.mul p c) <= units p.
Proof.
  intros Np Hp Vc Fc [Hc0 Hc1].
  destruct (factor_cases p Np Hp) as [Fp| ->].
  - destruct Np as [Vp _].
    destruct (mul_rounds p c Vp Vc Fp Fc Hp ltac:(lia))
      as (W & Hnear & Hnum & Hu).
    split; [exact Hnum|].
    pose proof (pow2_pos 1075 ltac:(lia)) as HP.
    pose proof (finite_units_bound p Vp Fp) as Hb.
    assert (HW : W <= units p * 2 ^ 1075).
    { destruct (Z.eq_dec (units p) 0) as [H0|H0].
      - rewrite H0, Z.mul_0_l in *. rewrite (nearest_zero W Hnear). lia.
      - apply (nearest_upper (units p * units c)); try assumption.
        + nia.
        + apply Z.mul_le_mono_nonneg_l; lia.
        + apply units_representable_fine; assumption. }
    assert (Hlt : W < 2 ^ 3174).
    { replace (2 ^ 3174) with (2 ^ 2099 * 2 ^ 1075)
        by (rewrite <- pow2_split by lia; reflexivity).
      rewrite Z.abs_eq in Hb by lia. nia. }
    unfold rounded_units in Hu. apply Z.ltb_lt in Hlt. rewrite Hlt in Hu.
    cbn [cond_Zopp] in Hu. nia.
  - rewrite mul_infinity by (assumption || lia).
    split; [split; reflexivity|lia].
Qed.

(** Multiplying a non-negative number by a factor of at least one does
    not lower it. *)
Lemma mul_grows (p c : F64.float) :
  number p -> 0 <= units p ->
  F64.valid c = true -> F64.is_finite c = true ->
  2 ^ 1075 <= units c ->
  number (F64.mul p c) /\ units p <= units (F64.mul p c).
Proof.
  intros Np Hp Vc Fc Hc1.
  pose proof (pow2_pos 1075 ltac:(lia)) as HP.
  destruct (factor_cases p Np Hp) as [Fp| ->].
  - destruct Np as [Vp _].
    destruct (mul_rounds p c Vp Vc Fp Fc Hp ltac:(lia))
      as (W & Hnear & Hnum & Hu).
    split; [exact Hnum|].
    pose proof (finite_units_bound p Vp Fp) as Hb.
    assert (HW : units p * 2 ^ 1075 <= W).
    { destruct (Z.eq_dec (units p) 0) as [H0|H0].
      - rewrite H0, Z.mul_0_l in *. rewrite (nearest_zero W Hnear). lia.
      - apply (nearest_lower (units p * units c)); try assumption.
        + nia.
        + apply Z.mul_le_mono_nonneg_l; lia.
        + apply units_representable_fine; assumption. }
    unfold rounded_units in Hu. cbn [cond_Zopp] in Hu.
    destruct (Z.ltb_spec W (2 ^ 3174)) as [H|H]; [nia|].
    assert (units p * 2 ^ 1075 < 2 ^ 3175); [|nia].
    replace (2 ^ 3175) with (2 ^ 2100 * 2 ^ 1075)
      by (rewrite <- pow2_split by lia; reflexivity).
    assert (2 ^ 2099 < 2 ^ 2100) by (apply Z.pow_lt_mono_r; lia).
    rewrite Z.abs_eq in Hb by lia. nia.
  - rewrite mul_infinity by (assumption || lia).
    split; [split; reflexivity|lia].
Qed.

(** Multiplying a non-negative number by the larger of two positive
    factors gives the larger product. *)
Lemma mul_monotone (p c1 c2 : F64.float) :
  number p -> 0 <= units p ->
  F64.valid c1 = true -> F64.is_finite c1 = true ->
  F64.valid c2 = true -> F64.is_finite c2 = true ->
  0 < units c1 -> units c1 < units c2 ->
  units (F64.mul p c1) <= units (F64.mul p c2).
Proof.
  intros Np Hp V1 F1 V2 F2 H1 H12.
  pose proof (pow2_pos 1075 ltac:(lia)) as HP.
  destruct (factor_cases p Np Hp) as [Fp| ->].
  - destruct Np as [Vp _].
    destruct (mul_rounds p c1 Vp V1 Fp F1 Hp H1) as (W1 & Hn1 & _ & Hu1).
    destruct (mul_rounds p c2 Vp V2 Fp F2 Hp ltac:(lia))
      as (W2 & Hn2 & _ & Hu2).
    assert (HW : W1 <= W2).
    { destruct (Z.eq_dec (units p) 0) as [H0|H0].
      - rewrite H0, Z.mul_0_l in *.
        rewrite (nearest_zero W1 Hn1), (nearest_zero W2 Hn2). lia.
      - apply (nearest_monotone (units p * units c1) (units p * units c2));
          try assumption; nia. }
    pose proof (rounded_units_mono W1 W2 HW). nia.
  - rewrite !mul_infinity by (assumption || lia). lia.
Qed.

(** * The zones around the price and the midline *)

(** The factors of the source: two below one and five above, in order. *)
Lemma factor_below_one (c : F64.float) :
  c = F64.lit_0_98 \/ c = F64.lit_0_995 ->
  F64.valid c = true /\ F64.is_finite c = true /\ 0 < units c <= 2 ^ 1075.
Proof.
  intros [-> | ->]; (split; [reflexivity|]; split; [reflexivity|]);
    split; [apply Z.ltb_lt|apply Z.leb_le| apply Z.ltb_lt|apply Z.leb_le];
    vm_compute; reflexivity.
Qed.

Lemma factor_above_one (c : F64.float) :
  In c [F64.lit_1_002; F64.lit_1_004; F64.lit_1_005; F64.lit_1_01;
        F64.lit_1_02] ->
  F64.valid c = true /\ F64.is_finite c = true /\
  0 < units c /\ 2 ^ 1075 <= units c.
Proof.
  cbn [In].
  intros [<- | [<- | [<- | [<- | [<- | []]]]]];
    (split; [reflexivity|]; split; [reflexivity|]);
    (split; [apply Z.ltb_lt|apply Z.leb_le]); vm_compute; reflexivity.
Qed.

Lemma factors_in_order :
  units F64.lit_1_002 < units F64.lit_1_004 /\
  units F64.lit_1_004 < units F64.lit_1_005 /\
  units F64.lit_1_01 < units F64.lit_1_02.
Proof. repeat split; apply Z.ltb_lt; vm_compute; reflexivity. Qed.

Lemma nonneg_number (p : F64.float) :
  F64.valid p = true -> F64.leb (F64.of_Z 0) p = true ->
  number p /\ 0 <= units p.
Proof.
  intros Vp Hp.
  destruct (leb_true_not_nan _ _ Hp) as [_ Np].
  assert (Hn : number p) by (split; assumption).
  split; [exact Hn|].
  rewrite leb_units in Hp by (assumption || (split; reflexivity)).
  apply Z.leb_le in Hp. exact Hp.
Qed.

(** Around a non-negative number: the product by a factor below one, the
    number, and its products by growing factors above one, in order. *)
Lemma products_in_order (p lo c1 c2 : F64.float) :
  F64.valid p = true -> F64.leb (F64.of_Z 0) p = true ->
  lo = F64.lit_0_98 \/ lo = F64.lit_0_995 ->
  In c1 [F64.lit_1_002; F64.lit_1_004; F64.lit_1_005; F64.lit_1_01;
         F64.lit_1_02] ->
  In c2 [F64.lit_1_002; F64.lit_1_004; F64.lit_1_005; F64.lit_1_01;
         F64.lit_1_02] ->
  units c1 < units c2 ->
  F64.leb (F64.mul p lo) p = true /\
  F64.leb p (F64.mul p c1) = true /\
  F64.leb (F64.mul p c1) (F64.mul p c2) = true.
Proof.
  intros Vp Hp Hlo H1 H2 H12.
  destruct (nonneg_number p Vp Hp) as [Np Up].
  destruct (factor_below_one lo Hlo) as (Vlo & Flo & Ulo).
  destruct (factor_above_one c1 H1) as (V1 & F1 & P1 & G1).
  destruct (factor_above_one c2 H2) as (V2 & F2 & P2 & G2).
  destruct (mul_shrinks p lo Np Up Vlo Flo Ulo) as [Nlo Hle].
  destruct (mul_grows p c1 Np Up V1 F1 G1) as [N1 Hge1].
  destruct (mul_grows p c2 Np Up V2 F2 G2) as [N2 _].
  pose proof (mul_monotone p c1 c2 Np Up V1 F1 V2 F2 P1 H12) as Hm.
  rewrite !leb_units by assumption.
  repeat split; apply Z.leb_le; assumption.
Qed.

(** The midline of two binary64 numbers is a binary64 number or NaN. *)
Lemma midline_valid (sh sl : F64.float) :
  F64.valid sh = true -> F64.valid sl = true ->
  F64.valid (midline_of sh sl) = true.
Proof.
  intros Vh Vl. unfold midline_of.
  destruct (F64.is_finite (F64.add sh sl)) eqn:Fs.
  - destruct (add_finite sh sl Vh Vl Fs) as (_ & _ & Vs & _).
    destruct (div_two _ Vs Fs) as (Vm & _). exact Vm.
  - destruct (F64.add sh sl) as [s|s| |s m e]; try discriminate;
      reflexivity.
Qed.

Lemma swings_valid (ohlcv_1d : list candle) (sh sl : F64.float) :
  Forall well_formed_candle ohlcv_1d ->
  swing_high_of ohlcv_1d = Ok sh -> swing_low_of ohlcv_1d = Ok sl ->
  F64.valid sh = true /\ F64.valid sl = true.
Proof.
  intros Hwf Hsh Hsl.
  destruct (well_formed_highs_lows _ Hwf) as (highs & lows & Ehs & Els & Hp).
  unfold swing_high_of, py_max in Hsh.
  rewrite (py_extremum_listcomp _ _ _ _ Ehs) in Hsh.
  unfold swing_low_of, py_min in Hsl.
  rewrite (py_extremum_listcomp _ _ _ _ Els) in Hsl.
  assert (Nh : Forall number highs).
  { clear -Hp. induction Hp as [|l h ls hs (_ & Hh & _) _ IH];
      constructor; assumption. }
  assert (Nl : Forall number lows).
  { clear -Hp. induction Hp as [|l h ls hs (Hl & _) _ IH];
      constructor; assumption. }
  destruct (py_max_greatest highs sh Nh Hsh) as (Ish & _).
  destruct (py_min_least lows sl Nl Hsl) as (Isl & _).
  rewrite Forall_forall in Nh, Nl.
  split; [apply (Nh sh Ish)|apply (Nl sl Isl)].
Qed.

(** X15. Whenever the detector returns on a latest price that is a
    non-negative binary64 number (infinity included): the "1H" order block
    has the price between its bounds, the "1H" fair value gap lies above
    the price, in order, and ends below the top of the order block, and the
    levels "EQL" and "EQH" of "15m" have the price between them. *)
Theorem hourly_zones_around_price
        ohlcv_1d ohlcv_4h ohlcv_1h ohlcv_15m r p :
  detect_structure_and_liquidity ohlcv_1d ohlcv_4h ohlcv_1h ohlcv_15m = Ok r ->
  latest_price_of ohlcv_15m = Ok p ->
  F64.valid p = true -> F64.leb (F64.of_Z 0) p = true ->
  exists tf_1h tf_15m z1 g1 eqh eql,
    dict_get r "1H" = Some tf_1h /\ dict_get r "15m" = Some tf_15m /\
    ob_zones tf_1h = [z1] /\ fvg_zones tf_1h = [g1] /\
    micro_liquidity tf_15m = [eqh; eql] /\
    F64.leb (ob_from_ z1) p = true /\ F64.leb p (ob_to z1) = true /\
    F64.leb p (fvg_from_ g1) = true /\
    F64.leb (fvg_from_ g1) (fvg_to g1) = true /\
    F64.leb (fvg_to g1) (ob_to z1) = true /\
    F64.leb (liq_price eql) p = true /\ F64.leb p (liq_price eqh) = true.
Proof.
  unfold detect_structure_and_liquidity, latest_price_of.
  intros H Hp Vp Pp.
  bind_inv H. rename v into last, E into Elast.
  bind_inv H. rename v into p', E into Ep.
  rewrite Elast in Hp. cbn [bind] in Hp.
  assert (p' = p) by congruence. subst p'.
  bind_inv H. bind_inv H. bind_inv H. bind_inv H. ok_inv H.
  destruct factors_in_order as (H24 & H45 & _).
  destruct (products_in_order p F64.lit_0_995 F64.lit_1_002 F64.lit_1_004
              Vp Pp) as (Hlo & Hg2 & Hm24);
    [right; reflexivity|cbn; tauto|cbn; tauto|exact H24|].
  destruct (products_in_order p F64.lit_0_995 F64.lit_1_004 F64.lit_1_005
              Vp Pp) as (_ & _ & Hm45);
    [right; reflexivity|cbn; tauto|cbn; tauto|exact H45|].
  destruct (products_in_order p F64.lit_0_995 F64.lit_1_005 F64.lit_1_01
              Vp Pp) as (_ & Hg5 & _);
    [right; reflexivity|cbn; tauto|cbn; tauto|
     apply Z.ltb_lt; vm_compute; reflexivity|].
  do 6 eexists.
  split; [reflexivity|]. split; [reflexivity|].
  split; [reflexivity|]. split; [reflexivity|]. split; [reflexivity|].
  cbn [ob_from_ ob_to fvg_from_ fvg_to liq_price].
  repeat split; assumption.
Qed.

Lemma hourly_zones_around_price_witness :
  exists r p tf_1h tf_15m z1 g1 eqh eql,
    detect_structure_and_liquidity sample_1d sample_4h sample_1h sample_15m
    = Ok r /\
    latest_price_of sample_15m = Ok p /\
    dict_get r "1H" = Some tf_1h /\ dict_get r "15m" = Some tf_15m /\
    ob_zones tf_1h = [z1] /\ fvg_zones tf_1h = [g1] /\
    micro_liquidity tf_15m = [eqh; eql] /\
    F64.leb (ob_from_ z1) p = true /\ F64.leb p (ob_to z1) = true /\
    F64.leb p (fvg_from_ g1) = true /\
    F64.leb (fvg_from_ g1) (fvg_to g1) = true /\
    F64.leb (fvg_to g1) (ob_to z1) = true /\
    F64.leb (liq_price eql) p = true /\ F64.leb p (liq_price eqh) = true.
Proof.
  destruct (detect_structure_and_liquidity
              sample_1d sample_4h sample_1h sample_15m) as [r|e] eqn:E;
    [|vm_compute in E; discriminate].
  exists r, (F64.of_Z 97).
  destruct (hourly_zones_around_price
              sample_1d sample_4h sample_1h sample_15m r (F64.of_Z 97) E)
    as (tfh & tf15 & z1 & g1 & eqh & eql & H);
    [reflexivity|reflexivity|reflexivity|].
  exists tfh, tf15, z1, g1, eqh, eql.
  split; [reflexivity|]. split; [reflexivity|]. exact H.
Defined.

(** X16. On daily candles with low <= high, whenever the detector returns
    with a midline that is a non-negative number (infinity included): the
    "4H" order block has the midline between its bounds, and the "4H" fair
    value gap lies above the midline, in order, up to the top of the order
    block. *)
Theorem four_hour_zones_around_midline
        ohlcv_1d ohlcv_4h ohlcv_1h ohlcv_15m r tf_1d mid :
  Forall well_formed_candle ohlcv_1d ->
  detect_structure_and_liquidity ohlcv_1d ohlcv_4h ohlcv_1h ohlcv_15m = Ok r ->
  dict_get r "1D" = Some tf_1d -> midline_50 tf_1d = Some mid ->
  F64.leb (F64.of_Z 0) mid = true ->
  exists tf_4h z4 g4,
    dict_get r "4H" = Some tf_4h /\
    ob_zones tf_4h = [z4] /\ fvg_zones tf_4h = [g4] /\
    F64.leb (ob_from_ z4) mid = true /\ F64.leb mid (ob_to z4) = true /\
    F64.leb mid (fvg_from_ g4) = true /\
    F64.leb (fvg_from_ g4) (fvg_to g4) = true /\
    F64.leb (fvg_to g4) (ob_to z4) = true.
Proof.
  unfold detect_structure_and_liquidity.
  intros Hwf H Htf Hmid Pm.
  bind_inv H. rename v into last, E into Elast.
  bind_inv H. rename v into p, E into Ep.
  bind_inv H. rename v into sh, E into Esh.
  bind_inv H. rename v into sl, E into Esl.
  bind_inv H. bind_inv H. ok_inv H.
  cbn in Htf. injection Htf as <-. cbn [midline_50] in Hmid.
  injection Hmid as <-.
  destruct (swings_valid ohlcv_1d sh sl Hwf Esh Esl) as [Vh Vl].
  pose proof (midline_valid sh sl Vh Vl) as Vm. unfold midline_of in Vm, Pm.
  set (mid := F64.div (F64.add sh sl) (F64.of_Z 2)) in *.
  destruct factors_in_order as (_ & _ & H12).
  destruct (products_in_order mid F64.lit_0_98 F64.lit_1_01 F64.lit_1_02
              Vm Pm) as (Hlo & Hg1 & Hm12);
    [left; reflexivity|cbn; tauto|cbn; tauto|exact H12|].
  assert (Hg2 : F64.leb mid (F64.mul mid F64.lit_1_02) = true).
  { destruct (nonneg_number mid Vm Pm) as [Nm Um].
    destruct (factor_above_one F64.lit_1_02) as (V2 & F2 & P2 & G2);
      [cbn; tauto|].
    destruct (mul_grows mid F64.lit_1_02 Nm Um V2 F2 G2) as [N2 Hge].
    rewrite leb_units by assumption. apply Z.leb_le. exact Hge. }
  assert (Hrefl : F64.leb (F64.mul mid F64.lit_1_02)
                          (F64.mul mid F64.lit_1_02) = true).
  { destruct (nonneg_number mid Vm Pm) as [Nm Um].
    destruct (factor_above_one F64.lit_1_02) as (V2 & F2 & P2 & G2);
      [cbn; tauto|].
    destruct (mul_grows mid F64.lit_1_02 Nm Um V2 F2 G2) as [N2 _].
    rewrite leb_units by assumption. apply Z.leb_le. lia. }
  do 3 eexists.
  split; [reflexivity|]. split; [reflexivity|]. split; [reflexivity|].
  cbn [ob_from_ ob_to fvg_from_ fvg_to].
  repeat split; assumption.
Qed.

Lemma four_hour_zones_around_midline_witness :
  exists r tf_1d mid tf_4h z4 g4,
    detect_structure_and_liquidity sample_1d sample_4h sample_1h sample_15m
    = Ok r /\
    dict_get r "1D" = Some tf_1d /\ midline_50 tf_1d = Some mid /\
    dict_get r "4H" = Some tf_4h /\
    ob_zones tf_4h = [z4] /\ fvg_zones tf_4h = [g4] /\
    F64.leb (ob_from_ z4) mid = true /\ F64.leb mid (ob_to z4) = true /\
    F64.leb mid (fvg_from_ g4) = true /\
    F64.leb (fvg_from_ g4) (fvg_to g4) = true /\
    F64.leb (fvg_to g4) (ob_to z4) = true.
Proof.
  destruct (detect_structure_and_liquidity
              sample_1d sample_4h sample_1h sample_15m) as [r|e] eqn:E;
    [|vm_compute in E; discriminate].
  destruct (dict_get r "1D") as [tf|] eqn:Etf;
    [|vm_compute in E; injection E as <-; vm_compute in Etf; discriminate].
  destruct (midline_50 tf) as [mid|] eqn:Emid;
    [|vm_compute in E; injection E as <-; vm_compute in Etf;
      injection Etf as <-; vm_compute in Emid; discriminate].
  exists r, tf, mid.
  assert (Pm : F64.leb (F64.of_Z 0) mid = true).
  { vm_compute in E. injection E as <-. vm_compute in Etf.
    injection Etf as <-. vm_compute in Emid. injection Emid as <-.
    reflexivity. }
  destruct (four_hour_zones_around_midline
              sample_1d sample_4h sample_1h sample_15m r tf mid
              sample_1d_well_formed E Etf Emid Pm)
    as (tf4 & z4 & g4 & H).
  exists tf4, z4, g4.
  split; [reflexivity|]. split; [exact Etf|]. split; [exact Emid|].
  exact H.
Defined.

(** * A latest price that is not a number *)

(** X17. Whenever the detector returns on a latest price that is NaN, the
    answer is bearish: "1D" has the bias "premium_SHORT" and the trend
    "bearish_LH_LL", and the four contexts have bos "down", whatever the
    other prices are. *)
Theorem nan_price_is_bearish ohlcv_1d ohlcv_4h ohlcv_1h ohlcv_15m r p :
  detect_structure_and_liquidity ohlcv_1d ohlcv_4h ohlcv_1h ohlcv_15m = Ok r ->
  latest_price_of ohlcv_15m = Ok p ->
  F64.is_nan p = true ->
  (exists tf_1d,
      dict_get r "1D" = Some tf_1d /\
      bias tf_1d = Some "premium_SHORT" /\
      trend tf_1d = Some "bearish_LH_LL") /\
  Forall (fun key => exists tf, dict_get r key = Some tf /\
                                bos tf = Some "down")
         ["1D"; "4H"; "1H"; "15m"].
Proof.
  intros H Hp Np.
  destruct (detect_quantities _ _ _ _ _ H)
    as (p' & sh & sl & med & tf1 & tf4 & tfh & tf15
        & Hp' & _ & _ & _ & -> & (Hb & Ht & _) & (B1 & B4 & Bh & B15) & _).
  assert (p' = p) by congruence. subst p'.
  destruct p; try discriminate.
  assert (Hgt : forall y, F64.gtb S754_nan y = false)
    by (intros y; destruct y; reflexivity).
  rewrite Hgt in Ht, B1, B4, Bh, B15.
  change (F64.ltb S754_nan (midline_of sh sl)) with false in Hb.
  split.
  - exists tf1. split; [reflexivity|]. split; assumption.
  - repeat constructor; eexists; (split; [reflexivity|]); assumption.
Qed.

Lemma nan_price_is_bearish_witness :
  exists r,
    detect_structure_and_liquidity sample_1d sample_4h sample_1h nan_15m
    = Ok r /\
    (exists tf_1d,
        dict_get r "1D" = Some tf_1d /\
        bias tf_1d = Some "premium_SHORT" /\
        trend tf_1d = Some "bearish_LH_LL") /\
    Forall (fun key => exists tf, dict_get r key = Some tf /\
                                  bos tf = Some "down")
           ["1D"; "4H"; "1H"; "15m"].
Proof.
  destruct (detect_structure_and_liquidity
              sample_1d sample_4h sample_1h nan_15m)
    as [r|e] eqn:E; [|vm_compute in E; discriminate].
  exists r. split; [reflexivity|].
  apply (nan_price_is_bearish sample_1d sample_4h sample_1h nan_15m
           r S754_nan E); reflexivity.
Defined.

(** * Integers too large for a float *)

Lemma binary_round_nearest (s : bool) (m : positive) (e : Z) :
  -1074 <= e ->
  exists W,
    nearest (Z.pos m * 2 ^ (e + 2150)) W /\
    F64.valid (binary_round 53 1024 s m e) = true /\
    F64.is_nan (binary_round 53 1024 s m e) = false /\
    units (binary_round 53 1024 s m e) * 2 ^ 1075 = rounded_units s W.
Proof.
  intros He. unfold binary_round.
  set (f := fexp 53 1024 (Z.pos (digits2_pos m) + e)).
  assert (Hf : -1074 <= f) by (unfold f, fexp, emin; lia).
  destruct (Z.le_gt_cases f e) as [Hle|Hgt].
  - destruct (shl_align_le m e f Hle) as (m' & -> & Hm').
    assert (Hd : Z.pos (digits2_pos m') = Z.pos (digits2_pos m) + (e - f))
      by (apply digits2_pos_shift; [lia|exact Hm']).
    replace (Z.pos m * 2 ^ (e + 2150)) with (Z.pos m' * 2 ^ (f + 2150)).
    + apply binary_round_aux_nearest; [lia|].
      rewrite Hd.
      replace (Z.pos (digits2_pos m) + (e - f) + f)
        with (Z.pos (digits2_pos m) + e) by lia.
      fold f. lia.
    + rewrite Hm'.
      replace (e + 2150) with ((e - f) + (f + 2150)) by lia.
      rewrite (pow2_split (e - f)) by lia. ring.
  - rewrite (shl_align_gt m e f Hgt).
    apply binary_round_aux_nearest; [lia|]. fold f. lia.
Qed.

(** A float made from a rounded magnitude is finite below 2^1024. *)
Lemma rounded_units_is_finite (s : bool) (x : F64.float) (W : Z) :
  0 <= W ->
  F64.valid x = true -> F64.is_nan x = false ->
  units x * 2 ^ 1075 = rounded_units s W ->
  F64.is_finite x = (W <? 2 ^ 3174).
Proof.
  intros HW Vx Nx Hu. unfold rounded_units in Hu.
  pose proof (pow2_pos 1075 ltac:(lia)) as HP.
  assert (H1 : 2 ^ 3174 = 2 ^ 2099 * 2 ^ 1075)
    by (rewrite <- pow2_split by lia; reflexivity).
  assert (H2 : 2 ^ 3175 = 2 ^ 2100 * 2 ^ 1075)
    by (rewrite <- pow2_split by lia; reflexivity).
  assert (H3 : 2 ^ 2099 < 2 ^ 2100) by (apply Z.pow_lt_mono_r; lia).
  destruct (Z.ltb_spec W (2 ^ 3174)) as [Hlt|Hge].
  - destruct x as [sx|sx| |sx mx ex]; try reflexivity; try discriminate.
    cbn [units] in Hu. destruct sx, s; cbn [cond_Zopp] in Hu; nia.
  - destruct x as [sx|sx| |sx mx ex]; try reflexivity; try discriminate.
    + cbn [units] in Hu. destruct s; cbn [cond_Zopp] in Hu; nia.
    + pose proof (finite_units_bound _ Vx eq_refl) as Hb.
      apply Z.abs_lt in Hb. destruct s; cbn [cond_Zopp] in Hu; nia.
Qed.

(** An integer rounds to a finite float below 2^1024 - 2^970, half a step
    above the largest float, and overflows from there on. *)
Lemma binary_round_integer (s : bool) (p : positive) :
  F64.is_finite (binary_round 53 1024 s p 0)
  = (Z.pos p <? 2 ^ 1024 - 2 ^ 970).
Proof.
  destruct (Z.eq_dec (Z.pos p) (2 ^ 1024 - 2 ^ 970)) as [Heq|Hne].
  { (* the threshold itself: a tie, which rounds to the even 2^1024 *)
    assert (Hp : p = Z.to_pos (2 ^ 1024 - 2 ^ 970)) by lia.
    rewrite Hp. destruct s; vm_compute; reflexivity. }
  destruct (binary_round_nearest s p 0 ltac:(lia))
    as (W & Hnear & Vx & Nx & Hu).
  pose proof (pow2_pos 2150 ltac:(lia)) as HK.
  rewrite Z.add_0_l in Hnear.
  set (N := Z.pos p * 2 ^ 2150) in *.
  assert (HN : 0 < N) by (unfold N; nia).
  assert (HW : 0 <= W) by (apply (nearest_nonneg N); [lia|exact Hnear]).
  rewrite (rounded_units_is_finite s _ W HW Vx Nx Hu).
  clear Vx Nx Hu.
  assert (HT : (2 ^ 1024 - 2 ^ 970) * 2 ^ 2150 = 2 ^ 3174 - 2 ^ 3120).
  { rewrite Z.mul_sub_distr_r, <- !pow2_split by lia. reflexivity. }
  assert (Hmax : (2 ^ 53 - 1) * 2 ^ 3121 = 2 ^ 3174 - 2 ^ 3121).
  { rewrite Z.mul_sub_distr_r, <- pow2_split by lia. reflexivity. }
  assert (H20 : 2 ^ 3121 = 2 * 2 ^ 3120)
    by (rewrite <- (pow2_split 1) by lia; reflexivity).
  assert (H73 : 2 ^ 3174 = 2 * 2 ^ 3173)
    by (rewrite <- (pow2_split 1) by lia; reflexivity).
  assert (H21 : 2 ^ 3121 <= 2 ^ 3173) by (apply Z.pow_le_mono_r; lia).
  pose proof (pow2_pos 3120 ltac:(lia)) as HP.
  assert (Hrep : representable_fine ((2 ^ 53 - 1) * 2 ^ 3121)).
  { exists (2 ^ 53 - 1), 3121. split; [reflexivity|]. cbn. lia. }
  assert (Hc : (2 ^ 53 - 1) * 2 ^ 3121 < N < 2 ^ 3174 -> cexp_fine N = 3121).
  { intros [Hlo Hhi]. unfold cexp_fine. rewrite Z.abs_eq by lia.
    assert (Z.log2 N = 3173); [|lia].
    apply Z.log2_unique; [lia|].
    change (Z.succ 3173) with 3174. lia. }
  destruct (Z.ltb_spec (Z.pos p) (2 ^ 1024 - 2 ^ 970)) as [Hlt|Hge].
  - (* below the threshold *)
    assert (HNT : N < 2 ^ 3174 - 2 ^ 3120).
    { rewrite <- HT. unfold N. apply Zmult_lt_compat_r; assumption. }
    apply Z.ltb_lt.
    destruct (Z.le_gt_cases N ((2 ^ 53 - 1) * 2 ^ 3121)) as [Hle|Habove].
    + pose proof (nearest_upper N W _ HN Hle Hrep Hnear). lia.
    + destruct Hnear as [_ Hhalf]. rewrite Hc in Hhalf by lia. lia.
  - (* above the threshold *)
    assert (HNT : 2 ^ 3174 - 2 ^ 3120 < N).
    { rewrite <- HT. unfold N. apply Zmult_lt_compat_r; lia. }
    apply Z.ltb_ge.
    destruct (Z.le_gt_cases (2 ^ 3174) N) as [Hle|Hbelow].
    + apply (nearest_lower N); try assumption; try lia.
      exists 1, 3174. split; [lia|]. split; [reflexivity|lia].
    + destruct Hnear as [[c Hc'] Hhalf]. rewrite Hc in * by lia.
      replace (2 ^ 3174) with (2 ^ 53 * 2 ^ 3121)
        by (rewrite <- pow2_split by lia; reflexivity).
      subst W. apply Z.mul_le_mono_nonneg_r; [lia|].
      assert ((2 ^ 53 - 1) * 2 ^ 3121 < c * 2 ^ 3121) by lia.
      assert (2 ^ 53 - 1 < c); [|lia].
      apply Z.mul_lt_mono_pos_r with (p := 2 ^ 3121); lia.
Qed.

Lemma py_float_integer
      (float_of_str : string -> result F64.float) (n : Z) :
  py_float float_of_str (JInt n)
  = if Z.abs n <? 2 ^ 1024 - 2 ^ 970 then Ok (F64.of_Z n)
    else Raise OverflowError.
Proof.
  cbn [py_float].
  assert (H : F64.is_finite (F64.of_Z n) = (Z.abs n <? 2 ^ 1024 - 2 ^ 970)).
  { destruct n as [|p|p].
    - reflexivity.
    - apply (binary_round_integer false p).
    - apply (binary_round_integer true p). }
  rewrite H. reflexivity.
Qed.

(** X18. An entry whose price and size are integers, or are missing and
    count as 0: the loop keeps it, with the floats nearest to the two
    integers, when both magnitudes are below 2^1024 - 2^970, half a step
    above the largest float; from there on [float] raises OverflowError
    and the entry is skipped. *)
Theorem integer_entry_overflow
        (float_of_str : string -> result F64.float)
        (d : list (string * json)) (p z : Z) :
  field_or_zero d "price" = JInt p ->
  field_or_zero d "size" = JInt z ->
  kept_cluster float_of_str (JObj d)
  = if (Z.abs p <? 2 ^ 1024 - 2 ^ 970) && (Z.abs z <? 2 ^ 1024 - 2 ^ 970)
    then [ {| side := if json_eq_str (side_field d) "short" then "short"
                      else "long";
              price := F64.of_Z p;
              size_usd := F64.of_Z z |} ]
    else [].
Proof.
  intros Hp Hz.
  unfold kept_cluster, entry_cluster. cbn [json_get bind].
  fold (field_or_zero d "price"). fold (field_or_zero d "size").
  fold (side_field d).
  rewrite Hp, Hz, !py_float_integer.
  destruct (Z.abs p <? 2 ^ 1024 - 2 ^ 970); cbn [bind andb]; [|reflexivity].
  destruct (Z.abs z <? 2 ^ 1024 - 2 ^ 970); reflexivity.
Qed.

Lemma integer_entry_overflow_witness :
  kept_cluster no_float_of_str (entry "short" (2 ^ 1024 - 2 ^ 970) 5) = [] /\
  kept_cluster no_float_of_str (entry "short" (2 ^ 1024 - 2 ^ 970 - 1) 5)
  = [ {| side := "short"; price := F64.max_float;
         size_usd := F64.of_Z 5 |} ].
Proof.
  unfold entry. split.
  - rewrite (integer_entry_overflow no_float_of_str _ (2 ^ 1024 - 2 ^ 970) 5);
      reflexivity.
  - rewrite (integer_entry_overflow no_float_of_str _
               (2 ^ 1024 - 2 ^ 970 - 1) 5); reflexivity.
Defined.
